(** * MuleSoft migration assessment: the configuration model extractor

    A shallow embedding of [migration_assessment.py] (class
    [MuleSoftAnalyzer]) and the properties of its specification.

    Conventions of the embedding:
    - a Python [str] is a [string]; a character is a code point below 256;
    - a Python [int] is a [Z]; a Python [float] is an IEEE-754 binary64
      value, [spec_float] with 53 bits of precision;
    - a Python [dict] is an association list in insertion order with
      pairwise distinct keys; a [set] is a [gset];
    - [print] appends a line to an explicit output log;
    - an exception that the program catches is an [outcome] of the call that
      raises it; the one exception it does not catch in the modelled code,
      [OverflowError] of an int-to-float conversion, is [None];
    - the file system, the XML parser and the regular-expression engine are
      collaborators: a directory or a file is represented by what they
      return for it. *)

From Stdlib Require Import ZArith String Ascii List Lia Permutation.
From Stdlib Require Import Floats.SpecFloat.
From stdpp Require Import gmap strings.
Import ListNotations.
Open Scope Z_scope.

(** * Python strings *)

Module PyStr.

(** [s.startswith(p)] *)
Fixpoint startswith (s p : string) {struct p} : bool :=
  match p with
  | EmptyString => true
  | String a p' =>
      match s with
      | EmptyString => false
      | String b s' => Ascii.eqb a b && startswith s' p'
      end
  end.

(** [s.endswith(suf)] *)
Fixpoint endswith (s suf : string) : bool :=
  String.eqb s suf ||
  match s with
  | EmptyString => false
  | String _ s' => endswith s' suf
  end.

(** [sub in s] *)
Fixpoint contains (s sub : string) : bool :=
  startswith s sub ||
  match s with
  | EmptyString => false
  | String _ s' => contains s' sub
  end.

(** [s.split(sep)] for a one-character separator: never empty. *)
Fixpoint split (sep : ascii) (s : string) : list string :=
  match s with
  | EmptyString => [EmptyString]
  | String c s' =>
      if Ascii.eqb c sep then EmptyString :: split sep s'
      else match split sep s' with
           | seg :: segs => String c seg :: segs
           | [] => [String c EmptyString]
           end
  end.

(** [s.split(sep)[-1]] *)
Definition last_part (sep : ascii) (s : string) : string :=
  List.last (split sep s) EmptyString.

(** [s.split(sep)[1]]; the program only evaluates it behind a
    [startswith] test that makes the index exist (lemma
    [index1_after_prefix]). *)
Definition index1 (sep : ascii) (s : string) : string :=
  List.nth 1 (split sep s) EmptyString.

(** [s.rsplit(sep, 1)] when [sep in s]: the text before and after the last
    separator; [None] when the separator does not occur. *)
Fixpoint rsplit1 (sep : ascii) (s : string) : option (string * string) :=
  match s with
  | EmptyString => None
  | String c s' =>
      match rsplit1 sep s' with
      | Some (before, after) => Some (String c before, after)
      | None => if Ascii.eqb c sep then Some (EmptyString, s') else None
      end
  end.

(** [s.split(sep, 1)] when [sep in s]: the text before and after the first
    separator; [None] when the separator does not occur. *)
Fixpoint split1 (sep : ascii) (s : string) : option (string * string) :=
  match s with
  | EmptyString => None
  | String c s' =>
      if Ascii.eqb c sep then Some (EmptyString, s')
      else match split1 sep s' with
           | Some (before, after) => Some (String c before, after)
           | None => None
           end
  end.

(** [s[1:]] *)
Definition drop1 (s : string) : string :=
  match s with
  | EmptyString => EmptyString
  | String _ s' => s'
  end.

Definition code (c : ascii) : N := N_of_ascii c.

(** [c.isspace()] for code points below 256. *)
Definition isspace (c : ascii) : bool :=
  let n := code c in
  ((9 <=? n) && (n <=? 13) || (28 <=? n) && (n <=? 32)
   || (n =? 133) || (n =? 160))%N.

(** The running word and the finished words of [s.split()]. *)
Fixpoint words (s : string) : string * list string :=
  match s with
  | EmptyString => (EmptyString, [])
  | String c s' =>
      let '(cur, rest) := words s' in
      if isspace c
      then (EmptyString,
            match cur with EmptyString => rest | _ => cur :: rest end)
      else (String c cur, rest)
  end.

(** [s.split()] *)
Definition split_whitespace (s : string) : list string :=
  let '(cur, rest) := words s in
  match cur with EmptyString => rest | _ => cur :: rest end.

(** A line boundary of [str.splitlines], code points below 256; a
    carriage return followed by a line feed is one boundary. *)
Definition is_linebreak (c : ascii) : bool :=
  let n := code c in
  ((10 <=? n) && (n <=? 13) || (28 <=? n) && (n <=? 30) || (n =? 133))%N.

(** [len(s.splitlines())]; [pending] says that characters were read since
    the last boundary. *)
Fixpoint count_lines (pending : bool) (s : string) : Z :=
  match s with
  | EmptyString => if pending then 1 else 0
  | String c s' =>
      if (code c =? 13)%N then
        match s' with
        | String c' s'' =>
            if (code c' =? 10)%N then 1 + count_lines false s''
            else 1 + count_lines false s'
        | EmptyString => 1
        end
      else if is_linebreak c then 1 + count_lines false s'
      else count_lines true s'
  end.

Definition splitlines_len (s : string) : Z := count_lines false s.

(** [s.count(c)] for one character. *)
Fixpoint count (c : ascii) (s : string) : Z :=
  match s with
  | EmptyString => 0
  | String c' s' => (if Ascii.eqb c' c then 1 else 0) + count c s'
  end.

(** [sep.join(parts)] *)
Definition join (sep : string) (parts : list string) : string :=
  String.concat sep parts.

End PyStr.

(** * Python dictionaries with string keys *)

Definition dict (V : Type) : Type := list (string * V).

Module Dict.
Section Ops.
Context {V : Type}.

(** [d.get(k)] *)
Fixpoint get (k : string) (d : dict V) : option V :=
  match d with
  | [] => None
  | (k', v) :: d' => if String.eqb k k' then Some v else get k d'
  end.

(** [d.get(k, dflt)] *)
Definition get_or (k : string) (dflt : V) (d : dict V) : V :=
  match get k d with Some v => v | None => dflt end.

(** [k in d] *)
Definition mem (k : string) (d : dict V) : bool :=
  match get k d with Some _ => true | None => false end.

(** [d[k] = v]: an existing key keeps its place, a new key goes last. *)
Fixpoint set (k : string) (v : V) (d : dict V) : dict V :=
  match d with
  | [] => [(k, v)]
  | (k', v') :: d' =>
      if String.eqb k k' then (k', v) :: d' else (k', v') :: set k v d'
  end.

Definition keys (d : dict V) : list string := map fst d.
Definition values (d : dict V) : list V := map snd d.
End Ops.

(** [d[k] = d.get(k, 0) + n] *)
Definition add (k : string) (n : Z) (d : dict Z) : dict Z :=
  set k (get_or k 0 d + n) d.

(** [sum(d.values())] *)
Definition total (d : dict Z) : Z :=
  fold_right Z.add 0 (values d).
End Dict.

(** * Python numbers: binary64 floats and the int/float tower *)

Definition float : Type := spec_float.

Module PyFloat.
Definition prec : Z := 53.
Definition emax : Z := 1024.

Definition add : float -> float -> float := SFadd prec emax.
Definition sub : float -> float -> float := SFsub prec emax.
Definition mul : float -> float -> float := SFmul prec emax.
Definition div : float -> float -> float := SFdiv prec emax.
Definition abs : float -> float := SFabs.
Definition leb : float -> float -> bool := SFleb.

(** The binary64 value nearest to an integer (ties to even); an infinity
    when it is out of range. *)
Definition nearest (z : Z) : float := binary_normalize prec emax z 0 false.

(** [float(z)], the conversion of an [int] operand: [OverflowError] when
    the nearest value is not finite. *)
Definition of_int (z : Z) : option float :=
  match nearest z with
  | S754_infinity _ => None
  | f => Some f
  end.

(** The literals [0.1] and [0.01]. *)
Definition lit_0_1 : float := S754_finite false 7205759403792794 (-56).
Definition lit_0_01 : float := S754_finite false 5764607523034235 (-59).

Definition is_finite (x : float) : bool :=
  match x with
  | S754_zero _ | S754_finite _ _ _ => true
  | _ => false
  end.

Definition is_zero (x : float) : bool :=
  match x with S754_zero _ => true | _ => false end.

(** The integer nearest to [n / d], ties to the even one ([0 <= n],
    [0 < d]). *)
Definition div_half_even (n d : Z) : Z :=
  let q := n / d in
  match (2 * (n mod d)) ?= d with
  | Lt => q
  | Gt => q + 1
  | Eq => if Z.even q then q else q + 1
  end.

(** [round(x, 2)]: the exact value of [x] is rounded to the nearest
    multiple of 1/100, ties to even, and the decimal so obtained is read
    back as the nearest binary64 value.  Zeros, infinities and NaN round
    to themselves. *)
Definition round2 (x : float) : float :=
  match x with
  | S754_finite s m e =>
      let hundredths :=
        if 0 <=? e then Z.pos m * 2 ^ e * 100
        else div_half_even (Z.pos m * 100) (2 ^ (- e)) in
      match hundredths with
      | Z.pos k => div (S754_finite s k 0) (S754_finite false 100 0)
      | _ => S754_zero s
      end
  | _ => x
  end.
End PyFloat.

(** A value of Python's numeric tower as the scorer uses it. *)
Inductive number : Type :=
| PyInt (z : Z)
| PyFloat (f : float).

Module PyNum.
(** The float operand that [+] and [*] make of a number. *)
Definition to_float (a : number) : option float :=
  match a with
  | PyInt z => PyFloat.of_int z
  | PyFloat f => Some f
  end.

(** [a + b] *)
Definition add (a b : number) : option number :=
  match a, b with
  | PyInt x, PyInt y => Some (PyInt (x + y))
  | _, _ =>
      x ← to_float a; y ← to_float b; Some (PyFloat (PyFloat.add x y))
  end.

(** [a * b] *)
Definition mul (a b : number) : option number :=
  match a, b with
  | PyInt x, PyInt y => Some (PyInt (x * y))
  | _, _ =>
      x ← to_float a; y ← to_float b; Some (PyFloat (PyFloat.mul x y))
  end.

(** [round(a, 2)]: an [int] is returned unchanged. *)
Definition round2 (a : number) : number :=
  match a with
  | PyInt z => PyInt z
  | PyFloat f => PyFloat (PyFloat.round2 f)
  end.
End PyNum.

(** * Parsed documents and files as the collaborators return them *)

(** An element of [xml.etree.ElementTree]: its tag (the text
    [{namespace}local] for a namespaced element), its attributes in document
    order and its children. *)
#[local] Unset Elimination Schemes.
Inductive Element : Type :=
| Elem (tag : string) (attrib : dict string) (children : list Element).
#[local] Set Elimination Schemes.

Definition tag (e : Element) : string :=
  match e with Elem t _ _ => t end.
Definition attrib (e : Element) : dict string :=
  match e with Elem _ a _ => a end.
Definition children (e : Element) : list Element :=
  match e with Elem _ _ cs => cs end.

(** [list(root.iter())]: the element and its descendants in document order. *)
Fixpoint iter (e : Element) : list Element :=
  match e with
  | Elem _ _ cs => e :: flat_map iter cs
  end.

(** The number of elements of a document, by recursion on the tree. *)
Fixpoint element_count (e : Element) : Z :=
  match e with
  | Elem _ _ cs => 1 + fold_right (fun c n => element_count c + n) 0 cs
  end.

(** What a call that may raise a caught exception yields: its value, or the
    text of the exception. *)
Inductive outcome (A : Type) : Type :=
| Returned (a : A)
| Raised (msg : string).
Arguments Returned {A} a.
Arguments Raised {A} msg.

(** A configuration file found under [src/main/mule]. *)
Record xml_file : Type := {
  xml_path : string;            (* str(xml_file_path) *)
  xml_name : string;            (* xml_file_path.name *)
  xml_relative_path : string;   (* str(xml_file.relative_to(project_path)) *)
  xml_read : outcome string;    (* open(..., encoding='utf-8').read():
                                   the text, or UnicodeDecodeError *)
  xml_parse : outcome Element   (* ET.parse(...).getroot(): the root, or
                                   ParseError / UnicodeDecodeError *)
}.

(** A Java source file: [len(f.readlines())] or [UnicodeDecodeError]. *)
Record java_file : Type := {
  java_path : string;
  java_stem : string;
  java_relative_path : string;
  java_lines : outcome Z
}.

(** What reading [pom.xml] yields: the text of the first [mule.version]
    property and the version of the first [mule-maven-plugin] that has one. *)
Record pom_data : Type := {
  pom_mule_version : option string;
  pom_plugin_version : option string
}.

(** The files of one project directory as enumeration ([exists], [glob]),
    reading and parsing return them; [None] is a path that does not exist. *)
Record project_files : Type := {
  pf_pom : option (outcome pom_data);          (* pom.xml *)
  pf_mule : option (list xml_file);            (* src/main/mule/**/*.xml *)
  pf_java : option (list java_file);           (* src/main/java/**/*.java *)
  pf_dwl : option (list (string * outcome Z)); (* src/main/resources/**/*.dwl:
                                                  the path and the number of
                                                  lines *)
  pf_munit : option (list (string * outcome Z)); (* src/test/munit/**/*.xml:
                                                  the path and the number of
                                                  munit test elements *)
  pf_other_tests : option (list string)        (* src/test/**/*.{java,groovy,py} *)
}.

(** * The analysis records *)

Record connector_info : Type := {
  prefix : string;
  connector_name : string
}.

(** The result of [_analyze_xml_file]. *)
Record file_analysis : Type := {
  line_count : Z;
  flows : Z;
  subflows : Z;
  components : Z;
  xml_tags_by_namespace : dict (dict Z)
}.

(** An entry of [configuration_files.files]. *)
Record config_entry : Type := {
  filename : string;
  relative_path : string;
  size_lines : Z;
  entry_flows : Z;
  entry_subflows : Z;
  entry_components : Z;
  entry_tags : dict (dict Z)
}.

Record configuration_files_t : Type := {
  count : Z;
  files : list config_entry
}.

Record flows_and_subflows_t : Type := {
  total_flows : Z;
  total_subflows : Z;
  flows_per_file : dict Z
}.

Record connectors_and_components_t : Type := {
  unique_connectors : gset string;   (* list(set(...)): the set of its items *)
  connector_usage_count : dict Z;
  component_types : dict Z;
  total_components : Z;
  complexity_score : number
}.

Record dataweave_analysis_t : Type := {
  dwl_files_count : Z;
  inline_dw_expressions_count : Z;
  complex_transformations : Z;
  total_dw_lines : Z
}.

Record java_class : Type := {
  class_name : string;
  file_path : string;
  lines : Z
}.

Record custom_code_t : Type := {
  java_files_count : Z;
  java_classes : list java_class;
  total_custom_code_lines : Z
}.

Record testing_t : Type := {
  munit_test_files : Z;
  munit_test_cases : Z;
  other_test_files : Z
}.

Record large_file : Type := {
  large_filename : string;
  large_lines : Z
}.

Record complexity_indicators_t : Type := {
  large_files : list large_file
}.

(** The dictionary built by [analyze_project]; the keys that no modelled
    function reads or writes are left out.  A path is kept as its parts. *)
Record project_analysis : Type := {
  project_name : string;
  project_path : list string;
  mule_version : string;
  is_legacy : bool;
  configuration_files : configuration_files_t;
  flows_and_subflows : flows_and_subflows_t;
  connectors_and_components : connectors_and_components_t;
  dataweave_analysis : dataweave_analysis_t;
  custom_code : custom_code_t;
  testing : testing_t;
  complexity_indicators : complexity_indicators_t;
  project_display_name : option string;
  project_source : option string
}.

(** Assignments to one key of the project dictionary. *)
Definition set_version (v : string) (legacy : bool) (a : project_analysis) :=
  {| project_name := project_name a; project_path := project_path a;
     mule_version := v; is_legacy := legacy;
     configuration_files := configuration_files a;
     flows_and_subflows := flows_and_subflows a;
     connectors_and_components := connectors_and_components a;
     dataweave_analysis := dataweave_analysis a;
     custom_code := custom_code a; testing := testing a;
     complexity_indicators := complexity_indicators a;
     project_display_name := project_display_name a;
     project_source := project_source a |}.

Definition set_configuration_files (x : configuration_files_t)
    (a : project_analysis) :=
  {| project_name := project_name a; project_path := project_path a;
     mule_version := mule_version a; is_legacy := is_legacy a;
     configuration_files := x;
     flows_and_subflows := flows_and_subflows a;
     connectors_and_components := connectors_and_components a;
     dataweave_analysis := dataweave_analysis a;
     custom_code := custom_code a; testing := testing a;
     complexity_indicators := complexity_indicators a;
     project_display_name := project_display_name a;
     project_source := project_source a |}.

Definition set_flows_and_subflows (x : flows_and_subflows_t)
    (a : project_analysis) :=
  {| project_name := project_name a; project_path := project_path a;
     mule_version := mule_version a; is_legacy := is_legacy a;
     configuration_files := configuration_files a;
     flows_and_subflows := x;
     connectors_and_components := connectors_and_components a;
     dataweave_analysis := dataweave_analysis a;
     custom_code := custom_code a; testing := testing a;
     complexity_indicators := complexity_indicators a;
     project_display_name := project_display_name a;
     project_source := project_source a |}.

Definition set_connectors_and_components (x : connectors_and_components_t)
    (a : project_analysis) :=
  {| project_name := project_name a; project_path := project_path a;
     mule_version := mule_version a; is_legacy := is_legacy a;
     configuration_files := configuration_files a;
     flows_and_subflows := flows_and_subflows a;
     connectors_and_components := x;
     dataweave_analysis := dataweave_analysis a;
     custom_code := custom_code a; testing := testing a;
     complexity_indicators := complexity_indicators a;
     project_display_name := project_display_name a;
     project_source := project_source a |}.

Definition set_dataweave_analysis (x : dataweave_analysis_t)
    (a : project_analysis) :=
  {| project_name := project_name a; project_path := project_path a;
     mule_version := mule_version a; is_legacy := is_legacy a;
     configuration_files := configuration_files a;
     flows_and_subflows := flows_and_subflows a;
     connectors_and_components := connectors_and_components a;
     dataweave_analysis := x;
     custom_code := custom_code a; testing := testing a;
     complexity_indicators := complexity_indicators a;
     project_display_name := project_display_name a;
     project_source := project_source a |}.

Definition set_custom_code (x : custom_code_t) (a : project_analysis) :=
  {| project_name := project_name a; project_path := project_path a;
     mule_version := mule_version a; is_legacy := is_legacy a;
     configuration_files := configuration_files a;
     flows_and_subflows := flows_and_subflows a;
     connectors_and_components := connectors_and_components a;
     dataweave_analysis := dataweave_analysis a;
     custom_code := x; testing := testing a;
     complexity_indicators := complexity_indicators a;
     project_display_name := project_display_name a;
     project_source := project_source a |}.

Definition set_testing (x : testing_t) (a : project_analysis) :=
  {| project_name := project_name a; project_path := project_path a;
     mule_version := mule_version a; is_legacy := is_legacy a;
     configuration_files := configuration_files a;
     flows_and_subflows := flows_and_subflows a;
     connectors_and_components := connectors_and_components a;
     dataweave_analysis := dataweave_analysis a;
     custom_code := custom_code a; testing := x;
     complexity_indicators := complexity_indicators a;
     project_display_name := project_display_name a;
     project_source := project_source a |}.

Definition set_complexity_indicators (x : complexity_indicators_t)
    (a : project_analysis) :=
  {| project_name := project_name a; project_path := project_path a;
     mule_version := mule_version a; is_legacy := is_legacy a;
     configuration_files := configuration_files a;
     flows_and_subflows := flows_and_subflows a;
     connectors_and_components := connectors_and_components a;
     dataweave_analysis := dataweave_analysis a;
     custom_code := custom_code a; testing := testing a;
     complexity_indicators := x;
     project_display_name := project_display_name a;
     project_source := project_source a |}.

Definition set_display (name source : string) (a : project_analysis) :=
  {| project_name := project_name a; project_path := project_path a;
     mule_version := mule_version a; is_legacy := is_legacy a;
     configuration_files := configuration_files a;
     flows_and_subflows := flows_and_subflows a;
     connectors_and_components := connectors_and_components a;
     dataweave_analysis := dataweave_analysis a;
     custom_code := custom_code a; testing := testing a;
     complexity_indicators := complexity_indicators a;
     project_display_name := Some name;
     project_source := Some source |}.

(** * The analyzer *)

Definition mule_schema : string := "mulesoft.org/schema/mule".
Definition schemaLocation : string :=
  "{http://www.w3.org/2001/XMLSchema-instance}schemaLocation".
Definition xmlns_colon : string := "xmlns:".

Definition colon : ascii := ":"%char.
Definition slash : ascii := "/"%char.
Definition rbrace : ascii := "}"%char.
Definition newline : ascii := ascii_of_N 10.

(** The truth value of a string: it is not empty. *)
Definition nonempty (s : string) : bool :=
  match s with EmptyString => false | _ => true end.

(** [len(xs)] *)
Definition len {A : Type} (xs : list A) : Z := Z.of_nat (length xs).

(** The table [connector_complexity_scores] of [__init__]. *)
Definition connector_complexity_scores : dict Z :=
  [ ("http", 1); ("db", 2); ("file", 1); ("ftp", 2); ("sftp", 2); ("jms", 3);
    ("vm", 1); ("sap", 5); ("salesforce", 4); ("servicenow", 4);
    ("aws-s3", 3); ("aws-sqs", 3); ("email", 2); ("compression", 1);
    ("crypto", 2); ("validation", 1); ("json", 1); ("xml", 2); ("apikit", 2);
    ("oauth", 3); ("spring", 2); ("scripting", 3); ("java", 4) ]%string.

(** ** Namespace resolution *)

(** The inner loop over [root.attrib.items()] that stops at the first
    [xmlns:] attribute whose value is the namespace: its prefix. *)
Definition declared_prefix (root : Element) (namespace_uri : string)
    : option string :=
  match List.find
          (fun '(attr_name, attr_value) =>
             String.eqb attr_value namespace_uri
             && PyStr.startswith attr_name xmlns_colon)
          (attrib root) with
  | Some (attr_name, _) => Some (PyStr.index1 colon attr_name)
  | None => None
  end.

(** [_analyze_xml_file], the loop over the pairs of the schema location:
    [for i in range(0, len(parts), 2): if i + 1 < len(parts): ...]. *)
Fixpoint schema_location_mappings (root : Element) (parts : list string)
    (namespace_mappings : dict connector_info) : dict connector_info :=
  match parts with
  | namespace_uri :: _ :: parts' =>
      schema_location_mappings root parts'
        (if PyStr.contains namespace_uri mule_schema then
           let connector_name := PyStr.last_part slash namespace_uri in
           match declared_prefix root namespace_uri with
           | Some prefix =>
               Dict.set namespace_uri
                 {| prefix := prefix; connector_name := connector_name |}
                 namespace_mappings
           | None => namespace_mappings
           end
         else namespace_mappings)
  | _ => namespace_mappings
  end.

(** [_analyze_xml_file], the loop over the direct namespace declarations. *)
Definition direct_declaration_mappings (root : Element)
    (namespace_mappings : dict connector_info) : dict connector_info :=
  fold_left
    (fun namespace_mappings '(key, value) =>
       if PyStr.startswith key xmlns_colon && PyStr.contains value mule_schema
       then
         let prefix := PyStr.index1 colon key in
         let connector_name := PyStr.last_part slash value in
         Dict.set value
           {| prefix := prefix; connector_name := connector_name |}
           namespace_mappings
       else namespace_mappings)
    (attrib root) namespace_mappings.

(** The first pass of [_analyze_xml_file]: what the schema location, when
    there is one, puts into the empty dictionary. *)
Definition schema_location_pass (root : Element) : dict connector_info :=
  let schema_locations :=
    Dict.get_or schemaLocation EmptyString (attrib root) in
  if nonempty schema_locations
  then schema_location_mappings root
         (PyStr.split_whitespace schema_locations) []
  else [].

(** The dictionary [namespace_mappings] of [_analyze_xml_file]: the second
    pass runs on the result of the first. *)
Definition namespace_mappings (root : Element) : dict connector_info :=
  direct_declaration_mappings root (schema_location_pass root).

(** ** [_analyze_xml_file] *)

(** The namespace key and the local name of an element. *)
Definition classify (namespace_mappings : dict connector_info)
    (element : Element) : string * string :=
  match PyStr.rsplit1 rbrace (tag element) with
  | Some (namespace_uri, local_name) =>
      let namespace_uri := PyStr.drop1 namespace_uri in
      let namespace_key :=
        match Dict.get namespace_uri namespace_mappings with
        | Some connector_info =>
            connector_name connector_info +:+ " (" +:+ prefix connector_info
            +:+ ":)"
        | None =>
            if PyStr.contains namespace_uri mule_schema
            then PyStr.last_part slash namespace_uri +:+ " (ns:)"
            else "other (" +:+ namespace_uri +:+ ")"
        end in
      (namespace_key, local_name)
  | None => ("default"%string, tag element)
  end.

(** One round of the tally loop. *)
Definition tally (namespace_mappings : dict connector_info)
    (xml_tags_by_namespace : dict (dict Z)) (element : Element)
    : dict (dict Z) :=
  let '(namespace_key, local_name) := classify namespace_mappings element in
  let xml_tags_by_namespace :=
    if Dict.mem namespace_key xml_tags_by_namespace
    then xml_tags_by_namespace
    else Dict.set namespace_key [] xml_tags_by_namespace in
  Dict.set namespace_key
    (Dict.add local_name 1 (Dict.get_or namespace_key [] xml_tags_by_namespace))
    xml_tags_by_namespace.

Definition is_flow_tag (t : string) : bool :=
  PyStr.endswith t "}flow" || String.eqb t "flow".

Definition is_subflow_tag (t : string) : bool :=
  PyStr.endswith t "}sub-flow" || String.eqb t "sub-flow".

(** One round of the flow loop on the pair [(flows_count, subflows_count)]. *)
Definition count_flow (counts : Z * Z) (element : Element) : Z * Z :=
  let '(flows_count, subflows_count) := counts in
  if is_flow_tag (tag element) then (flows_count + 1, subflows_count)
  else if is_subflow_tag (tag element) then (flows_count, subflows_count + 1)
  else (flows_count, subflows_count).

Definition parse_warning (f : xml_file) (e : string) : string :=
  "Warning: Could not parse XML file " +:+ xml_path f +:+ ": " +:+ e.

(** [_analyze_xml_file(xml_file_path)]: the analysis and the lines printed. *)
Definition _analyze_xml_file (f : xml_file) : file_analysis * list string :=
  match xml_read f with
  | Raised e =>
      ({| line_count := 0; flows := 0; subflows := 0; components := 0;
          xml_tags_by_namespace := [] |},
       [parse_warning f e])
  | Returned content =>
      let line_count := PyStr.splitlines_len content in
      match xml_parse f with
      | Raised e =>
          ({| line_count := line_count; flows := 0; subflows := 0;
              components := 0; xml_tags_by_namespace := [] |},
           [parse_warning f e])
      | Returned root =>
          let namespace_mappings := namespace_mappings root in
          let xml_tags_by_namespace :=
            fold_left (tally namespace_mappings) (iter root) [] in
          let '(flows_count, subflows_count) :=
            fold_left count_flow (iter root) (0, 0) in
          ({| line_count := line_count; flows := flows_count;
              subflows := subflows_count;
              components := len (iter root) - 1;
              xml_tags_by_namespace := xml_tags_by_namespace |},
           [])
      end
  end.

(** ** [_extract_connectors_from_xml] *)

(** [connector_name in ['core', 'documentation']] *)
Definition is_reserved (connector_name : string) : bool :=
  String.eqb connector_name "core" || String.eqb connector_name "documentation".

(** The loop over the pairs of the schema location, on [namespaces]. *)
Fixpoint schema_location_namespaces (root : Element) (parts : list string)
    (namespaces : dict string) : dict string :=
  match parts with
  | namespace_uri :: _ :: parts' =>
      schema_location_namespaces root parts'
        (if PyStr.contains namespace_uri mule_schema then
           let connector_name := PyStr.last_part slash namespace_uri in
           if negb (is_reserved connector_name) then
             match declared_prefix root namespace_uri with
             | Some prefix => Dict.set prefix connector_name namespaces
             | None => namespaces
             end
           else namespaces
         else namespaces)
  | _ => namespaces
  end.

(** The loop over the direct namespace declarations, on [namespaces]. *)
Definition direct_declaration_namespaces (root : Element)
    (namespaces : dict string) : dict string :=
  fold_left
    (fun namespaces '(key, value) =>
       if PyStr.startswith key xmlns_colon && PyStr.contains value mule_schema
       then
         let prefix := PyStr.index1 colon key in
         let connector_name := PyStr.last_part slash value in
         if negb (is_reserved connector_name)
         then Dict.set prefix connector_name namespaces
         else namespaces
       else namespaces)
    (attrib root) namespaces.

(** The dictionary [namespaces], from prefix to connector name. *)
Definition namespaces_of (root : Element) : dict string :=
  let schema_locations :=
    Dict.get_or schemaLocation EmptyString (attrib root) in
  let from_schema :=
    if nonempty schema_locations
    then schema_location_namespaces root
           (PyStr.split_whitespace schema_locations) []
    else [] in
  direct_declaration_namespaces root from_schema.

(** The connector name ([None] as in Python) and the local name that the
    attribution loop gives an element. *)
Definition attribution (namespaces : dict string) (element : Element)
    : option string * string :=
  match PyStr.rsplit1 rbrace (tag element) with
  | Some (namespace_uri, local_name) =>
      let namespace_uri := PyStr.drop1 namespace_uri in
      (if PyStr.contains namespace_uri mule_schema then
         let connector_name := PyStr.last_part slash namespace_uri in
         if is_reserved connector_name then Some "core"%string
         else Some connector_name
       else None,
       local_name)
  | None =>
      match PyStr.split1 colon (tag element) with
      | Some (prefix, local_name) => (Dict.get prefix namespaces, local_name)
      | None => (Some "core"%string, tag element)
      end
  end.

(** [if connector_name:] *)
Definition truthy (connector_name : option string) : option string :=
  match connector_name with
  | Some c => if nonempty c then Some c else None
  | None => None
  end.

(** One round of the attribution loop on the pair
    [(connector_usage_count, component_types)]. *)
Definition attribute (namespaces : dict string) (maps : dict Z * dict Z)
    (element : Element) : dict Z * dict Z :=
  let '(connector_usage_count, component_types) := maps in
  let '(connector_name, local_name) := attribution namespaces element in
  match truthy connector_name with
  | Some connector_name =>
      let component_type :=
        if negb (String.eqb connector_name "core")
        then connector_name +:+ ":" +:+ local_name
        else local_name in
      (Dict.add connector_name 1 connector_usage_count,
       Dict.add component_type 1 component_types)
  | None => (connector_usage_count, component_types)
  end.

Definition connectors_warning (f : xml_file) (e : string) : string :=
  "Warning: Could not extract connectors from " +:+ xml_path f +:+ ": " +:+ e.

(** [_extract_connectors_from_xml(xml_file_path, analysis)] *)
Definition _extract_connectors_from_xml (f : xml_file) (a : project_analysis)
    : project_analysis * list string :=
  match xml_parse f with
  | Raised e => (a, [connectors_warning f e])
  | Returned root =>
      let namespaces := namespaces_of root in
      let cc := connectors_and_components a in
      let '(connector_usage_count, component_types) :=
        fold_left (attribute namespaces) (iter root)
          (connector_usage_count cc, component_types cc) in
      let unique_connectors :=
        unique_connectors cc ∪ list_to_set (Dict.values namespaces) in
      (set_connectors_and_components
         {| unique_connectors := unique_connectors;
            connector_usage_count := connector_usage_count;
            component_types := component_types;
            total_components := total_components cc;
            complexity_score := complexity_score cc |} a,
       [])
  end.

(** ** The remaining passes of [analyze_project] *)

Section Analyzer.

(** [re.findall(pattern, content, re.DOTALL | re.IGNORECASE)]: the texts
    matched; none of the patterns has a capturing group. *)
Variable re_findall : string -> string -> list string.

Definition dw_patterns : list string :=
  [ "#\[.*?\]";
    "<!\[CDATA\[#\[.*?\]\]\]>";
    "output\s+application/\w+.*?---.*?(?=\]\]>|\])" ]%string.

(** One round of the loop over the matches of a pattern, on the pair
    [(complex_transformations, total_dw_lines)]. *)
Definition scan_match (acc : Z * Z) (m : string) : Z * Z :=
  let '(complex_transformations, total_dw_lines) := acc in
  let lines := PyStr.count newline m + 1 in
  (if 10 <? lines then complex_transformations + 1
   else complex_transformations,
   total_dw_lines + lines).

(** One round of the loop over the patterns, on the triple
    [(total_inline_dw, complex_transformations, total_dw_lines)]. *)
Definition scan_pattern (content : string) (acc : Z * Z * Z)
    (pattern : string) : Z * Z * Z :=
  let '(total_inline_dw, complex_transformations, total_dw_lines) := acc in
  let matches := re_findall pattern content in
  let '(complex_transformations, total_dw_lines) :=
    fold_left scan_match matches (complex_transformations, total_dw_lines) in
  (total_inline_dw + len matches, complex_transformations, total_dw_lines).

Definition dataweave_warning (f : xml_file) (e : string) : string :=
  "Warning: Could not read XML file for DataWeave analysis " +:+ xml_path f
  +:+ ": " +:+ e.

(** [_analyze_dataweave_in_xml(xml_file_path, analysis)] *)
Definition _analyze_dataweave_in_xml (f : xml_file) (a : project_analysis)
    : project_analysis * list string :=
  match xml_read f with
  | Raised e => (a, [dataweave_warning f e])
  | Returned content =>
      let '(total_inline_dw, complex, total_dw) :=
        fold_left (scan_pattern content) dw_patterns (0, 0, 0) in
      let dw := dataweave_analysis a in
      (set_dataweave_analysis
         {| dwl_files_count := dwl_files_count dw;
            inline_dw_expressions_count :=
              inline_dw_expressions_count dw + total_inline_dw;
            complex_transformations := complex_transformations dw + complex;
            total_dw_lines := total_dw_lines dw + total_dw |} a,
       [])
  end.

(** The body of the loop of [_analyze_configuration_files], first part:
    the entry of the file, the running totals and the large files. *)
Definition record_file_analysis (xml_file : xml_file)
    (file_analysis : file_analysis) (a : project_analysis)
    : project_analysis :=
  let a :=
    set_configuration_files
      {| count := count (configuration_files a);
         files :=
           files (configuration_files a) ++
           [ {| filename := xml_name xml_file;
                relative_path := xml_relative_path xml_file;
                size_lines := line_count file_analysis;
                entry_flows := flows file_analysis;
                entry_subflows := subflows file_analysis;
                entry_components := components file_analysis;
                entry_tags := xml_tags_by_namespace file_analysis |} ] |}
      a in
  let a :=
    set_flows_and_subflows
      {| total_flows :=
           total_flows (flows_and_subflows a) + flows file_analysis;
         total_subflows :=
           total_subflows (flows_and_subflows a) + subflows file_analysis;
         flows_per_file :=
           Dict.set (xml_name xml_file) (flows file_analysis)
             (flows_per_file (flows_and_subflows a)) |} a in
  let cc := connectors_and_components a in
  let a :=
    set_connectors_and_components
      {| unique_connectors := unique_connectors cc;
         connector_usage_count := connector_usage_count cc;
         component_types := component_types cc;
         total_components :=
           total_components cc + components file_analysis;
         complexity_score := complexity_score cc |} a in
  if 1000 <? line_count file_analysis then
    set_complexity_indicators
      {| large_files :=
           large_files (complexity_indicators a) ++
           [ {| large_filename := xml_name xml_file;
                large_lines := line_count file_analysis |} ] |} a
  else a.

(** The body of the loop of [_analyze_configuration_files]. *)
Definition analyze_configuration_file (st : project_analysis * list string)
    (xml_file : xml_file) : project_analysis * list string :=
  let '(a, out) := st in
  let '(file_analysis, out1) := _analyze_xml_file xml_file in
  let a := record_file_analysis xml_file file_analysis a in
  let '(a, out2) := _extract_connectors_from_xml xml_file a in
  let '(a, out3) := _analyze_dataweave_in_xml xml_file a in
  (a, out ++ out1 ++ out2 ++ out3).

(** The loop of [_analyze_configuration_files] over some files. *)
Definition analyze_configuration_files_loop (xml_files : list xml_file)
    (a : project_analysis) : project_analysis * list string :=
  fold_left analyze_configuration_file xml_files (a, []).

(** [_analyze_configuration_files(project_path, analysis)] *)
Definition _analyze_configuration_files (pf : project_files)
    (a : project_analysis) : project_analysis * list string :=
  match pf_mule pf with
  | None => (a, [])
  | Some xml_files =>
      analyze_configuration_files_loop xml_files
        (set_configuration_files
           {| count := len xml_files;
              files := files (configuration_files a) |} a)
  end.

(** [_analyze_mule_version(project_path, analysis)] *)
Definition _analyze_mule_version (name : string) (pf : project_files)
    (a : project_analysis) : project_analysis * list string :=
  match pf_pom pf with
  | None => (a, [])
  | Some (Raised e) =>
      (a, ["Warning: Could not parse pom.xml in " +:+ name +:+ ": " +:+ e])
  | Some (Returned pom) =>
      let a :=
        match pom_mule_version pom with
        | Some text => set_version text (PyStr.startswith text "3.") a
        | None => a
        end in
      let a :=
        if String.eqb (mule_version a) "unknown" then
          match pom_plugin_version pom with
          | Some text => set_version ("plugin-" +:+ text) (is_legacy a) a
          | None => a
          end
        else a in
      (a, [])
  end.

(** The body of the loop over the Java files, on
    [(total_lines, java_classes, printed)]. *)
Definition read_java_file (acc : Z * list java_class * list string)
    (f : java_file) : Z * list java_class * list string :=
  let '(total_lines, classes, out) := acc in
  match java_lines f with
  | Returned n =>
      (total_lines + n,
       classes ++ [ {| class_name := java_stem f;
                       file_path := java_relative_path f;
                       lines := n |} ],
       out)
  | Raised _ =>
      (total_lines, classes,
       out ++ ["Warning: Could not read Java file " +:+ java_path f])
  end.

(** The body of the loop over the DataWeave files. *)
Definition read_dwl_file (acc : dataweave_analysis_t * list string)
    (f : string * outcome Z) : dataweave_analysis_t * list string :=
  let '(dw, out) := acc in
  match snd f with
  | Returned n =>
      ({| dwl_files_count := dwl_files_count dw;
          inline_dw_expressions_count := inline_dw_expressions_count dw;
          complex_transformations :=
            if 100 <? n then complex_transformations dw + 1
            else complex_transformations dw;
          total_dw_lines := total_dw_lines dw + n |},
       out)
  | Raised _ =>
      (dw, out ++ ["Warning: Could not read DataWeave file " +:+ fst f])
  end.

(** [_analyze_custom_code(project_path, analysis)] *)
Definition _analyze_custom_code (pf : project_files) (a : project_analysis)
    : project_analysis * list string :=
  let '(a, out1) :=
    match pf_java pf with
    | None => (a, [])
    | Some java_files =>
        let '(total_lines, classes, out) :=
          fold_left read_java_file java_files
            (0, java_classes (custom_code a), []) in
        (set_custom_code
           {| java_files_count := len java_files;
              java_classes := classes;
              total_custom_code_lines := total_lines |} a,
         out)
    end in
  let '(a, out2) :=
    match pf_dwl pf with
    | None => (a, [])
    | Some dwl_files =>
        let dw := dataweave_analysis a in
        let '(dw, out) :=
          fold_left read_dwl_file dwl_files
            ({| dwl_files_count := len dwl_files;
                inline_dw_expressions_count :=
                  inline_dw_expressions_count dw;
                complex_transformations := complex_transformations dw;
                total_dw_lines := total_dw_lines dw |}, []) in
        (set_dataweave_analysis dw a, out)
    end in
  (a, out1 ++ out2).

(** The body of the loop over the MUnit files. *)
Definition read_munit_file (acc : Z * list string)
    (f : string * outcome Z) : Z * list string :=
  let '(total_test_cases, out) := acc in
  match snd f with
  | Returned test_cases => (total_test_cases + test_cases, out)
  | Raised _ =>
      (total_test_cases,
       out ++ ["Warning: Could not parse MUnit file " +:+ fst f])
  end.

(** [_analyze_tests(project_path, analysis)] *)
Definition _analyze_tests (pf : project_files) (a : project_analysis)
    : project_analysis * list string :=
  let '(a, out) :=
    match pf_munit pf with
    | None => (a, [])
    | Some munit_files =>
        let '(total_test_cases, out) :=
          fold_left read_munit_file munit_files (0, []) in
        (set_testing
           {| munit_test_files := len munit_files;
              munit_test_cases := total_test_cases;
              other_test_files := other_test_files (testing a) |} a,
         out)
    end in
  let a :=
    match pf_other_tests pf with
    | None => a
    | Some other_test_files =>
        set_testing
          {| munit_test_files := munit_test_files (testing a);
             munit_test_cases := munit_test_cases (testing a);
             other_test_files := len other_test_files |} a
    end in
  (a, out).

(** ** The complexity scorer *)

(** [score += x * y] *)
Definition plus_times (score : number) (x y : number) : option number :=
  t ← PyNum.mul x y; PyNum.add score t.

(** The body of the loop over [connector_usage_count.items()]. *)
Definition add_connector (complexity_score : option number)
    (item : string * Z) : option number :=
  s ← complexity_score;
  let base_score := Dict.get_or (fst item) 2 connector_complexity_scores in
  plus_times s (PyInt base_score) (PyInt (snd item)).

(** The score that [_calculate_project_complexity] stores. *)
Definition project_complexity (a : project_analysis) : option number :=
  let complexity_score := PyInt 0 in
  s ← fold_left add_connector
        (connector_usage_count (connectors_and_components a))
        (Some complexity_score);
  s ← plus_times s (PyInt (total_flows (flows_and_subflows a))) (PyInt 2);
  s ← plus_times s (PyInt (total_subflows (flows_and_subflows a))) (PyInt 1);
  s ← plus_times s
        (PyInt (total_components (connectors_and_components a)))
        (PyFloat PyFloat.lit_0_1);
  s ← plus_times s (PyInt (java_files_count (custom_code a))) (PyInt 5);
  s ← plus_times s
        (PyInt (total_custom_code_lines (custom_code a)))
        (PyFloat PyFloat.lit_0_01);
  s ← plus_times s (PyInt (dwl_files_count (dataweave_analysis a))) (PyInt 3);
  s ← plus_times s
        (PyInt (complex_transformations (dataweave_analysis a))) (PyInt 5);
  s ← plus_times s
        (PyInt (len (large_files (complexity_indicators a)))) (PyInt 10);
  Some (PyNum.round2 s).

Definition set_complexity_score (s : number) (a : project_analysis) :=
  let cc := connectors_and_components a in
  set_connectors_and_components
    {| unique_connectors := unique_connectors cc;
       connector_usage_count := connector_usage_count cc;
       component_types := component_types cc;
       total_components := total_components cc;
       complexity_score := s |} a.

(** [_calculate_project_complexity(analysis)] *)
Definition _calculate_project_complexity (a : project_analysis)
    : option project_analysis :=
  s ← project_complexity a; Some (set_complexity_score s a).

(** ** [analyze_project] *)

(** The dictionary that [analyze_project] starts from. *)
Definition new_analysis (project_path : list string) : project_analysis :=
  {| project_name := List.last project_path EmptyString;
     project_path := project_path;
     mule_version := "unknown";
     is_legacy := false;
     configuration_files := {| count := 0; files := [] |};
     flows_and_subflows :=
       {| total_flows := 0; total_subflows := 0; flows_per_file := [] |};
     connectors_and_components :=
       {| unique_connectors := ∅; connector_usage_count := [];
          component_types := []; total_components := 0;
          complexity_score := PyInt 0 |};
     dataweave_analysis :=
       {| dwl_files_count := 0; inline_dw_expressions_count := 0;
          complex_transformations := 0; total_dw_lines := 0 |};
     custom_code :=
       {| java_files_count := 0; java_classes := [];
          total_custom_code_lines := 0 |};
     testing :=
       {| munit_test_files := 0; munit_test_cases := 0;
          other_test_files := 0 |};
     complexity_indicators := {| large_files := [] |};
     project_display_name := None;
     project_source := None |}.

(** [analyze_project(project_path)]: the analysis and the lines printed;
    [_analyze_shared_resources] only writes keys that are left out. *)
Definition analyze_project (project_path : list string)
    (pf : project_files) : option (project_analysis * list string) :=
  let a := new_analysis project_path in
  let '(a, out1) := _analyze_mule_version (project_name a) pf a in
  let '(a, out2) := _analyze_configuration_files pf a in
  let '(a, out3) := _analyze_custom_code pf a in
  let '(a, out4) := _analyze_tests pf a in
  a ← _calculate_project_complexity a;
  Some (a, out1 ++ out2 ++ out3 ++ out4).

End Analyzer.

(** ** Project discovery *)

(** A directory tree.  A directory carries, besides its entries in the order
    of [iterdir()], the files that [analyze_project] would find in it. *)
#[local] Unset Elimination Schemes.
Inductive fs_node : Type :=
| File (name : string)
| Dir (name : string) (contents : project_files) (entries : list fs_node).
#[local] Set Elimination Schemes.

Definition node_name (n : fs_node) : string :=
  match n with File s => s | Dir s _ _ => s end.

Definition is_dir (n : fs_node) : bool :=
  match n with File _ => false | Dir _ _ _ => true end.

Definition node_entries (n : fs_node) : list fs_node :=
  match n with File _ => [] | Dir _ _ es => es end.

Definition node_contents (n : fs_node) : option project_files :=
  match n with File _ => None | Dir _ pf _ => Some pf end.

(** [(path / name).exists()] *)
Definition child (n : fs_node) (name : string) : option fs_node :=
  List.find (fun e => String.eqb (node_name e) name) (node_entries n).

(** [(path / 'src' / 'main' / 'mule').exists()] *)
Definition has_mule_sources (n : fs_node) : bool :=
  match child n "src" with
  | Some src =>
      match child src "main" with
      | Some main =>
          match child main "mule" with Some _ => true | None => false end
      | None => false
      end
  | None => false
  end.

(** [_is_mulesoft_project(project_path)] *)
Definition _is_mulesoft_project (project_path : fs_node) : bool :=
  match child project_path "pom.xml" with Some _ => true | None => false end
  || match child project_path "mule-artifact.json" with
     | Some _ => true
     | None => false
     end
  || has_mule_sources project_path.

Module Summary.
(** [analysis_results['summary']]; the keys that [_calculate_summary_stats]
    adds are zero or empty before it runs. *)
Record t : Type := {
  total_projects : Z;
  mule_4_projects : Z;
  mule_3_projects : Z;
  unknown_version_projects : Z;
  total_flows : Z;
  total_subflows : Z;
  total_components : Z;
  total_java_files : Z;
  total_dwl_files : Z;
  total_munit_tests : Z;
  total_complexity_score : number;
  connector_usage_summary : dict Z;
  component_types_summary : dict Z
}.

Definition initial : t :=
  {| total_projects := 0; mule_4_projects := 0; mule_3_projects := 0;
     unknown_version_projects := 0; total_flows := 0; total_subflows := 0;
     total_components := 0; total_java_files := 0; total_dwl_files := 0;
     total_munit_tests := 0; total_complexity_score := PyInt 0;
     connector_usage_summary := []; component_types_summary := [] |}.
End Summary.

(** [self.analysis_results] without its time stamp. *)
Record analysis_results : Type := {
  summary : Summary.t;
  projects : list project_analysis
}.

Definition initial_results : analysis_results :=
  {| summary := Summary.initial; projects := [] |}.

(** [projects.append(project_analysis)] and [total_projects += 1]. *)
Definition append_project (p : project_analysis) (r : analysis_results)
    : analysis_results :=
  let s := summary r in
  {| summary :=
       {| Summary.total_projects := Summary.total_projects s + 1;
          Summary.mule_4_projects := Summary.mule_4_projects s;
          Summary.mule_3_projects := Summary.mule_3_projects s;
          Summary.unknown_version_projects :=
            Summary.unknown_version_projects s;
          Summary.total_flows := Summary.total_flows s;
          Summary.total_subflows := Summary.total_subflows s;
          Summary.total_components := Summary.total_components s;
          Summary.total_java_files := Summary.total_java_files s;
          Summary.total_dwl_files := Summary.total_dwl_files s;
          Summary.total_munit_tests := Summary.total_munit_tests s;
          Summary.total_complexity_score := Summary.total_complexity_score s;
          Summary.connector_usage_summary := Summary.connector_usage_summary s;
          Summary.component_types_summary :=
            Summary.component_types_summary s |};
     projects := projects r ++ [p] |}.

Definition default_max_depth : Z := 4.

(** [for item in items: body], threading the state; an exception of one
    round ends the loop. *)
Definition for_each {A S : Type} (body : A -> S -> option S)
    : list A -> S -> option S :=
  fix loop (items : list A) (st : S) {struct items} : option S :=
    match items with
    | [] => Some st
    | item :: items' => st' ← body item st; loop items' st'
    end.

Section Walker.
Variable re_findall : string -> string -> list string.

(** [self.target_projects], the base path and the depth bound. *)
Variable target_projects : option (list string).
Variable base_path : list string.
Variable max_depth : Z.

(** The name filter: [target_projects] is set, not empty, and the name is
    not in it. *)
Definition filtered_out (name : string) : bool :=
  match target_projects with
  | Some (t :: ts) => negb (existsb (String.eqb name) (t :: ts))
  | _ => false
  end.

(** The branch of the walker for a directory that is a project. *)
Definition report_project (item : fs_node) (relative_path : list string)
    (st : analysis_results * list string)
    : option (analysis_results * list string) :=
  let '(results, out) := st in
  let project_display_name :=
    if 1 <? len relative_path then PyStr.join "/" relative_path
    else node_name item in
  let out := out ++ ["Analyzing project: " +:+ project_display_name] in
  match node_contents item with
  | None => Some (results, out)   (* not a directory: never the case here *)
  | Some pf =>
      '(project_analysis, out') ←
        analyze_project re_findall (base_path ++ relative_path) pf;
      let project_analysis :=
        if 1 <? len relative_path then
          set_display project_display_name
            (PyStr.join "/" (removelast relative_path)) project_analysis
        else set_display (node_name item) "local" project_analysis in
      Some (append_project project_analysis results, out ++ out')
  end.

(** [_find_mulesoft_projects_recursive(current_path, base_path, max_depth)];
    [relative] is [current_path.relative_to(base_path).parts]. *)
Fixpoint _find_mulesoft_projects_recursive (current_path : fs_node)
    (relative : list string) (st : analysis_results * list string)
    {struct current_path} : option (analysis_results * list string) :=
  let current_depth := len relative in
  if max_depth <? current_depth then Some st
  else
    match current_path with
    | File _ => Some st
    | Dir _ _ entries =>
        for_each
          (fun item st =>
             if is_dir item && negb (PyStr.startswith (node_name item) ".")
             then
               if _is_mulesoft_project item then
                 if filtered_out (node_name item) then Some st
                 else report_project item (relative ++ [node_name item]) st
               else
                 _find_mulesoft_projects_recursive item
                   (relative ++ [node_name item]) st
             else Some st)
          entries st
    end.
End Walker.

(** ** The aggregator *)

(** How the built-in [sum] adds floats: one after the other (CPython up to
    3.11), or with Neumaier's compensated summation (CPython from 3.12). *)
Inductive sum_algorithm : Type :=
| LeftToRight
| Compensated.

Module PySum.
Import PyFloat.

Fixpoint floats_plain (f : float) (items : list number) : option float :=
  match items with
  | [] => Some f
  | item :: items' =>
      x ← PyNum.to_float item; floats_plain (add f x) items'
  end.

Fixpoint floats_compensated (f c : float) (items : list number)
    : option float :=
  match items with
  | [] => Some (if negb (is_zero c) && is_finite c then add f c else f)
  | PyFloat x :: items' =>
      let t := add f x in
      let c :=
        if leb (abs x) (abs f) then add c (add (sub f t) x)
        else add c (add (sub x t) f) in
      floats_compensated t c items'
  | PyInt z :: items' =>
      x ← of_int z; floats_compensated (add f x) c items'
  end.

(** [sum(items)] once the integers read so far add up to [acc]; the first
    float starts the float loop, in which an integer item is converted and
    added. *)
Fixpoint from (alg : sum_algorithm) (acc : Z) (items : list number)
    : option number :=
  match items with
  | [] => Some (PyInt acc)
  | PyInt z :: items' => from alg (acc + z) items'
  | PyFloat x :: items' =>
      f0 ← of_int acc;
      f ← match alg with
          | LeftToRight => floats_plain (add f0 x) items'
          | Compensated =>
              floats_compensated (add f0 x) (S754_zero false) items'
          end;
      Some (PyFloat f)
  end.

(** [sum(items)] of numbers. *)
Definition sum (alg : sum_algorithm) (items : list number) : option number :=
  from alg 0 items.

(** [sum(items)] of integers. *)
Definition sum_int (items : list Z) : Z := fold_left Z.add items 0.
End PySum.

(** The body of the loop that counts the version buckets, on
    [(mule_4_count, mule_3_count, unknown_count)]. *)
Definition count_version (acc : Z * Z * Z) (project : project_analysis)
    : Z * Z * Z :=
  let '(mule_4_count, mule_3_count, unknown_count) := acc in
  let version := mule_version project in
  if PyStr.startswith version "4." then
    (mule_4_count + 1, mule_3_count, unknown_count)
  else if PyStr.startswith version "3." then
    (mule_4_count, mule_3_count + 1, unknown_count)
  else (mule_4_count, mule_3_count, unknown_count + 1).

(** [for key, n in table.items(): counter[key] += n] *)
Definition count_all (counter : dict Z) (table : dict Z) : dict Z :=
  fold_left (fun counter '(key, n) => Dict.add key n counter) table counter.

(** The body of the loop that fills the two counters. *)
Definition count_project (acc : dict Z * dict Z) (project : project_analysis)
    : dict Z * dict Z :=
  let '(all_connectors, all_component_types) := acc in
  (count_all all_connectors
     (connector_usage_count (connectors_and_components project)),
   count_all all_component_types
     (component_types (connectors_and_components project))).

(** [_calculate_summary_stats()] *)
Definition _calculate_summary_stats (alg : sum_algorithm)
    (r : analysis_results) : option analysis_results :=
  let ps := projects r in
  let '(mule_4_count, mule_3_count, unknown_count) :=
    fold_left count_version ps (0, 0, 0) in
  total_complexity_score ←
    PySum.sum alg
      (map (fun p => complexity_score (connectors_and_components p)) ps);
  let '(all_connectors, all_component_types) :=
    fold_left count_project ps ([], []) in
  Some
    {| summary :=
         {| Summary.total_projects := Summary.total_projects (summary r);
            Summary.mule_4_projects := mule_4_count;
            Summary.mule_3_projects := mule_3_count;
            Summary.unknown_version_projects := unknown_count;
            Summary.total_flows :=
              PySum.sum_int
                (map (fun p => total_flows (flows_and_subflows p)) ps);
            Summary.total_subflows :=
              PySum.sum_int
                (map (fun p => total_subflows (flows_and_subflows p)) ps);
            Summary.total_components :=
              PySum.sum_int
                (map (fun p => total_components (connectors_and_components p))
                   ps);
            Summary.total_java_files :=
              PySum.sum_int (map (fun p => java_files_count (custom_code p)) ps);
            Summary.total_dwl_files :=
              PySum.sum_int
                (map (fun p => dwl_files_count (dataweave_analysis p)) ps);
            Summary.total_munit_tests :=
              PySum.sum_int (map (fun p => munit_test_files (testing p)) ps);
            Summary.total_complexity_score := total_complexity_score;
            Summary.connector_usage_summary := all_connectors;
            Summary.component_types_summary := all_component_types |};
       projects := ps |}.

(** [analyze_repository_folder(repo_folder_path, target_projects)] for a
    folder that exists: the results and the lines printed. *)
Definition analyze_repository_folder
    (re_findall : string -> string -> list string) (alg : sum_algorithm)
    (base_path : list string) (repo_folder : fs_node)
    (target_projects : option (list string))
    : option (analysis_results * list string) :=
  let out :=
    match target_projects with
    | Some (t :: ts) =>
        ["Analyzing specific projects in " +:+ PyStr.join "/" base_path
         +:+ ": " +:+ PyStr.join ", " (t :: ts)]
    | _ => ["Analyzing repositories in: " +:+ PyStr.join "/" base_path]
    end in
  '(results, out) ←
    _find_mulesoft_projects_recursive re_findall target_projects base_path
      default_max_depth repo_folder [] (initial_results, out);
  results ← _calculate_summary_stats alg results;
  Some (results, out).

(** * Specification-side definitions and scenario inputs *)

(** A file that does not decode as UTF-8 although its document parses, as a
    document in ISO-8859-1 that declares its encoding does. *)
Definition undecodable_file : xml_file :=
  {| xml_path := "app/src/main/mule/legacy.xml";
     xml_name := "legacy.xml";
     xml_relative_path := "src/main/mule/legacy.xml";
     xml_read := Raised "'utf-8' codec can't decode byte 0xe9";
     xml_parse := Returned (Elem "mule" [] [Elem "flow" [] []]) |}.

(** A readable file whose document is the single element [<flow/>]. *)
Definition lone_flow_file : xml_file :=
  {| xml_path := "app/src/main/mule/f.xml";
     xml_name := "f.xml";
     xml_relative_path := "src/main/mule/f.xml";
     xml_read := Returned "<flow/>";
     xml_parse := Returned (Elem "flow" [] []) |}.

(** A readable file whose document is [<mule><flow/></mule>]. *)
Definition flow_in_mule_file : xml_file :=
  {| xml_path := "app/src/main/mule/m.xml";
     xml_name := "m.xml";
     xml_relative_path := "src/main/mule/m.xml";
     xml_read := Returned "<mule><flow/></mule>";
     xml_parse := Returned (Elem "mule" [] [Elem "flow" [] []]) |}.

(** The three connector tables of a project satisfy [Q]. *)
Definition connector_tables (Q : gset string -> dict Z -> dict Z -> Prop)
    (a : project_analysis) : Prop :=
  let cc := connectors_and_components a in
  Q (unique_connectors cc) (connector_usage_count cc) (component_types cc).

(** [reaches d path item]: the directory [item] lies at [path] below [d], and
    every directory strictly between the two is visible and is not a
    project. *)
Inductive reaches : fs_node -> list string -> fs_node -> Prop :=
| reaches_entry (d item : fs_node) :
    In item (node_entries d) ->
    is_dir item = true ->
    PyStr.startswith (node_name item) "." = false ->
    reaches d [node_name item] item
| reaches_below (d mid : fs_node) (path : list string) (item : fs_node) :
    In mid (node_entries d) ->
    is_dir mid = true ->
    PyStr.startswith (node_name mid) "." = false ->
    _is_mulesoft_project mid = false ->
    reaches mid path item ->
    reaches d (node_name mid :: path) item.

(** [p] is what the walker appends for the project directory at
    [base_path ++ path]: its analysis with the display fields set. *)
Definition analysis_of (re_findall : string -> string -> list string)
    (project_path : list string) (item : fs_node) (p : project_analysis)
    : Prop :=
  exists pf a out name source,
    node_contents item = Some pf
    /\ analyze_project re_findall project_path pf = Some (a, out)
    /\ p = set_display name source a.

(** A directory without any of the files that [analyze_project] looks for. *)
Definition no_files : project_files :=
  {| pf_pom := None; pf_mule := None; pf_java := None; pf_dwl := None;
     pf_munit := None; pf_other_tests := None |}.

(** A project directory that holds a build descriptor and nothing else. *)
Definition pom_only : project_files :=
  {| pf_pom :=
       Some (Returned {| pom_mule_version := Some "4.4.0"%string;
                         pom_plugin_version := None |});
     pf_mule := None; pf_java := None; pf_dwl := None; pf_munit := None;
     pf_other_tests := None |}.

(** A project five levels below the folder that is analyzed. *)
Definition deep_tree : fs_node :=
  Dir "repos" no_files
    [Dir "a" no_files
       [Dir "b" no_files
          [Dir "c" no_files
             [Dir "d" no_files
                [Dir "e" pom_only [File "pom.xml"]]]]]].

(** A regular-expression engine that finds nothing. *)
Definition no_match : string -> string -> list string := fun _ _ => [].

(** The scenario document: a bare [flow] that declares [xmlns:db] and wraps
    one [db:select], as a tree whose root carries the declaration among its
    attributes. *)
Definition db_uri : string := "http://www.mulesoft.org/schema/mule/db".

Definition db_document (uri : string) : Element :=
  Elem "flow" [("xmlns:db"%string, uri)]
    [Elem ("{" +:+ uri +:+ "}select") [] []].

Definition db_file (uri content : string) : xml_file :=
  {| xml_path := "repos/shop/src/main/mule/db.xml";
     xml_name := "db.xml";
     xml_relative_path := "src/main/mule/db.xml";
     xml_read := Returned content;
     xml_parse := Returned (db_document uri) |}.

Definition db_text : string :=
  "<flow xmlns:db='http://www.mulesoft.org/schema/mule/db'><db:select/></flow>".

Definition db_project_files : project_files :=
  {| pf_pom := None; pf_mule := Some [db_file db_uri db_text];
     pf_java := None; pf_dwl := None; pf_munit := None;
     pf_other_tests := None |}.

(** A folder with the one project [shop], recognised by its sources. *)
Definition shop_tree : fs_node :=
  Dir "repos" no_files
    [Dir "shop" db_project_files
       [Dir "src" no_files
          [Dir "main" no_files [Dir "mule" no_files [File "db.xml"]]]]].

Abbreviation run_of tree :=
  (analyze_repository_folder no_match LeftToRight ["repos"%string] tree None)
  (only parsing).

Definition results_of (tree : fs_node) : analysis_results :=
  match run_of tree with Some (r, _) => r | None => initial_results end.

Definition output_of (tree : fs_node) : list string :=
  match run_of tree with Some (_, out) => out | None => [] end.

(** The first project of a run. *)
Definition first_project (tree : fs_node) : project_analysis :=
  List.hd (new_analysis []) (projects (results_of tree)).

(** No prefix of [namespaces] stands for a reserved name. *)
Definition unreserved (namespaces : dict string) : Prop :=
  Forall (fun c => is_reserved c = false) (Dict.values namespaces).

(** The analysis of the project [shop] and the lines it prints. *)
Definition shop_analysis : project_analysis :=
  match analyze_project no_match ["repos"; "shop"]%string db_project_files with
  | Some (a, _) => a
  | None => new_analysis []
  end.

Definition shop_analysis_output : list string :=
  match analyze_project no_match ["repos"; "shop"]%string db_project_files with
  | Some (_, out) => out
  | None => []
  end.





(** Two dictionaries are equal as Python compares them: every key has the
    same entry in both. *)
Definition same_dict {V : Type} (d1 d2 : dict V) : Prop :=
  forall k, Dict.get k d1 = Dict.get k d2.

(** ** The complexity score as the specification words it *)

(** The static weight table, with 2 for a connector that is not in it. *)
Definition spec_weight (connector : string) : Z :=
  if String.eqb connector "http" then 1
  else if String.eqb connector "db" then 2
  else if String.eqb connector "file" then 1
  else if String.eqb connector "ftp" then 2
  else if String.eqb connector "sftp" then 2
  else if String.eqb connector "jms" then 3
  else if String.eqb connector "vm" then 1
  else if String.eqb connector "sap" then 5
  else if String.eqb connector "salesforce" then 4
  else if String.eqb connector "servicenow" then 4
  else if String.eqb connector "aws-s3" then 3
  else if String.eqb connector "aws-sqs" then 3
  else if String.eqb connector "email" then 2
  else if String.eqb connector "compression" then 1
  else if String.eqb connector "crypto" then 2
  else if String.eqb connector "validation" then 1
  else if String.eqb connector "json" then 1
  else if String.eqb connector "xml" then 2
  else if String.eqb connector "apikit" then 2
  else if String.eqb connector "oauth" then 3
  else if String.eqb connector "spring" then 2
  else if String.eqb connector "scripting" then 3
  else if String.eqb connector "java" then 4
  else 2.

(** The sum over the connectors of weight times usage count. *)
Definition spec_connector_sum (usage : dict Z) : Z :=
  fold_right (fun item acc => spec_weight (fst item) * snd item + acc) 0 usage.

(** The integer terms that come first: connectors, flows and sub-flows. *)
Definition spec_integer_terms (a : project_analysis) : Z :=
  spec_connector_sum (connector_usage_count (connectors_and_components a))
  + total_flows (flows_and_subflows a) * 2
  + total_subflows (flows_and_subflows a) * 1.

(** The integers that the formula converts to binary64. *)
Definition score_operands (a : project_analysis) : list Z :=
  [ spec_integer_terms a;
    total_components (connectors_and_components a);
    java_files_count (custom_code a) * 5;
    total_custom_code_lines (custom_code a);
    dwl_files_count (dataweave_analysis a) * 3;
    complex_transformations (dataweave_analysis a) * 5;
    len (large_files (complexity_indicators a)) * 10 ].

(** The weighted sum, its terms added in binary64 in the order of the
    formula, rounded to two decimal places. *)
Definition spec_score (a : project_analysis) : option float :=
  connectors_and_flows ← PyFloat.of_int (spec_integer_terms a);
  components ← PyFloat.of_int (total_components (connectors_and_components a));
  java ← PyFloat.of_int (java_files_count (custom_code a) * 5);
  code_lines ← PyFloat.of_int (total_custom_code_lines (custom_code a));
  dwl ← PyFloat.of_int (dwl_files_count (dataweave_analysis a) * 3);
  complex ← PyFloat.of_int (complex_transformations (dataweave_analysis a) * 5);
  large ← PyFloat.of_int (len (large_files (complexity_indicators a)) * 10);
  Some
    (PyFloat.round2
       (PyFloat.add
          (PyFloat.add
             (PyFloat.add
                (PyFloat.add
                   (PyFloat.add
                      (PyFloat.add connectors_and_flows
                         (PyFloat.mul components PyFloat.lit_0_1))
                      java)
                   (PyFloat.mul code_lines PyFloat.lit_0_01))
                dwl)
             complex)
          large)).

(** Two analyses agree on the counts that enter the score. *)
Definition same_counts (a b : project_analysis) : Prop :=
  Permutation (connector_usage_count (connectors_and_components a))
              (connector_usage_count (connectors_and_components b))
  /\ total_flows (flows_and_subflows a) = total_flows (flows_and_subflows b)
  /\ total_subflows (flows_and_subflows a)
     = total_subflows (flows_and_subflows b)
  /\ total_components (connectors_and_components a)
     = total_components (connectors_and_components b)
  /\ java_files_count (custom_code a) = java_files_count (custom_code b)
  /\ total_custom_code_lines (custom_code a)
     = total_custom_code_lines (custom_code b)
  /\ dwl_files_count (dataweave_analysis a)
     = dwl_files_count (dataweave_analysis b)
  /\ complex_transformations (dataweave_analysis a)
     = complex_transformations (dataweave_analysis b)
  /\ len (large_files (complexity_indicators a))
     = len (large_files (complexity_indicators b)).

(** The entries of the large files among the entries of the files. *)
Definition large_among (entries : list config_entry) : list large_file :=
  flat_map
    (fun e =>
       if 1000 <? size_lines e
       then [ {| large_filename := filename e; large_lines := size_lines e |} ]
       else [])
    entries.

(** An analysis with given counts, for examples. *)
Definition analysis_with (usage : dict Z)
    (n_flows n_subflows n_components n_java n_lines n_dwl n_complex : Z)
    (large : list large_file) : project_analysis :=
  let a := new_analysis ["repos"; "sample"]%string in
  {| project_name := project_name a; project_path := project_path a;
     mule_version := mule_version a; is_legacy := is_legacy a;
     configuration_files := configuration_files a;
     flows_and_subflows :=
       {| total_flows := n_flows; total_subflows := n_subflows;
          flows_per_file := [] |};
     connectors_and_components :=
       {| unique_connectors := ∅; connector_usage_count := usage;
          component_types := []; total_components := n_components;
          complexity_score := PyInt 0 |};
     dataweave_analysis :=
       {| dwl_files_count := n_dwl; inline_dw_expressions_count := 0;
          complex_transformations := n_complex; total_dw_lines := 0 |};
     custom_code :=
       {| java_files_count := n_java; java_classes := [];
          total_custom_code_lines := n_lines |};
     testing := testing a;
     complexity_indicators := {| large_files := large |};
     project_display_name := None; project_source := None |}.

(** 15 for the connectors, 8 + 2 for the flows, 3.7 for the components,
    15 + 12.34 for the Java code, 6 + 5 for DataWeave and 10 for the large
    file: 77.04. *)
Definition sample_analysis : project_analysis :=
  analysis_with [("sap", 2); ("http", 3); ("custom", 1)]%string
    4 2 37 3 1234 2 1
    [ {| large_filename := "big.xml"; large_lines := 1200 |} ].

Definition sample_analysis_permuted : project_analysis :=
  analysis_with [("custom", 1); ("sap", 2); ("http", 3)]%string
    4 2 37 3 1234 2 1
    [ {| large_filename := "other.xml"; large_lines := 5000 |} ].

(** ** A malformed configuration file *)



(** The state of [analyze_project] before the score is computed. *)
Definition analysis_before_scoring
    (re_findall : string -> string -> list string)
    (project_path : list string) (pf : project_files)
    : project_analysis * list string :=
  let a := new_analysis project_path in
  let '(a, out1) := _analyze_mule_version (project_name a) pf a in
  let '(a, out2) := _analyze_configuration_files re_findall pf a in
  let '(a, out3) := _analyze_custom_code pf a in
  let '(a, out4) := _analyze_tests pf a in
  (a, out1 ++ out2 ++ out3 ++ out4).





(** ** Aggregation *)

(** A completed project result carries a float score. *)
Definition scored (p : project_analysis) : Prop :=
  exists s, complexity_score (connectors_and_components p) = PyFloat s.

(** The results for a list of projects. *)
Definition results_for (ps : list project_analysis) : analysis_results :=
  {| summary := Summary.initial; projects := ps |}.

(** The total of the entries of a table for one key, and whether the key
    occurs in it. *)
Definition weight_of (k : string) (table : dict Z) : Z :=
  fold_right
    (fun item acc => (if String.eqb k (fst item) then snd item else 0) + acc)
    0 table.

Definition occurs_in (k : string) (table : dict Z) : bool :=
  existsb (fun item => String.eqb k (fst item)) table.

(** The summaries of two runs agree on everything but the total score. *)
Definition same_summary_counts (x y : Summary.t) : Prop :=
  Summary.mule_4_projects x = Summary.mule_4_projects y
  /\ Summary.mule_3_projects x = Summary.mule_3_projects y
  /\ Summary.unknown_version_projects x = Summary.unknown_version_projects y
  /\ Summary.total_flows x = Summary.total_flows y
  /\ Summary.total_subflows x = Summary.total_subflows y
  /\ Summary.total_components x = Summary.total_components y
  /\ Summary.total_java_files x = Summary.total_java_files y
  /\ Summary.total_dwl_files x = Summary.total_dwl_files y
  /\ Summary.total_munit_tests x = Summary.total_munit_tests y
  /\ same_dict (Summary.connector_usage_summary x)
               (Summary.connector_usage_summary y)
  /\ same_dict (Summary.component_types_summary x)
               (Summary.component_types_summary y).

(** The total score that the aggregator computes for a list of projects. *)
Definition total_score (alg : sum_algorithm) (ps : list project_analysis)
    : option number :=
  match _calculate_summary_stats alg (results_for ps) with
  | Some r => Some (Summary.total_complexity_score (summary r))
  | None => None
  end.

(** A project result with its score computed. *)
Definition with_score (a : project_analysis) : project_analysis :=
  match _calculate_project_complexity a with
  | Some a' => a'
  | None => a
  end.

(** Projects with 1, 2 and 3 components: scores 0.1, 0.2 and 0.3. *)
Definition with_components (n : Z) : project_analysis :=
  with_score (analysis_with [] 0 0 n 0 0 0 0 []).

Definition small_projects : list project_analysis :=
  [with_components 1; with_components 2; with_components 3].

(** Projects with [n] flows: score [2 * n]; with one sub-flow: score 1. *)
Definition with_flows (n : Z) : project_analysis :=
  with_score (analysis_with [] n 0 0 0 0 0 0 []).

Definition with_one_subflow : project_analysis :=
  with_score (analysis_with [] 0 1 0 0 0 0 0 []).

(** Scores 1, 1, 2^53 and 2^106. *)
Definition wide_projects : list project_analysis :=
  [with_one_subflow; with_one_subflow; with_flows (2 ^ 52);
   with_flows (2 ^ 105)].

(** * Definitions for the further properties *)

(** The fields of an analysis that no pass of [analyze_project] writes: the
    name and the path that [new_analysis] sets, and the two display fields
    that the walker sets afterwards. *)
Definition identity (a : project_analysis)
    : string * list string * option string * option string :=
  (project_name a, project_path a, project_display_name a, project_source a).

(** [p] is the entry that [report_project] appends for the project directory
    [item] found at [relative_path]: its analysis, with the display name and
    the source that the walker computes from the relative path. *)
Definition reported_as (re_findall : string -> string -> list string)
    (base_path relative_path : list string) (item : fs_node)
    (p : project_analysis) : Prop :=
  exists pf a out,
    node_contents item = Some pf
    /\ analyze_project re_findall (base_path ++ relative_path) pf
       = Some (a, out)
    /\ p = (if 1 <? len relative_path then
              set_display (PyStr.join "/" relative_path)
                (PyStr.join "/" (removelast relative_path)) a
            else set_display (node_name item) "local" a).

(** No part of a path is the name of a hidden directory. *)
Definition visible (path : list string) : Prop :=
  Forall (fun name => PyStr.startswith name "." = false) path.

(** The results of a walk hold the projects of the state it started from. *)
Definition keeps_projects (s s' : analysis_results * list string) : Prop :=
  exists new,
    projects (fst s') = projects (fst s) ++ new
    /\ Summary.total_projects (summary (fst s'))
       = Summary.total_projects (summary (fst s)) + len new.

(** The project directory of [shop_tree]. *)
Definition shop_dir : fs_node :=
  Dir "shop" db_project_files
    [Dir "src" no_files
       [Dir "main" no_files [Dir "mule" no_files [File "db.xml"]]]].

(** A run on [shop_tree] that asks for two projects by name. *)
Definition shop_targets : option (list string) :=
  Some ["shop"; "billing"]%string.

Abbreviation targeted_run :=
  (analyze_repository_folder no_match LeftToRight ["repos"%string] shop_tree
     shop_targets)
  (only parsing).

Definition targeted_results : analysis_results :=
  match targeted_run with Some (r, _) => r | None => initial_results end.

Definition targeted_output : list string :=
  match targeted_run with Some (_, out) => out | None => [] end.

Definition targeted_project : project_analysis :=
  match projects targeted_results with
  | p :: _ => p
  | [] => new_analysis []
  end.

(** The number of elements that a tally has counted: the counts of all
    the local names of all the namespaces, added up. *)
Definition tally_total (xml_tags_by_namespace : dict (dict Z)) : Z :=
  fold_right (fun entry acc => Dict.total (snd entry) + acc) 0
    xml_tags_by_namespace.

(** The elements of a document that satisfy a test on their tag. *)
Definition elements_with (test : string -> bool) (root : Element)
    : list Element :=
  List.filter (fun element => test (tag element)) (iter root).

(** What the connector tables of a project never hold: a connector named
    [documentation], an empty connector name, a key twice, or a count below
    one. *)
Definition well_formed_tables (u : gset string) (c t : dict Z) : Prop :=
  ("documentation"%string ∉ u)
  /\ (forall k, In k (Dict.keys c) ->
        k <> EmptyString /\ k <> "documentation"%string)
  /\ List.NoDup (Dict.keys c)
  /\ List.NoDup (Dict.keys t)
  /\ Forall (fun n => 1 <= n) (Dict.values c)
  /\ Forall (fun n => 1 <= n) (Dict.values t).

(** The entry that [_analyze_configuration_files] appends to
    [configuration_files.files] for a file. *)
Definition file_entry (f : xml_file) : config_entry :=
  let file_analysis := fst (_analyze_xml_file f) in
  {| filename := xml_name f;
     relative_path := xml_relative_path f;
     size_lines := line_count file_analysis;
     entry_flows := flows file_analysis;
     entry_subflows := subflows file_analysis;
     entry_components := components file_analysis;
     entry_tags := xml_tags_by_namespace file_analysis |}.

(** The configuration files of a project directory, none when it has no
    [src/main/mule]. *)
Definition mule_files (pf : project_files) : list xml_file :=
  match pf_mule pf with Some xml_files => xml_files | None => [] end.

(** The parts of an analysis that only the loop over the configuration files
    writes. *)
Definition documents (a : project_analysis)
    : configuration_files_t * flows_and_subflows_t * Z
      * complexity_indicators_t :=
  (configuration_files a, flows_and_subflows a,
   total_components (connectors_and_components a), complexity_indicators a).

(** The last of the files that has a given name. *)
Definition last_named (name : string) (xml_files : list xml_file)
    : option xml_file :=
  List.find (fun f => String.eqb (xml_name f) name) (rev xml_files).

(** The entry of [java_classes] for a Java file, none when it cannot be
    read. *)
Definition class_of (f : java_file) : list java_class :=
  match java_lines f with
  | Returned n =>
      [ {| class_name := java_stem f; file_path := java_relative_path f;
           lines := n |} ]
  | Raised _ => []
  end.

(** The files that the passes after the configuration files enumerate, none
    where the folder does not exist. *)
Definition java_files (pf : project_files) : list java_file :=
  match pf_java pf with Some fs => fs | None => [] end.

Definition dwl_files (pf : project_files) : list (string * outcome Z) :=
  match pf_dwl pf with Some fs => fs | None => [] end.

Definition munit_files (pf : project_files) : list (string * outcome Z) :=
  match pf_munit pf with Some fs => fs | None => [] end.

Definition other_tests (pf : project_files) : list string :=
  match pf_other_tests pf with Some fs => fs | None => [] end.

(** The count that a file yields, zero when reading or parsing it fails. *)
Definition counted (f : string * outcome Z) : Z :=
  match snd f with Returned n => n | Raised _ => 0 end.

(** The parts of an analysis that only [_analyze_custom_code] and
    [_analyze_tests] write. *)
Definition code_and_tests (a : project_analysis)
    : custom_code_t * testing_t * Z :=
  (custom_code a, testing a, dwl_files_count (dataweave_analysis a)).

(** A project directory with two Java files, one of them unreadable, a
    DataWeave file and a test suite. *)
Definition code_project_files : project_files :=
  {| pf_pom := None; pf_mule := None;
     pf_java :=
       Some [ {| java_path := "repos/code/src/main/java/A.java";
                 java_stem := "A";
                 java_relative_path := "src/main/java/A.java";
                 java_lines := Returned 120 |};
              {| java_path := "repos/code/src/main/java/B.java";
                 java_stem := "B";
                 java_relative_path := "src/main/java/B.java";
                 java_lines := Raised "'utf-8' codec can't decode byte" |} ];
     pf_dwl := Some [("repos/code/src/main/resources/t.dwl"%string,
                      Returned 150)];
     pf_munit := Some [("repos/code/src/test/munit/suite.xml"%string,
                        Returned 3)];
     pf_other_tests := Some ["repos/code/src/test/java/T.java"%string] |}.

Definition code_analysis : project_analysis :=
  match analyze_project no_match ["repos"; "code"]%string code_project_files
  with
  | Some (a, _) => a
  | None => new_analysis []
  end.

Definition code_analysis_output : list string :=
  match analyze_project no_match ["repos"; "code"]%string code_project_files
  with
  | Some (_, out) => out
  | None => []
  end.

(** The count of a key over the tables of some projects, added up. *)
Definition counted_over (table : project_analysis -> dict Z) (k : string)
    (ps : list project_analysis) : Z :=
  PySum.sum_int (map (fun p => Dict.get_or k 0 (table p)) ps).

(** What the walker returns on [shop_tree]. *)
Definition shop_walk : analysis_results * list string :=
  match
    _find_mulesoft_projects_recursive no_match None ["repos"%string]
      default_max_depth shop_tree [] (initial_results, [])
  with
  | Some st => st
  | None => (initial_results, [])
  end.

(** The version that a project records and its legacy flag. *)
Definition version_of (a : project_analysis) : string * bool :=
  (mule_version a, is_legacy a).

(** The legacy flag says that the recorded version starts with [3.]. *)
Definition legacy_flag_agrees (a : project_analysis) : Prop :=
  is_legacy a = PyStr.startswith (mule_version a) "3.".

(** One for an operation that raised, zero for one that returned. *)
Definition failed {A : Type} (o : outcome A) : Z :=
  match o with Raised _ => 1 | Returned _ => 0 end.

(** The warnings that the three passes over a configuration file print: the
    file analysis prints one when reading or parsing fails, the connector
    extraction one when parsing fails, the DataWeave scan one when reading
    fails. *)
Definition file_warnings (f : xml_file) : Z :=
  Z.max (failed (xml_read f)) (failed (xml_parse f))
  + failed (xml_parse f) + failed (xml_read f).

(** The number of warnings that the failures in a project directory call
    for. *)
Definition warnings_due (pf : project_files) : Z :=
  match pf_pom pf with Some pom => failed pom | None => 0 end
  + PySum.sum_int (map file_warnings (mule_files pf))
  + PySum.sum_int (map (fun f => failed (java_lines f)) (java_files pf))
  + PySum.sum_int (map (fun f => failed (snd f)) (dwl_files pf))
  + PySum.sum_int (map (fun f => failed (snd f)) (munit_files pf)).

(** Nothing in a project directory fails to be read or parsed. *)
Definition clean (pf : project_files) : Prop :=
  match pf_pom pf with Some pom => failed pom = 0 | None => True end
  /\ Forall (fun f => failed (xml_read f) = 0 /\ failed (xml_parse f) = 0)
       (mule_files pf)
  /\ Forall (fun f => failed (java_lines f) = 0) (java_files pf)
  /\ Forall (fun f => failed (snd f) = 0) (dwl_files pf)
  /\ Forall (fun f => failed (snd f) = 0) (munit_files pf).

(** * The reports *)

(** An exception that the report generation raises and does not catch. *)
Inductive exception : Type :=
| ZeroDivisionError
| OverflowError.

Inductive result (A : Type) : Type :=
| Ok (a : A)
| Raise (e : exception).
Arguments Ok {A} a.
Arguments Raise {A} e.

Module PyDiv.
(** The float record whose value is the integer [z], exactly; its mantissa
    is not normalised. *)
Definition exact (z : Z) : float :=
  match z with
  | Z0 => S754_zero false
  | Z.pos p => S754_finite false p 0
  | Z.neg p => S754_finite true p 0
  end.

(** [a / b].  The quotient of two [int]s is their exact quotient rounded
    once, [OverflowError] when it is out of range; otherwise both operands
    are converted to [float] first. *)
Definition truediv (a b : number) : result float :=
  match a, b with
  | PyInt x, PyInt y =>
      if y =? 0 then Raise ZeroDivisionError
      else
        match PyFloat.div (exact x) (exact y) with
        | S754_infinity _ => Raise OverflowError
        | q => Ok q
        end
  | _, _ =>
      match PyNum.to_float a, PyNum.to_float b with
      | Some x, Some y =>
          if PyFloat.is_zero y then Raise ZeroDivisionError
          else Ok (PyFloat.div x y)
      | _, _ => Raise OverflowError
      end
  end.
End PyDiv.

(** [sum(1 for x in xs if test(x))] *)
Definition count_if {A : Type} (test : A -> bool) (xs : list A) : Z :=
  PySum.sum_int (map (fun _ => 1) (List.filter test xs)).

(** The numbers that [_generate_comprehensive_index] computes for its
    sections MULE VERSION DISTRIBUTION, CODEBASE STATISTICS and CUSTOM CODE
    ANALYSIS. *)
Record index_statistics : Type := {
  index_mule_4_count : Z;
  index_mule_3_count : Z;
  index_unknown_count : Z;
  index_total_flows : Z;
  index_total_subflows : Z;
  index_total_components : Z;
  index_total_java_files : Z;
  index_total_dwl_files : Z;
  index_total_munit_tests : Z;
  index_average_complexity : float;
  (* projects_with_java, total_java_lines and their quotient; [None] when
     the section is not written *)
  index_custom_code : option (Z * Z * float)
}.

(** [_generate_comprehensive_index(index_file)], its numbers: the counts, the
    sums and the two averages in the order in which the function computes
    them.  The lines that it writes from them, the tag tables (see
    [index_tag_tables]) and the listings of files and projects, which
    raise nothing, are left out. *)
Definition _generate_comprehensive_index (alg : sum_algorithm)
    (r : analysis_results) : result index_statistics :=
  let ps := projects r in
  let mule_4_count :=
    count_if (fun p => PyStr.startswith (mule_version p) "4.") ps in
  let mule_3_count :=
    count_if (fun p => PyStr.startswith (mule_version p) "3.") ps in
  let unknown_count := len ps - mule_4_count - mule_3_count in
  let total_flows :=
    PySum.sum_int (map (fun p => total_flows (flows_and_subflows p)) ps) in
  let total_subflows :=
    PySum.sum_int (map (fun p => total_subflows (flows_and_subflows p)) ps) in
  let total_components :=
    PySum.sum_int
      (map (fun p => total_components (connectors_and_components p)) ps) in
  let total_java_files :=
    PySum.sum_int (map (fun p => java_files_count (custom_code p)) ps) in
  let total_dwl_files :=
    PySum.sum_int (map (fun p => dwl_files_count (dataweave_analysis p)) ps) in
  let total_munit_tests :=
    PySum.sum_int (map (fun p => munit_test_files (testing p)) ps) in
  match
    PySum.sum alg
      (map (fun p => complexity_score (connectors_and_components p)) ps)
  with
  | None => Raise OverflowError
  | Some total_complexity =>
      match PyDiv.truediv total_complexity (PyInt (len ps)) with
      | Raise e => Raise e
      | Ok average_complexity =>
          let statistics custom_code :=
            {| index_mule_4_count := mule_4_count;
               index_mule_3_count := mule_3_count;
               index_unknown_count := unknown_count;
               index_total_flows := total_flows;
               index_total_subflows := total_subflows;
               index_total_components := total_components;
               index_total_java_files := total_java_files;
               index_total_dwl_files := total_dwl_files;
               index_total_munit_tests := total_munit_tests;
               index_average_complexity := average_complexity;
               index_custom_code := custom_code |} in
          if 0 <? total_java_files then
            let total_java_lines :=
              PySum.sum_int
                (map (fun p => total_custom_code_lines (custom_code p)) ps) in
            let projects_with_java :=
              count_if (fun p => 0 <? java_files_count (custom_code p)) ps in
            match
              PyDiv.truediv (PyInt total_java_lines) (PyInt projects_with_java)
            with
            | Raise e => Raise e
            | Ok average =>
                Ok (statistics
                      (Some (projects_with_java, total_java_lines, average)))
            end
          else Ok (statistics None)
      end
  end.

(** What [_generate_comprehensive_index] returns after the walk on
    [shop_tree] and its aggregation. *)
Abbreviation shop_index :=
  (_generate_comprehensive_index LeftToRight (results_of shop_tree))
  (only parsing).

(** A folder without any project. *)
Definition empty_tree : fs_node := Dir "repos" no_files [File "README.md"].

(** ** The JSON files *)

(** The content of an individual project file, or an item of [projects] in
    the consolidated file: the restructured project.  The keys [metadata]
    and [shared_resources], whose data the analyses of this development do
    not carry, are left out. *)
Record project_report : Type := {
  overview_project_name : string;
  overview_project_display_name : string;
  overview_project_source : string;
  overview_project_path : list string;
  overview_mule_version : string;
  overview_is_legacy : bool;
  report_configuration_files : configuration_files_t;
  report_dataweave_analysis : dataweave_analysis_t;
  report_custom_code : custom_code_t;
  report_testing : testing_t;
  report_complexity_indicators : complexity_indicators_t;
  report_flows_and_subflows : flows_and_subflows_t;
  report_connectors_and_components : connectors_and_components_t
}.

(** An item of [project_list] in the summary file. *)
Record project_row : Type := {
  row_project_name : string;
  row_project_display_name : string;
  row_project_source : string;
  row_mule_version : string;
  row_is_legacy : bool;
  row_flows : Z;
  row_components : Z;
  row_complexity_score : number;
  row_java_files : Z;
  row_munit_tests : Z
}.

(** What [json.dump] writes to a file of the output directory. *)
Inductive json_file : Type :=
| SummaryWithList (summary : Summary.t) (project_list : list project_row)
| SummaryWithProjects (summary : Summary.t) (projects : list project_report)
| ProjectReport (project_report : project_report).

(** [project.get('project_display_name', project['project_name'])] and
    [project.get('project_source', 'local')] *)
Definition display_name_of (project : project_analysis) : string :=
  match project_display_name project with
  | Some name => name
  | None => project_name project
  end.

Definition source_of (project : project_analysis) : string :=
  match project_source project with
  | Some source => source
  | None => "local"
  end.

Definition project_report_of (project : project_analysis) : project_report :=
  {| overview_project_name := project_name project;
     overview_project_display_name := display_name_of project;
     overview_project_source := source_of project;
     overview_project_path := project_path project;
     overview_mule_version := mule_version project;
     overview_is_legacy := is_legacy project;
     report_configuration_files := configuration_files project;
     report_dataweave_analysis := dataweave_analysis project;
     report_custom_code := custom_code project;
     report_testing := testing project;
     report_complexity_indicators := complexity_indicators project;
     report_flows_and_subflows := flows_and_subflows project;
     report_connectors_and_components := connectors_and_components project |}.

Definition project_row_of (p : project_analysis) : project_row :=
  {| row_project_name := project_name p;
     row_project_display_name := display_name_of p;
     row_project_source := source_of p;
     row_mule_version := mule_version p;
     row_is_legacy := is_legacy p;
     row_flows := total_flows (flows_and_subflows p);
     row_components := total_components (connectors_and_components p);
     row_complexity_score := complexity_score (connectors_and_components p);
     row_java_files := java_files_count (custom_code p);
     row_munit_tests := munit_test_files (testing p) |}.

(** [f"{project['project_name']}_analysis.json"] *)
Definition project_file_name (project : project_analysis) : string :=
  project_name project +:+ "_analysis.json".

Definition main_json_file : string := "mulesoft_analysis_analysis.json".

(** [_generate_individual_project_files(output_dir)]: the JSON files of the
    output directory, by name, after the loop over the projects, and what
    the generation of the index at the end of the function returns or
    raises. *)
Definition _generate_individual_project_files (alg : sum_algorithm)
    (r : analysis_results) (files : dict json_file)
    : dict json_file * result index_statistics :=
  (fold_left
     (fun files project =>
        Dict.set (project_file_name project)
          (ProjectReport (project_report_of project)) files)
     (projects r) files,
   _generate_comprehensive_index alg r).

(** [generate_report(output_file, individual_files, output_dir)]: the JSON
    files of the output directory afterwards, and what the last generation
    of the index returns or raises; the two text files and the lines printed
    are left out. *)
Definition generate_report (alg : sum_algorithm) (individual_files : bool)
    (r : analysis_results) (files : dict json_file)
    : dict json_file * result index_statistics :=
  let summary_results :=
    if individual_files
    then SummaryWithList (summary r) (map project_row_of (projects r))
    else SummaryWithProjects (summary r) (map project_report_of (projects r)) in
  let files := Dict.set main_json_file summary_results files in
  if individual_files then
    match _generate_individual_project_files alg r files with
    | (files, Raise e) => (files, Raise e)
    | (files, Ok _) => (files, _generate_comprehensive_index alg r)
    end
  else (files, _generate_comprehensive_index alg r).

(** The last of the projects that has a given name. *)
Definition last_project_named (name : string) (ps : list project_analysis)
    : option project_analysis :=
  List.find (fun p => String.eqb (project_name p) name) (rev ps).

(** ** The tag tables of the comprehensive index *)

Module PyText.
(** [c.lower()] for code points below 256: the letters A to Z and the
    capital letters of Latin-1. *)
Definition lower_char (c : ascii) : ascii :=
  let n := PyStr.code c in
  if ((65 <=? n) && (n <=? 90) || (192 <=? n) && (n <=? 214)
      || (216 <=? n) && (n <=? 222))%N
  then ascii_of_N (n + 32)
  else c.

(** [s.lower()] *)
Fixpoint lower (s : string) : string :=
  match s with
  | EmptyString => EmptyString
  | String c s' => String (lower_char c) (lower s')
  end.

(** [s.lstrip()], [s.rstrip()] and [s.strip()] *)
Fixpoint lstrip (s : string) : string :=
  match s with
  | EmptyString => EmptyString
  | String c s' => if PyStr.isspace c then lstrip s' else s
  end.

Fixpoint rstrip (s : string) : string :=
  match s with
  | EmptyString => EmptyString
  | String c s' =>
      match rstrip s' with
      | EmptyString => if PyStr.isspace c then EmptyString else String c EmptyString
      | rest => String c rest
      end
  end.

Definition strip (s : string) : string := rstrip (lstrip s).
End PyText.

(** The first nest of loops: [all_tags] and [all_namespace_tags]. *)
Definition count_tag (namespace : string) (acc : dict Z * dict (dict Z))
    (item : string * Z) : dict Z * dict (dict Z) :=
  let '(all_tags, all_namespace_tags) := acc in
  let '(tag, count) := item in
  (Dict.add tag count all_tags,
   Dict.set namespace
     (Dict.add tag count (Dict.get_or namespace [] all_namespace_tags))
     all_namespace_tags).

Definition count_namespace (acc : dict Z * dict (dict Z))
    (entry : string * dict Z) : dict Z * dict (dict Z) :=
  let '(all_tags, all_namespace_tags) := acc in
  let '(namespace, tags) := entry in
  let all_namespace_tags :=
    if Dict.mem namespace all_namespace_tags then all_namespace_tags
    else Dict.set namespace [] all_namespace_tags in
  fold_left (count_tag namespace) tags (all_tags, all_namespace_tags).

(** [for config_file in project['configuration_files']['files']: for
    namespace, tags in config_file.get('xml_tags_by_namespace', {}).items()],
    over all the projects. *)
Definition over_tag_tallies {S : Type} (body : S -> string * dict Z -> S)
    (ps : list project_analysis) (s : S) : S :=
  fold_left
    (fun s project =>
       fold_left
         (fun s config_file => fold_left body (entry_tags config_file) s)
         (files (configuration_files project)) s)
    ps s.

(** ['core' in namespace.lower() or 'ee' in namespace.lower()] *)
Definition is_excluded (namespace : string) : bool :=
  PyStr.contains (PyText.lower namespace) "core"
  || PyStr.contains (PyText.lower namespace) "ee".

(** The name under which a tag of a namespace is listed. *)
Definition namespaced_tag (namespace tag : string) : string :=
  let prefix :=
    if PyStr.contains namespace "("
    then PyText.strip (List.hd EmptyString (PyStr.split "("%char namespace))
    else List.hd EmptyString (PyStr.split " "%char namespace) in
  if negb (String.eqb prefix "default") then prefix +:+ ":" +:+ tag else tag.

(** The second nest of loops: [connector_tags] and [excluded_tags]. *)
Definition sort_tag (namespace : string) (acc : dict Z * dict Z)
    (item : string * Z) : dict Z * dict Z :=
  let '(connector_tags, excluded_tags) := acc in
  let '(tag, count) := item in
  if is_excluded namespace
  then (connector_tags, Dict.add tag count excluded_tags)
  else (Dict.add (namespaced_tag namespace tag) count connector_tags,
        excluded_tags).

Definition sort_namespace (acc : dict Z * dict Z) (entry : string * dict Z)
    : dict Z * dict Z :=
  fold_left (sort_tag (fst entry)) (snd entry) acc.

(** The four tables that [_generate_comprehensive_index] builds for its
    section XML TAGS USAGE ACROSS ALL PROJECTS. *)
Record tag_tables : Type := {
  all_tags : dict Z;
  all_namespace_tags : dict (dict Z);
  connector_tags : dict Z;
  excluded_tags : dict Z
}.

Definition index_tag_tables (r : analysis_results) : tag_tables :=
  let '(all_tags, all_namespace_tags) :=
    over_tag_tallies count_namespace (projects r) ([], []) in
  let '(connector_tags, excluded_tags) :=
    over_tag_tallies sort_namespace (projects r) ([], []) in
  {| all_tags := all_tags; all_namespace_tags := all_namespace_tags;
     connector_tags := connector_tags; excluded_tags := excluded_tags |}.

(** The configuration files of a project whose document was tallied. *)
Definition tallied_files (p : project_analysis) : Z :=
  count_if
    (fun e => match entry_tags e with [] => false | _ :: _ => true end)
    (files (configuration_files p)).

(** Two project directories of the same name in different folders. *)
Definition twin_tree : fs_node :=
  Dir "repos" no_files
    [Dir "team-a" no_files [Dir "svc" pom_only [File "pom.xml"]];
     Dir "team-b" no_files [Dir "svc" pom_only [File "pom.xml"]]].

(** * Properties *)

#[local] Arguments xmlns_colon : simpl never.
#[local] Arguments mule_schema : simpl never.
#[local] Arguments schemaLocation : simpl never.

Section PyFloat_examples.
Import PyFloat.

Example lit_0_1_nearest : lit_0_1 = div (nearest 1) (nearest 10).
Proof. reflexivity. Qed.

Example lit_0_01_nearest : lit_0_01 = div (nearest 1) (nearest 100).
Proof. reflexivity. Qed.

(** [3 * 0.1] is [0.30000000000000004] and rounds to [0.3]. *)
Example three_tenths :
  mul (nearest 3) lit_0_1 = S754_finite false 5404319552844596 (-54)
  /\ round2 (mul (nearest 3) lit_0_1) = div (nearest 3) (nearest 10).
Proof. split; reflexivity. Qed.

(** [round(0.125, 2)] is [0.12] and [round(0.375, 2)] is [0.38]. *)
Example round2_ties :
  round2 (div (nearest 1) (nearest 8)) = div (nearest 12) (nearest 100)
  /\ round2 (div (nearest 3) (nearest 8)) = div (nearest 38) (nearest 100).
Proof. split; reflexivity. Qed.
End PyFloat_examples.

(** ** Documents *)

Lemma Element_ind (P : Element -> Prop) :
  (forall t a cs, Forall P cs -> P (Elem t a cs)) -> forall e, P e.
Proof.
  intros step. fix IH 1. intros [t a cs]. apply step.
  induction cs as [|c cs' IHcs]; constructor; [apply IH | exact IHcs].
Qed.

Lemma len_app {A : Type} (xs ys : list A) : len (xs ++ ys) = len xs + len ys.
Proof. unfold len. rewrite length_app. lia. Qed.

Lemma len_nonneg {A : Type} (xs : list A) : 0 <= len xs.
Proof. unfold len. lia. Qed.

Lemma len_iter (e : Element) : len (iter e) = element_count e.
Proof.
  induction e as [t a cs IH] using Element_ind.
  cbn [iter element_count]. change (len (?x :: ?l)) with (Z.of_nat (S (length l))).
  rewrite Nat2Z.inj_succ. fold (len (flat_map iter cs)).
  enough (len (flat_map iter cs)
          = fold_right (fun c n => element_count c + n) 0 cs) by lia.
  induction IH as [|c cs' Hc _ IHcs]; [reflexivity|].
  cbn [flat_map fold_right]. rewrite len_app, Hc, IHcs. reflexivity.
Qed.

Lemma element_count_pos (e : Element) : 1 <= element_count e.
Proof. rewrite <- len_iter. destruct e. cbn [iter]. unfold len. cbn. lia. Qed.

Lemma iter_head (e : Element) : exists rest, iter e = e :: rest.
Proof. destruct e as [t a cs]. eexists. reflexivity. Qed.

(** The flow loop adds at most one to one of the two counters per element. *)
Lemma count_flow_bound (l : list Element) (a b : Z) :
  let '(a', b') := fold_left count_flow l (a, b) in
  a <= a' /\ b <= b' /\ a' + b' <= a + b + len l.
Proof.
  revert a b. induction l as [|e l IH]; intros a b.
  - cbn. unfold len. cbn. lia.
  - cbn [fold_left]. unfold count_flow at 2.
    change (len (e :: l)) with (Z.of_nat (S (length l))).
    rewrite Nat2Z.inj_succ. fold (len l).
    destruct (is_flow_tag (tag e)); [|destruct (is_subflow_tag (tag e))].
    + specialize (IH (a + 1) b). destruct (fold_left count_flow l (a + 1, b)). lia.
    + specialize (IH a (b + 1)). destruct (fold_left count_flow l (a, b + 1)). lia.
    + specialize (IH a b). destruct (fold_left count_flow l (a, b)). lia.
Qed.

(** The analysis of a file that is read and parsed. *)
Lemma analyze_parsed (f : xml_file) (content : string) (root : Element) :
  xml_read f = Returned content -> xml_parse f = Returned root ->
  fst (_analyze_xml_file f) =
  {| line_count := PyStr.splitlines_len content;
     flows := fst (fold_left count_flow (iter root) (0, 0));
     subflows := snd (fold_left count_flow (iter root) (0, 0));
     components := len (iter root) - 1;
     xml_tags_by_namespace :=
       fold_left (tally (namespace_mappings root)) (iter root) [] |}.
Proof.
  intros Hread Hparse. unfold _analyze_xml_file. rewrite Hread, Hparse.
  destruct (fold_left count_flow (iter root) (0, 0)). reflexivity.
Qed.

(** ** C2 and C7: the component count of a file *)

(** C2, as amended.  For a configuration file that is read as UTF-8 text and
    whose document parses, the [components] field of the per-file analysis is
    the number of elements of the document minus one; for a file whose text
    cannot be decoded it is zero, whether its document parses or not. *)
Theorem C2_components_exclude_root (f : xml_file) :
  (forall content root,
      xml_read f = Returned content -> xml_parse f = Returned root ->
      components (fst (_analyze_xml_file f)) = element_count root - 1)
  /\ (forall e, xml_read f = Raised e ->
        components (fst (_analyze_xml_file f)) = 0).
Proof.
  split.
  - intros content root Hread Hparse.
    rewrite (analyze_parsed f content root Hread Hparse).
    cbn [components]. rewrite len_iter. reflexivity.
  - intros e Hread. unfold _analyze_xml_file. rewrite Hread. reflexivity.
Qed.

Lemma C2_components_exclude_root_witness :
  components (fst (_analyze_xml_file lone_flow_file)) = 1 - 1
  /\ components (fst (_analyze_xml_file undecodable_file)) = 0.
Proof.
  split.
  - apply (proj1 (C2_components_exclude_root lone_flow_file)
             "<flow/>"%string (Elem "flow" [] [])); reflexivity.
  - apply (proj2 (C2_components_exclude_root undecodable_file)
             "'utf-8' codec can't decode byte 0xe9"%string); reflexivity.
Defined.

(** C2 as stated fails: the document of [undecodable_file] parses and has
    two elements, but the file reports no component. *)
Lemma C2_undecodable_counterexample :
  exists root,
    xml_parse undecodable_file = Returned root
    /\ components (fst (_analyze_xml_file undecodable_file))
       <> element_count root - 1.
Proof. eexists. split; [reflexivity|]. vm_compute. discriminate. Qed.

(** C7, as amended.  For every file the flow count plus the sub-flow count is
    at most the component count plus one (the element count, when the
    document is read and parsed), and at most the component count when the
    root of the parsed document is neither a flow nor a sub-flow. *)
Theorem C7_flows_bounded_by_components (f : xml_file) :
  let fa := fst (_analyze_xml_file f) in
  flows fa + subflows fa <= components fa + 1
  /\ (forall root,
        xml_parse f = Returned root ->
        is_flow_tag (tag root) = false ->
        is_subflow_tag (tag root) = false ->
        flows fa + subflows fa <= components fa).
Proof.
  intros fa. subst fa. destruct (xml_read f) as [content|e] eqn:Hread.
  2:{ unfold _analyze_xml_file. rewrite Hread. cbn. split; [lia|intros; lia]. }
  destruct (xml_parse f) as [root|e] eqn:Hparse.
  2:{ unfold _analyze_xml_file. rewrite Hread, Hparse. cbn.
      split; [lia|intros; lia]. }
  rewrite (analyze_parsed f content root Hread Hparse).
  cbn [flows subflows components]. split.
  - pose proof (count_flow_bound (iter root) 0 0) as H.
    destruct (fold_left count_flow (iter root) (0, 0)) as [fl sf].
    cbn [fst snd]. lia.
  - intros root' [= <-] Hflow Hsub.
    destruct (iter_head root) as [rest Hrest]. rewrite Hrest.
    cbn [fold_left]. unfold count_flow at 2 4. rewrite Hflow, Hsub.
    pose proof (count_flow_bound rest 0 0) as H.
    destruct (fold_left count_flow rest (0, 0)) as [fl sf]. cbn [fst snd].
    change (len (root :: rest)) with (Z.of_nat (S (length rest))).
    rewrite Nat2Z.inj_succ. fold (len rest). lia.
Qed.

Lemma C7_flows_bounded_by_components_witness :
  let fa := fst (_analyze_xml_file flow_in_mule_file) in
  flows fa + subflows fa <= components fa + 1
  /\ flows fa + subflows fa <= components fa.
Proof.
  split.
  - exact (proj1 (C7_flows_bounded_by_components flow_in_mule_file)).
  - apply (proj2 (C7_flows_bounded_by_components flow_in_mule_file)
             (Elem "mule" [] [Elem "flow" [] []])); reflexivity.
Defined.

(** C7 as stated fails: the document [<flow/>] is parsed, counts one flow
    and has no component. *)
Lemma C7_root_flow_counterexample :
  let fa := fst (_analyze_xml_file lone_flow_file) in
  xml_parse lone_flow_file = Returned (Elem "flow" [] [])
  /\ flows fa = 1 /\ subflows fa = 0 /\ components fa = 0
  /\ ~ (flows fa + subflows fa <= components fa).
Proof. vm_compute. repeat split; try reflexivity. intros H; apply H; reflexivity. Qed.

(** ** Dictionaries *)

Lemma get_set_eq {V : Type} (k : string) (v : V) (d : dict V) :
  Dict.get k (Dict.set k v d) = Some v.
Proof.
  induction d as [|[k' v'] d IH]; cbn.
  - rewrite String.eqb_refl. reflexivity.
  - destruct (String.eqb k k') eqn:E; cbn; rewrite E; [reflexivity | exact IH].
Qed.

Lemma get_set_ne {V : Type} (k k' : string) (v : V) (d : dict V) :
  k <> k' -> Dict.get k' (Dict.set k v d) = Dict.get k' d.
Proof.
  intros Hne. induction d as [|[k0 v0] d IH]; cbn.
  - destruct (String.eqb k' k) eqn:E; [|reflexivity].
    apply String.eqb_eq in E. congruence.
  - destruct (String.eqb k k0) eqn:E; cbn.
    + apply String.eqb_eq in E. subst k0.
      destruct (String.eqb k' k) eqn:E'; [|reflexivity].
      apply String.eqb_eq in E'. congruence.
    + rewrite IH. reflexivity.
Qed.

Lemma get_or_add_eq (k : string) (n : Z) (d : dict Z) :
  Dict.get_or k 0 (Dict.add k n d) = Dict.get_or k 0 d + n.
Proof. unfold Dict.add. unfold Dict.get_or at 1. rewrite get_set_eq. reflexivity. Qed.

Lemma get_or_add_ne (k k' : string) (n : Z) (d : dict Z) :
  k <> k' -> Dict.get_or k' 0 (Dict.add k n d) = Dict.get_or k' 0 d.
Proof. intros H. unfold Dict.add, Dict.get_or. rewrite get_set_ne by exact H. reflexivity. Qed.

Lemma mem_add (k k' : string) (n : Z) (d : dict Z) :
  Dict.mem k' (Dict.add k n d) = String.eqb k' k || Dict.mem k' d.
Proof.
  unfold Dict.mem, Dict.add. destruct (String.eqb k' k) eqn:E.
  - apply String.eqb_eq in E. subst. rewrite get_set_eq. reflexivity.
  - apply String.eqb_neq in E. rewrite get_set_ne by congruence. reflexivity.
Qed.

Lemma total_set (k : string) (v : Z) (d : dict Z) :
  Dict.total (Dict.set k v d) = Dict.total d - Dict.get_or k 0 d + v.
Proof.
  unfold Dict.total, Dict.get_or, Dict.values.
  induction d as [|[k' v'] d IH]; cbn.
  - lia.
  - destruct (String.eqb k k') eqn:E; cbn; [lia|].
    rewrite IH. destruct (Dict.get k d); lia.
Qed.

(** Adding [n] to an entry adds [n] to the sum of the values. *)
Lemma total_add (k : string) (n : Z) (d : dict Z) :
  Dict.total (Dict.add k n d) = Dict.total d + n.
Proof. unfold Dict.add. rewrite total_set. lia. Qed.

Lemma values_set {V : Type} (P : V -> Prop) (k : string) (v : V) (d : dict V) :
  Forall P (Dict.values d) -> P v -> Forall P (Dict.values (Dict.set k v d)).
Proof.
  intros Hd Hv. unfold Dict.values in *.
  induction d as [|[k' v'] d IH]; cbn.
  - constructor; [exact Hv | constructor].
  - inversion Hd as [|? ? Hv' Hd']; subst.
    destruct (String.eqb k k'); cbn; constructor; auto.
Qed.

Lemma keys_set_in {V : Type} (k k' : string) (v : V) (d : dict V) :
  In k' (Dict.keys (Dict.set k v d)) -> k' = k \/ In k' (Dict.keys d).
Proof.
  unfold Dict.keys. induction d as [|[k0 v0] d IH]; cbn.
  - intros [H|[]]; auto.
  - destruct (String.eqb k k0) eqn:E; cbn.
    + intros [H|H]; auto.
    + intros [H|H]; auto. destruct (IH H); auto.
Qed.

(** Assignment keeps the keys of a dictionary pairwise distinct. *)
Lemma keys_set_NoDup {V : Type} (k : string) (v : V) (d : dict V) :
  List.NoDup (Dict.keys d) -> List.NoDup (Dict.keys (Dict.set k v d)).
Proof.
  unfold Dict.keys. induction d as [|[k0 v0] d IH]; cbn; intros Hd.
  - constructor; [intros [] | constructor].
  - inversion Hd as [|? ? Hnotin Hd']; subst.
    destruct (String.eqb k k0) eqn:E; cbn.
    + constructor; assumption.
    + constructor; [|apply IH; exact Hd'].
      intros Hin. apply (keys_set_in k k0 v d) in Hin.
      destruct Hin as [->|Hin]; [|contradiction].
      rewrite String.eqb_refl in E. discriminate.
Qed.

(** ** The connector tables through the passes of [analyze_project] *)

Lemma fold_left_pair_inv {A B C : Type} (f : B * C -> A -> B * C)
    (P : B -> C -> Prop) (l : list A) (s : B * C) :
  (forall b c x, P b c -> P (fst (f (b, c) x)) (snd (f (b, c) x))) ->
  P (fst s) (snd s) ->
  P (fst (fold_left f l s)) (snd (fold_left f l s)).
Proof.
  intros step. revert s. induction l as [|x l IH]; intros [b c] H; cbn.
  - exact H.
  - apply IH. apply step. exact H.
Qed.

Section ConnectorTables.
Variable re_findall : string -> string -> list string.
Variable Q : gset string -> dict Z -> dict Z -> Prop.

Hypothesis Q_extract : forall root u c t,
  Q u c t ->
  Q (u ∪ list_to_set (Dict.values (namespaces_of root)))
    (fst (fold_left (attribute (namespaces_of root)) (iter root) (c, t)))
    (snd (fold_left (attribute (namespaces_of root)) (iter root) (c, t))).

Lemma extract_tables (f : xml_file) (a : project_analysis) :
  connector_tables Q a ->
  connector_tables Q (fst (_extract_connectors_from_xml f a)).
Proof using Q_extract.
  unfold connector_tables, _extract_connectors_from_xml. intros H.
  destruct (xml_parse f) as [root|e]; [|exact H].
  specialize (Q_extract root _ _ _ H).
  destruct (fold_left (attribute (namespaces_of root)) (iter root) _)
    as [u t].
  exact Q_extract.
Qed.

Lemma dataweave_connectors (f : xml_file) (a : project_analysis) :
  connectors_and_components (fst (_analyze_dataweave_in_xml re_findall f a))
  = connectors_and_components a.
Proof.
  unfold _analyze_dataweave_in_xml. destruct (xml_read f); [|reflexivity].
  destruct (fold_left _ dw_patterns _) as [[x y] z]. reflexivity.
Qed.


Lemma record_file_tables (f : xml_file) (fa : file_analysis)
    (a : project_analysis) :
  connector_tables Q a -> connector_tables Q (record_file_analysis f fa a).
Proof.
  unfold connector_tables, record_file_analysis.
  destruct (1000 <? line_count fa); intros H; exact H.
Qed.

Lemma configuration_file_tables (st : project_analysis * list string)
    (f : xml_file) :
  connector_tables Q (fst st) ->
  connector_tables Q (fst (analyze_configuration_file re_findall st f)).
Proof using Q_extract.
  destruct st as [a out]. unfold analyze_configuration_file. intros H.
  destruct (_analyze_xml_file f) as [fa out1].
  pose proof (extract_tables f _ (record_file_tables f fa a H)) as H1.
  destruct (_extract_connectors_from_xml f _) as [a1 out2].
  pose proof (dataweave_connectors f a1) as H2.
  destruct (_analyze_dataweave_in_xml re_findall f a1) as [a2 out3].
  cbn [fst] in *. unfold connector_tables in *. rewrite H2. exact H1.
Qed.

Lemma configuration_loop_tables (fs : list xml_file) (a : project_analysis) :
  connector_tables Q a ->
  connector_tables Q (fst (analyze_configuration_files_loop re_findall fs a)).
Proof using Q_extract.
  unfold analyze_configuration_files_loop. generalize (@nil string).
  revert a. induction fs as [|f fs IH]; intros a out H; [exact H|].
  cbn [fold_left].
  pose proof (configuration_file_tables (a, out) f H) as H1.
  destruct (analyze_configuration_file re_findall (a, out) f) as [a1 out1].
  apply IH. exact H1.
Qed.

Lemma configuration_files_tables (pf : project_files) (a : project_analysis) :
  connector_tables Q a ->
  connector_tables Q (fst (_analyze_configuration_files re_findall pf a)).
Proof using Q_extract.
  unfold _analyze_configuration_files. intros H.
  destruct (pf_mule pf) as [fs|]; [|exact H].
  apply configuration_loop_tables. exact H.
Qed.

Lemma mule_version_connectors (name : string) (pf : project_files)
    (a : project_analysis) :
  connectors_and_components (fst (_analyze_mule_version name pf a))
  = connectors_and_components a.
Proof.
  unfold _analyze_mule_version.
  destruct (pf_pom pf) as [[pom|e]|]; try reflexivity.
  destruct (pom_mule_version pom); cbn [fst];
    match goal with
    | |- context [if ?b then _ else _] => destruct b
    end; try reflexivity; destruct (pom_plugin_version pom); reflexivity.
Qed.

Lemma custom_code_connectors (pf : project_files) (a : project_analysis) :
  connectors_and_components (fst (_analyze_custom_code pf a))
  = connectors_and_components a.
Proof.
  unfold _analyze_custom_code.
  destruct (pf_java pf) as [js|]; destruct (pf_dwl pf) as [ds|];
    repeat match goal with
      | |- context [fold_left ?f ?l ?s] =>
          destruct (fold_left f l s) as [[? ?] ?] || destruct (fold_left f l s)
      end; reflexivity.
Qed.

Lemma tests_connectors (pf : project_files) (a : project_analysis) :
  connectors_and_components (fst (_analyze_tests pf a))
  = connectors_and_components a.
Proof.
  unfold _analyze_tests.
  destruct (pf_munit pf) as [ms|]; destruct (pf_other_tests pf) as [os|];
    repeat match goal with
      | |- context [fold_left ?f ?l ?s] => destruct (fold_left f l s)
      end; reflexivity.
Qed.

(** The project that [analyze_project] returns satisfies what the empty
    tables satisfy and attribution preserves. *)
Lemma analyze_project_tables (path : list string) (pf : project_files)
    (a : project_analysis) (out : list string) :
  Q ∅ [] [] ->
  analyze_project re_findall path pf = Some (a, out) ->
  connector_tables Q a.
Proof using Q_extract.
  intros H0. unfold analyze_project.
  pose proof (mule_version_connectors
                (project_name (new_analysis path)) pf (new_analysis path))
    as H1.
  destruct (_analyze_mule_version _ pf (new_analysis path)) as [a1 o1].
  pose proof (configuration_files_tables pf a1) as H2.
  destruct (_analyze_configuration_files re_findall pf a1) as [a2 o2].
  pose proof (custom_code_connectors pf a2) as H3.
  destruct (_analyze_custom_code pf a2) as [a3 o3].
  pose proof (tests_connectors pf a3) as H4.
  destruct (_analyze_tests pf a3) as [a4 o4].
  unfold _calculate_project_complexity.
  destruct (project_complexity a4) as [s|]; cbn; [|discriminate].
  intros [= <- _]. cbn [fst] in *.
  unfold connector_tables in *. cbn.
  rewrite H4, H3. apply H2. rewrite H1. exact H0.
Qed.
End ConnectorTables.

(** ** Project discovery *)

Lemma fs_node_ind (P : fs_node -> Prop) :
  (forall name, P (File name)) ->
  (forall name pf entries, Forall P entries -> P (Dir name pf entries)) ->
  forall n, P n.
Proof.
  intros Hfile Hdir. fix IH 1. intros [name|name pf entries].
  - apply Hfile.
  - apply Hdir.
    induction entries as [|e es IHes]; constructor; [apply IH | exact IHes].
Qed.

Lemma append_project_projects (p : project_analysis) (r : analysis_results) :
  projects (append_project p r) = projects r ++ [p].
Proof. reflexivity. Qed.

Section WalkerFacts.
Variable re_findall : string -> string -> list string.
Variable target_projects : option (list string).
Variable base_path : list string.
Variable max_depth : Z.

Let walk :=
  _find_mulesoft_projects_recursive re_findall target_projects base_path
    max_depth.

Lemma report_project_projects (item : fs_node) (relative_path : list string)
    (st st' : analysis_results * list string) :
  report_project re_findall base_path item relative_path st = Some st' ->
  projects (fst st') = projects (fst st)
  \/ exists p,
       projects (fst st') = projects (fst st) ++ [p]
       /\ analysis_of re_findall (base_path ++ relative_path) item p.
Proof.
  destruct st as [results out]. unfold report_project.
  destruct (node_contents item) as [pf|] eqn:Hpf.
  2:{ intros [= <-]. left. reflexivity. }
  destruct (analyze_project re_findall (base_path ++ relative_path) pf)
    as [[a out']|] eqn:Ha; cbn; [|discriminate].
  intros [= <-]. right. cbn [fst]. eexists. rewrite append_project_projects.
  split; [reflexivity|].
  exists pf, a, out'.
  destruct (1 <? len relative_path); do 2 eexists; repeat split; eauto.
Qed.

(** Every project that the walker appends while it visits [node] lies at a
    path below [node] that [reaches] describes, of bounded length. *)
Lemma walker_reports (node : fs_node) :
  forall (relative : list string) (st st' : analysis_results * list string),
    walk node relative st = Some st' ->
    forall p,
      In p (projects (fst st')) ->
      In p (projects (fst st))
      \/ exists path item,
           reaches node path item
           /\ _is_mulesoft_project item = true
           /\ len relative + len path <= max_depth + 1
           /\ analysis_of re_findall (base_path ++ relative ++ path) item p.
Proof.
  induction node as [name|name pf entries IH] using fs_node_ind;
    intros relative st st' Hwalk p Hp.
  - unfold walk in Hwalk. cbn in Hwalk.
    destruct (max_depth <? len relative); injection Hwalk as <-; auto.
  - unfold walk in Hwalk. cbn [_find_mulesoft_projects_recursive] in Hwalk.
    destruct (max_depth <? len relative) eqn:Hdepth.
    { injection Hwalk as <-. auto. }
    apply Z.ltb_ge in Hdepth.
    assert (Hsub : forall e, In e entries -> In e (node_entries (Dir name pf entries)))
      by (intros e He; exact He).
    revert Hsub. generalize (Dir name pf entries) as d. intros d Hsub.
    revert st Hwalk Hsub.
    induction IH as [|item items IHitem _ IHitems]; intros st Hwalk Hsub.
    + cbn in Hwalk. injection Hwalk as <-. auto.
    + cbn [for_each] in Hwalk.
      match type of Hwalk with
      | (?step ≫= _) = _ => destruct step as [st1|] eqn:Hstep
      end; cbn in Hwalk; [|discriminate].
      assert (Hrest : forall e, In e items -> In e (node_entries d))
        by (intros e He; apply Hsub; right; exact He).
      destruct (IHitems st1 Hwalk Hrest) as [Hold|Hnew]; [|right; exact Hnew].
      assert (Hitem : In item (node_entries d)) by (apply Hsub; left; reflexivity).
      clear IHitems Hwalk Hrest Hsub Hp.
      destruct (is_dir item) eqn:Hisdir; cbn [andb] in Hstep.
      2:{ injection Hstep as <-. auto. }
      destruct (PyStr.startswith (node_name item) ".") eqn:Hhidden;
        cbn [negb] in Hstep.
      { injection Hstep as <-. auto. }
      destruct (_is_mulesoft_project item) eqn:Hproj.
      * destruct (filtered_out target_projects (node_name item)).
        { injection Hstep as <-. auto. }
        apply report_project_projects in Hstep.
        destruct Hstep as [Heq|(q & Heq & Hq)]; rewrite Heq in Hold; auto.
        apply in_app_or in Hold. destruct Hold as [Hold|[<-|[]]]; auto.
        right. exists [node_name item], item. repeat split.
        -- apply reaches_entry; assumption.
        -- exact Hproj.
        -- change (len [node_name item]) with 1. lia.
        -- exact Hq.
      * destruct (IHitem _ _ _ Hstep p Hold)
          as [Hold'|(path & item' & Hreach & Hproj' & Hlen & Hq)]; auto.
        right. exists (node_name item :: path), item'. repeat split.
        -- apply reaches_below; assumption.
        -- exact Hproj'.
        -- rewrite len_app in Hlen. change (len [node_name item]) with 1 in Hlen.
           change (len (node_name item :: path))
             with (Z.of_nat (S (length path))).
           rewrite Nat2Z.inj_succ. fold (len path). lia.
        -- rewrite <- app_assoc in Hq. exact Hq.
Qed.
End WalkerFacts.

(** ** The path of an analyzed project *)

Section ProjectPath.
Variable re_findall : string -> string -> list string.

Lemma extract_path (f : xml_file) (a : project_analysis) :
  project_path (fst (_extract_connectors_from_xml f a)) = project_path a.
Proof.
  unfold _extract_connectors_from_xml.
  destruct (xml_parse f); [|reflexivity].
  destruct (fold_left _ (iter _) _). reflexivity.
Qed.

Lemma dataweave_path (f : xml_file) (a : project_analysis) :
  project_path (fst (_analyze_dataweave_in_xml re_findall f a))
  = project_path a.
Proof.
  unfold _analyze_dataweave_in_xml. destruct (xml_read f); [|reflexivity].
  destruct (fold_left _ dw_patterns _) as [[x y] z]. reflexivity.
Qed.

Lemma record_file_path (f : xml_file) (fa : file_analysis)
    (a : project_analysis) :
  project_path (record_file_analysis f fa a) = project_path a.
Proof.
  unfold record_file_analysis. destruct (1000 <? line_count fa); reflexivity.
Qed.

Lemma configuration_file_path (st : project_analysis * list string)
    (f : xml_file) :
  project_path (fst (analyze_configuration_file re_findall st f))
  = project_path (fst st).
Proof.
  destruct st as [a out]. unfold analyze_configuration_file.
  destruct (_analyze_xml_file f) as [fa out1].
  pose proof (extract_path f (record_file_analysis f fa a)) as H1.
  destruct (_extract_connectors_from_xml f _) as [a1 out2].
  pose proof (dataweave_path f a1) as H2.
  destruct (_analyze_dataweave_in_xml re_findall f a1) as [a2 out3].
  cbn [fst] in *. rewrite H2, H1. apply record_file_path.
Qed.

Lemma configuration_files_path (pf : project_files) (a : project_analysis) :
  project_path (fst (_analyze_configuration_files re_findall pf a))
  = project_path a.
Proof.
  unfold _analyze_configuration_files.
  destruct (pf_mule pf) as [fs|]; [|reflexivity].
  unfold analyze_configuration_files_loop.
  change (project_path a)
    with (project_path
            (fst (set_configuration_files
                    {| count := len fs; files := files (configuration_files a) |}
                    a, @nil string))).
  generalize (set_configuration_files
                {| count := len fs; files := files (configuration_files a) |}
                a, @nil string).
  induction fs as [|f fs IH]; intros st; [reflexivity|].
  cbn [fold_left]. rewrite IH. apply configuration_file_path.
Qed.

Lemma mule_version_path (name : string) (pf : project_files)
    (a : project_analysis) :
  project_path (fst (_analyze_mule_version name pf a)) = project_path a.
Proof.
  unfold _analyze_mule_version.
  destruct (pf_pom pf) as [[pom|e]|]; try reflexivity.
  destruct (pom_mule_version pom); cbn [fst];
    match goal with
    | |- context [if ?b then _ else _] => destruct b
    end; try reflexivity; destruct (pom_plugin_version pom); reflexivity.
Qed.

Lemma custom_code_path (pf : project_files) (a : project_analysis) :
  project_path (fst (_analyze_custom_code pf a)) = project_path a.
Proof.
  unfold _analyze_custom_code.
  destruct (pf_java pf) as [js|]; destruct (pf_dwl pf) as [ds|];
    repeat match goal with
      | |- context [fold_left ?f ?l ?s] =>
          destruct (fold_left f l s) as [[? ?] ?] || destruct (fold_left f l s)
      end; reflexivity.
Qed.

Lemma tests_path (pf : project_files) (a : project_analysis) :
  project_path (fst (_analyze_tests pf a)) = project_path a.
Proof.
  unfold _analyze_tests.
  destruct (pf_munit pf) as [ms|]; destruct (pf_other_tests pf) as [os|];
    repeat match goal with
      | |- context [fold_left ?f ?l ?s] => destruct (fold_left f l s)
      end; reflexivity.
Qed.

(** [analyze_project] records the path it is given. *)
Lemma analyze_project_path (path : list string) (pf : project_files)
    (a : project_analysis) (out : list string) :
  analyze_project re_findall path pf = Some (a, out) ->
  project_path a = path.
Proof.
  unfold analyze_project.
  pose proof (mule_version_path
                (project_name (new_analysis path)) pf (new_analysis path))
    as H1.
  destruct (_analyze_mule_version _ pf (new_analysis path)) as [a1 o1].
  pose proof (configuration_files_path pf a1) as H2.
  destruct (_analyze_configuration_files re_findall pf a1) as [a2 o2].
  pose proof (custom_code_path pf a2) as H3.
  destruct (_analyze_custom_code pf a2) as [a3 o3].
  pose proof (tests_path pf a3) as H4.
  destruct (_analyze_tests pf a3) as [a4 o4].
  unfold _calculate_project_complexity.
  destruct (project_complexity a4) as [s|]; cbn; [|discriminate].
  intros [= <- _]. cbn [fst] in *. cbn.
  rewrite H4, H3, H2, H1. reflexivity.
Qed.

Lemma analysis_of_path (path : list string) (item : fs_node)
    (p : project_analysis) :
  analysis_of re_findall path item p -> project_path p = path.
Proof.
  intros (pf & a & out & name & source & _ & Ha & ->).
  cbn. exact (analyze_project_path path pf a out Ha).
Qed.
End ProjectPath.

(** ** Whole runs *)

Lemma summary_stats_projects (alg : sum_algorithm) (r r' : analysis_results) :
  _calculate_summary_stats alg r = Some r' -> projects r' = projects r.
Proof.
  unfold _calculate_summary_stats.
  destruct (fold_left count_version _ _) as [[m4 m3] u].
  destruct (PySum.sum alg _) as [s|]; cbn; [|discriminate].
  destruct (fold_left count_project _ _) as [c t].
  intros [= <-]. reflexivity.
Qed.

(** The projects of a run are the analyses of project directories that
    [reaches] describes. *)
Lemma run_reports (re_findall : string -> string -> list string)
    (alg : sum_algorithm) (base_path : list string) (root : fs_node)
    (targets : option (list string)) (results : analysis_results)
    (out : list string) :
  analyze_repository_folder re_findall alg base_path root targets
  = Some (results, out) ->
  forall p,
    In p (projects results) ->
    exists path item,
      reaches root path item
      /\ _is_mulesoft_project item = true
      /\ len path <= default_max_depth + 1
      /\ analysis_of re_findall (base_path ++ path) item p.
Proof.
  unfold analyze_repository_folder. intros Hrun p Hp.
  match type of Hrun with
  | (?w ≫= _) = _ => destruct w as [[r1 o1]|] eqn:Hwalk
  end; cbn in Hrun; [|discriminate].
  destruct (_calculate_summary_stats alg r1) as [r2|] eqn:Hsum; cbn in Hrun;
    [|discriminate].
  injection Hrun as <- <-.
  rewrite (summary_stats_projects alg r1 r2 Hsum) in Hp.
  destruct (walker_reports re_findall targets base_path default_max_depth
              root [] _ _ Hwalk p Hp)
    as [[]|(path & item & Hreach & Hproj & Hlen & Hq)].
  exists path, item. repeat split; auto.
Qed.

Lemma shop_run :
  run_of shop_tree = Some (results_of shop_tree, output_of shop_tree).
Proof. vm_compute. reflexivity. Qed.

Lemma deep_run :
  run_of deep_tree = Some (results_of deep_tree, output_of deep_tree).
Proof. vm_compute. reflexivity. Qed.

(** ** C3: discovery *)

(** C3, as amended.  In a run with the default maximum depth 4, every
    reported project is a project directory whose path relative to the
    analyzed folder has at most 4 + 1 parts (the directory that lists it is at
    depth at most 4), and no directory strictly between the folder and the
    project is itself a project: the walker does not go below a directory
    that it has classified as a project. *)
Theorem C3_discovery_depth_and_nesting
    (re_findall : string -> string -> list string) (alg : sum_algorithm)
    (base_path : list string) (root : fs_node)
    (targets : option (list string)) (results : analysis_results)
    (out : list string) :
  analyze_repository_folder re_findall alg base_path root targets
  = Some (results, out) ->
  forall p,
    In p (projects results) ->
    exists path item,
      project_path p = base_path ++ path
      /\ len path <= default_max_depth + 1
      /\ reaches root path item
      /\ _is_mulesoft_project item = true.
Proof.
  intros Hrun p Hp.
  destruct (run_reports _ _ _ _ _ _ _ Hrun p Hp)
    as (path & item & Hreach & Hproj & Hlen & Hq).
  exists path, item. repeat split; auto.
  exact (analysis_of_path re_findall _ item p Hq).
Qed.

Lemma C3_discovery_depth_and_nesting_witness :
  exists path item,
    project_path (first_project deep_tree) = ["repos"%string] ++ path
    /\ len path <= default_max_depth + 1
    /\ reaches deep_tree path item
    /\ _is_mulesoft_project item = true.
Proof.
  apply (C3_discovery_depth_and_nesting no_match LeftToRight ["repos"%string]
           deep_tree None (results_of deep_tree) (output_of deep_tree)).
  - exact deep_run.
  - vm_compute. left. reflexivity.
Defined.

(** C3 as stated fails: the run on [deep_tree] with the default maximum
    depth 4 reports the project at [a/b/c/d/e], five levels below the
    folder. *)
Lemma C3_depth_counterexample :
  exists p,
    run_of deep_tree = Some (results_of deep_tree, output_of deep_tree)
    /\ In p (projects (results_of deep_tree))
    /\ project_path p = ["repos"; "a"; "b"; "c"; "d"; "e"]%string
    /\ project_display_name p = Some "a/b/c/d/e"%string
    /\ ~ (len ["a"; "b"; "c"; "d"; "e"]%string <= default_max_depth).
Proof.
  exists (first_project deep_tree). split; [exact deep_run|].
  split; [vm_compute; left; reflexivity|].
  split; [vm_compute; reflexivity|].
  split; [vm_compute; reflexivity|].
  vm_compute. intros H. apply H. reflexivity.
Qed.

(** ** C4 and C10: the connector tables *)

(** Induction over a list read two items at a time. *)
Lemma pairs_ind {A : Type} (P : list A -> Prop) :
  P [] -> (forall x, P [x]) -> (forall x y l, P l -> P (x :: y :: l)) ->
  forall l, P l.
Proof.
  intros H0 H1 H2. fix IH 1. intros [|x [|y l]].
  - exact H0.
  - apply H1.
  - apply H2. apply IH.
Qed.

Lemma schema_location_namespaces_unreserved (root : Element)
    (parts : list string) (namespaces : dict string) :
  unreserved namespaces ->
  unreserved (schema_location_namespaces root parts namespaces).
Proof.
  revert namespaces.
  induction parts as [|x|uri loc parts IH] using pairs_ind;
    intros namespaces H; cbn [schema_location_namespaces]; auto.
  apply IH. destruct (PyStr.contains uri mule_schema); [|exact H].
  cbv zeta. destruct (is_reserved (PyStr.last_part slash uri)) eqn:E;
    cbn [negb]; [exact H|].
  destruct (declared_prefix root uri); [|exact H].
  apply values_set; assumption.
Qed.

Lemma direct_declaration_namespaces_unreserved (root : Element)
    (namespaces : dict string) :
  unreserved namespaces ->
  unreserved (direct_declaration_namespaces root namespaces).
Proof.
  unfold direct_declaration_namespaces. generalize (attrib root) as attrs.
  intros attrs. revert namespaces.
  induction attrs as [|[key value] attrs IH]; intros namespaces H; cbn; auto.
  apply IH.
  destruct (PyStr.startswith key xmlns_colon && PyStr.contains value mule_schema);
    [|exact H].
  destruct (is_reserved (PyStr.last_part slash value)) eqn:E; cbn [negb];
    [exact H|].
  apply values_set; assumption.
Qed.

(** No prefix is mapped to a reserved name. *)
Lemma namespaces_of_unreserved (root : Element) :
  unreserved (namespaces_of root).
Proof.
  unfold namespaces_of. apply direct_declaration_namespaces_unreserved.
  destruct (nonempty _); [|constructor].
  apply schema_location_namespaces_unreserved. constructor.
Qed.

Lemma core_not_declared (root : Element) :
  "core"%string ∉ (list_to_set (Dict.values (namespaces_of root)) : gset string).
Proof.
  rewrite elem_of_list_to_set, list_elem_of_In. intros Hin.
  pose proof (namespaces_of_unreserved root) as H.
  unfold unreserved in H. rewrite List.Forall_forall in H.
  specialize (H _ Hin). discriminate.
Qed.

(** C4.  In every project of every run, ["core"] is not a member of
    [unique_connectors], whatever the configuration files contain. *)
Theorem C4_core_never_a_unique_connector
    (re_findall : string -> string -> list string) (alg : sum_algorithm)
    (base_path : list string) (root : fs_node)
    (targets : option (list string)) (results : analysis_results)
    (out : list string) :
  analyze_repository_folder re_findall alg base_path root targets
  = Some (results, out) ->
  forall p,
    In p (projects results) ->
    "core"%string ∉ unique_connectors (connectors_and_components p).
Proof.
  intros Hrun p Hp.
  destruct (run_reports _ _ _ _ _ _ _ Hrun p Hp)
    as (path & item & _ & _ & _ & pf & a & o & name & source & _ & Ha & ->).
  change ("core"%string ∉ unique_connectors (connectors_and_components a)).
  apply (analyze_project_tables re_findall (fun u _ _ => "core"%string ∉ u))
    with (path := base_path ++ path) (pf := pf) (out := o); [| |exact Ha].
  - intros r u c t Hu. rewrite elem_of_union. intros [H|H]; [exact (Hu H)|].
    exact (core_not_declared r H).
  - apply not_elem_of_empty.
Qed.

Lemma C4_core_never_a_unique_connector_witness :
  "core"%string
  ∉ unique_connectors (connectors_and_components (first_project shop_tree)).
Proof.
  apply (C4_core_never_a_unique_connector no_match LeftToRight
           ["repos"%string] shop_tree None (results_of shop_tree)
           (output_of shop_tree)).
  - exact shop_run.
  - vm_compute. left. reflexivity.
Defined.

(** One round of the attribution loop leaves both tables as they are or adds
    one to one entry of each. *)
Lemma attribute_step (namespaces : dict string) (u t : dict Z) (e : Element) :
  attribute namespaces (u, t) e = (u, t)
  \/ exists connector component_type,
       attribute namespaces (u, t) e
       = (Dict.add connector 1 u, Dict.add component_type 1 t).
Proof.
  unfold attribute. destruct (attribution namespaces e) as [c local].
  destruct (truthy c) as [connector|]; [right|left; reflexivity].
  eexists. eexists. reflexivity.
Qed.

Lemma attribute_balance (namespaces : dict string) (l : list Element)
    (u t : dict Z) :
  Dict.total u = Dict.total t ->
  Dict.total (fst (fold_left (attribute namespaces) l (u, t)))
  = Dict.total (snd (fold_left (attribute namespaces) l (u, t))).
Proof.
  intros H.
  apply (fold_left_pair_inv (attribute namespaces)
           (fun u t => Dict.total u = Dict.total t)); [|exact H].
  intros b c x Hbc.
  destruct (attribute_step namespaces b c x) as [->|(k & ty & ->)]; cbn [fst snd].
  - exact Hbc.
  - rewrite !total_add. lia.
Qed.

(** C10.  After any number of files have been attributed to a project, and in
    every project that [analyze_project] returns, the values of
    [connector_usage_count] and the values of [component_types] have the
    same sum: a round of the attribution loop adds one to one entry of each
    table or changes neither. *)
Theorem C10_usage_and_types_have_equal_sums
    (re_findall : string -> string -> list string) :
  (forall namespaces u t e,
      attribute namespaces (u, t) e = (u, t)
      \/ exists connector component_type,
           attribute namespaces (u, t) e
           = (Dict.add connector 1 u, Dict.add component_type 1 t))
  /\ (forall (path : list string) (xml_files : list xml_file),
        let a :=
          fst (analyze_configuration_files_loop re_findall xml_files
                 (new_analysis path)) in
        Dict.total (connector_usage_count (connectors_and_components a))
        = Dict.total (component_types (connectors_and_components a)))
  /\ (forall path pf a out,
        analyze_project re_findall path pf = Some (a, out) ->
        Dict.total (connector_usage_count (connectors_and_components a))
        = Dict.total (component_types (connectors_and_components a))).
Proof.
  pose (Q := fun (_ : gset string) (c t : dict Z) =>
               Dict.total c = Dict.total t).
  assert (HQ : forall root u c t,
             Q u c t ->
             Q (u ∪ list_to_set (Dict.values (namespaces_of root)))
               (fst (fold_left (attribute (namespaces_of root)) (iter root) (c, t)))
               (snd (fold_left (attribute (namespaces_of root)) (iter root) (c, t)))).
  { intros root u c t H. apply attribute_balance. exact H. }
  split; [exact attribute_step|]. split.
  - intros path xml_files.
    apply (configuration_loop_tables re_findall Q HQ). reflexivity.
  - intros path pf a out Ha.
    apply (analyze_project_tables re_findall Q HQ path pf a out); [reflexivity|exact Ha].
Qed.

Lemma C10_usage_and_types_have_equal_sums_witness :
  let a :=
    fst (analyze_configuration_files_loop no_match [db_file db_uri db_text]
           (new_analysis ["repos"; "shop"]%string)) in
  Dict.total (connector_usage_count (connectors_and_components a)) = 2
  /\ Dict.total (component_types (connectors_and_components a)) = 2
  /\ Dict.total (connector_usage_count (connectors_and_components shop_analysis))
     = Dict.total (component_types (connectors_and_components shop_analysis)).
Proof.
  split; [vm_compute; reflexivity|]. split; [vm_compute; reflexivity|].
  apply (proj2 (proj2 (C10_usage_and_types_have_equal_sums no_match))
           ["repos"; "shop"]%string db_project_files shop_analysis
           shop_analysis_output).
  vm_compute. reflexivity.
Defined.

(** ** C9: the namespace resolver *)

Lemma split_nonempty (sep : ascii) (s : string) : PyStr.split sep s <> [].
Proof.
  induction s as [|c s IH]; cbn [PyStr.split]; [discriminate|].
  destruct (Ascii.eqb c sep); [discriminate|].
  destruct (PyStr.split sep s); discriminate.
Qed.

Lemma split_cons (sep c : ascii) (s : string) :
  Ascii.eqb c sep = false ->
  exists seg segs,
    PyStr.split sep s = seg :: segs
    /\ PyStr.split sep (String c s) = String c seg :: segs.
Proof.
  intros Hc. cbn [PyStr.split]. rewrite Hc.
  destruct (PyStr.split sep s) as [|seg segs] eqn:E.
  - destruct (split_nonempty sep s E).
  - exists seg, segs. split; reflexivity.
Qed.

Lemma startswith_app (s p : string) :
  PyStr.startswith s p = true <-> exists rest, s = p +:+ rest.
Proof.
  revert s. induction p as [|a p IH]; intros s; cbn [PyStr.startswith append].
  - split; [intros _; exists s; reflexivity | reflexivity].
  - destruct s as [|b s]; [split; [discriminate | intros [rest H]; discriminate]|].
    rewrite andb_true_iff, IH, Ascii.eqb_eq. split.
    + intros [-> [rest ->]]. exists rest. reflexivity.
    + intros [rest [= -> ->]]. split; [reflexivity | exists rest; reflexivity].
Qed.

(** Behind [key.startswith('xmlns:')], the index 1 of [key.split(':')]
    exists: the program cannot raise [IndexError] there. *)
Lemma index1_after_prefix (key : string) :
  PyStr.startswith key xmlns_colon = true ->
  exists p, nth_error (PyStr.split colon key) 1 = Some p
            /\ PyStr.index1 colon key = p.
Proof.
  intros H. apply startswith_app in H. destruct H as [rest ->].
  unfold PyStr.index1, xmlns_colon.
  change (PyStr.split colon ("xmlns:" +:+ rest))
    with ("xmlns"%string :: PyStr.split colon rest).
  destruct (PyStr.split colon rest) as [|seg segs] eqn:E.
  - destruct (split_nonempty colon rest E).
  - exists seg. split; reflexivity.
Qed.








(** ** C8: the scenario of one [db:select] in a bare [flow] *)




Section DbScenario.
Variable uri : string.
Hypothesis uri_convention : PyStr.contains uri mule_schema = true.
Hypothesis uri_db : PyStr.last_part slash uri = "db"%string.







Variable re_findall : string -> string -> list string.
Variable content : string.
Variable path : list string.

End DbScenario.




(** ** C1: the complexity score *)

Lemma weight_table (connector : string) :
  Dict.get_or connector 2 connector_complexity_scores = spec_weight connector.
Proof.
  unfold Dict.get_or, connector_complexity_scores, spec_weight.
  cbn [Dict.get].
  repeat match goal with
    | |- context [String.eqb connector ?s] =>
        destruct (String.eqb connector s); [reflexivity|]
    end.
  reflexivity.
Qed.

Lemma connector_loop (items : dict Z) (s : Z) :
  fold_left add_connector items (Some (PyInt s))
  = Some (PyInt (s + spec_connector_sum items)).
Proof.
  revert s. induction items as [|[c n] items IH]; intros s; cbn [fold_left].
  - cbn. f_equal. f_equal. lia.
  - unfold add_connector at 2. cbn [fst snd mbind option_bind].
    unfold plus_times. cbn [PyNum.mul PyNum.add mbind option_bind].
    rewrite IH, weight_table. cbn [spec_connector_sum fold_right fst snd].
    f_equal. f_equal. unfold spec_connector_sum. lia.
Qed.

Lemma spec_connector_sum_perm (u v : dict Z) :
  Permutation u v -> spec_connector_sum u = spec_connector_sum v.
Proof.
  unfold spec_connector_sum.
  induction 1 as [|x l l' _ IH|x y l|l l' l'' _ IH1 _ IH2]; cbn; lia.
Qed.

Lemma plus_times_int (s x y : Z) :
  plus_times (PyInt s) (PyInt x) (PyInt y) = Some (PyInt (s + x * y)).
Proof. reflexivity. Qed.

Lemma plus_times_float_int (f : float) (x y : Z) :
  plus_times (PyFloat f) (PyInt x) (PyInt y)
  = g ← PyFloat.of_int (x * y); Some (PyFloat (PyFloat.add f g)).
Proof. reflexivity. Qed.

Lemma plus_times_int_float (s x : Z) (l : float) :
  plus_times (PyInt s) (PyInt x) (PyFloat l)
  = c ← PyFloat.of_int x; i ← PyFloat.of_int s;
    Some (PyFloat (PyFloat.add i (PyFloat.mul c l))).
Proof.
  unfold plus_times. cbn [PyNum.mul PyNum.to_float].
  destruct (PyFloat.of_int x); reflexivity.
Qed.

Lemma plus_times_float_float (f : float) (x : Z) (l : float) :
  plus_times (PyFloat f) (PyInt x) (PyFloat l)
  = c ← PyFloat.of_int x; Some (PyFloat (PyFloat.add f (PyFloat.mul c l))).
Proof.
  unfold plus_times. cbn [PyNum.mul PyNum.to_float].
  destruct (PyFloat.of_int x); reflexivity.
Qed.

(** The score of the program is the score of the specification. *)
Lemma project_complexity_spec (a : project_analysis) :
  project_complexity a = PyFloat <$> spec_score a.
Proof.
  unfold project_complexity, spec_score, spec_integer_terms.
  rewrite connector_loop. cbn [mbind option_bind].
  repeat (rewrite plus_times_int; cbn [mbind option_bind]).
  rewrite plus_times_int_float.
  replace (0 + spec_connector_sum
                 (connector_usage_count (connectors_and_components a))
           + total_flows (flows_and_subflows a) * 2
           + total_subflows (flows_and_subflows a) * 1)
    with (spec_connector_sum
            (connector_usage_count (connectors_and_components a))
          + total_flows (flows_and_subflows a) * 2
          + total_subflows (flows_and_subflows a) * 1) by lia.
  destruct (PyFloat.of_int (_ + _ * 2 + _ * 1)) as [i|];
    destruct (PyFloat.of_int (total_components _)) as [c|];
    cbn [mbind option_bind fmap option_fmap option_map]; try reflexivity.
  rewrite plus_times_float_int.
  destruct (PyFloat.of_int (java_files_count _ * 5)) as [j|];
    cbn [mbind option_bind fmap option_fmap option_map]; [|reflexivity].
  rewrite plus_times_float_float.
  destruct (PyFloat.of_int (total_custom_code_lines _)) as [l|];
    cbn [mbind option_bind fmap option_fmap option_map]; [|reflexivity].
  rewrite plus_times_float_int.
  destruct (PyFloat.of_int (dwl_files_count _ * 3)) as [d|];
    cbn [mbind option_bind fmap option_fmap option_map]; [|reflexivity].
  rewrite plus_times_float_int.
  destruct (PyFloat.of_int (complex_transformations _ * 5)) as [x|];
    cbn [mbind option_bind fmap option_fmap option_map]; [|reflexivity].
  rewrite plus_times_float_int.
  destruct (PyFloat.of_int (len _ * 10)) as [g|];
    cbn [mbind option_bind fmap option_fmap option_map]; reflexivity.
Qed.

(** A score comes out whenever the integers that are converted fit. *)
Lemma spec_score_produced (a : project_analysis) :
  Forall (fun z => PyFloat.of_int z <> None) (score_operands a) ->
  exists s, spec_score a = Some s.
Proof.
  unfold score_operands, spec_score. intros H.
  repeat match goal with
    | H : Forall _ (_ :: _) |- _ =>
        let Hz := fresh "Hz" in
        let H' := fresh "H" in
        inversion H as [|? ? Hz H']; subst; clear H
    end.
  repeat match goal with
    | Hz : PyFloat.of_int ?z <> None |- _ =>
        destruct (PyFloat.of_int z); [clear Hz | contradiction]
    end.
  cbn [mbind option_bind]. eauto.
Qed.

Lemma spec_score_same_counts (a b : project_analysis) :
  same_counts a b -> spec_score a = spec_score b.
Proof.
  intros (Hu & Hf & Hs & Hc & Hj & Hl & Hd & Hx & Hg).
  unfold spec_score, spec_integer_terms.
  rewrite (spec_connector_sum_perm _ _ Hu), Hf, Hs, Hc, Hj, Hl, Hd, Hx, Hg.
  reflexivity.
Qed.

Section LargeFiles.
Variable re_findall : string -> string -> list string.

Lemma extract_files (f : xml_file) (a : project_analysis) :
  configuration_files (fst (_extract_connectors_from_xml f a))
  = configuration_files a
  /\ complexity_indicators (fst (_extract_connectors_from_xml f a))
     = complexity_indicators a.
Proof.
  unfold _extract_connectors_from_xml.
  destruct (xml_parse f); [|split; reflexivity].
  destruct (fold_left _ (iter _) _). split; reflexivity.
Qed.

Lemma dataweave_files (f : xml_file) (a : project_analysis) :
  configuration_files (fst (_analyze_dataweave_in_xml re_findall f a))
  = configuration_files a
  /\ complexity_indicators (fst (_analyze_dataweave_in_xml re_findall f a))
     = complexity_indicators a.
Proof.
  unfold _analyze_dataweave_in_xml.
  destruct (xml_read f); [|split; reflexivity].
  destruct (fold_left _ dw_patterns _) as [[x y] z]. split; reflexivity.
Qed.

Lemma configuration_file_large (st : project_analysis * list string)
    (f : xml_file) :
  let a := fst st in
  let a' := fst (analyze_configuration_file re_findall st f) in
  exists e,
    files (configuration_files a') = files (configuration_files a) ++ [e]
    /\ large_files (complexity_indicators a')
       = large_files (complexity_indicators a) ++ large_among [e].
Proof.
  destruct st as [a out]. unfold analyze_configuration_file. cbn [fst].
  destruct (_analyze_xml_file f) as [fa out1].
  destruct (extract_files f (record_file_analysis f fa a)) as [H1 H1'].
  destruct (_extract_connectors_from_xml f _) as [a1 out2].
  destruct (dataweave_files f a1) as [H2 H2'].
  destruct (_analyze_dataweave_in_xml re_findall f a1) as [a2 out3].
  cbn [fst] in *. rewrite H2, H2', H1, H1'.
  unfold record_file_analysis, large_among. cbn [flat_map size_lines filename].
  eexists. destruct (1000 <? line_count fa) eqn:E; cbn; rewrite ?E;
    split; try reflexivity; cbn; rewrite ?E, ?app_nil_r; reflexivity.
Qed.

Lemma large_among_app (xs ys : list config_entry) :
  large_among (xs ++ ys) = large_among xs ++ large_among ys.
Proof. unfold large_among. apply flat_map_app. Qed.

Lemma configuration_loop_large (fs : list xml_file)
    (st : project_analysis * list string) :
  let a := fst st in
  let a' := fst (fold_left (analyze_configuration_file re_findall) fs st) in
  exists es,
    files (configuration_files a') = files (configuration_files a) ++ es
    /\ large_files (complexity_indicators a')
       = large_files (complexity_indicators a) ++ large_among es.
Proof.
  revert st. induction fs as [|f fs IH]; intros st; cbn [fold_left].
  - exists []. cbn. rewrite !app_nil_r. split; reflexivity.
  - destruct (configuration_file_large st f) as (e & He & Hl).
    destruct (IH (analyze_configuration_file re_findall st f))
      as (es & Hes & Hls).
    exists (e :: es). cbv zeta in *. rewrite Hes, Hls, He, Hl.
    rewrite <- !app_assoc. split; [reflexivity|].
    change (e :: es) with ([e] ++ es). rewrite large_among_app. reflexivity.
Qed.

(** The large files of a project are its files of more than 1000 lines. *)
Lemma large_files_of_project (path : list string) (fs : list xml_file) :
  let a :=
    fst (analyze_configuration_files_loop re_findall fs (new_analysis path)) in
  large_files (complexity_indicators a)
  = large_among (files (configuration_files a)).
Proof.
  unfold analyze_configuration_files_loop.
  destruct (configuration_loop_large fs (new_analysis path, []))
    as (es & Hes & Hls).
  cbv zeta in *. rewrite Hes, Hls. reflexivity.
Qed.
End LargeFiles.

(** The scorer in terms of the specification: the table, the formula, the
    cases where a score comes out. *)
Lemma scorer_facts :
  (forall connector,
      Dict.get_or connector 2 connector_complexity_scores
      = spec_weight connector)
  /\ (forall a,
        _calculate_project_complexity a
        = (fun s => set_complexity_score (PyFloat s) a) <$> spec_score a)
  /\ (forall a,
        Forall (fun z => PyFloat.of_int z <> None) (score_operands a) ->
        exists s,
          spec_score a = Some s
          /\ _calculate_project_complexity a
             = Some (set_complexity_score (PyFloat s) a)).
Proof.
  assert (Hcalc : forall a,
             _calculate_project_complexity a
             = (fun s => set_complexity_score (PyFloat s) a) <$> spec_score a).
  { intros a. unfold _calculate_project_complexity.
    rewrite project_complexity_spec. destruct (spec_score a); reflexivity. }
  split; [exact weight_table|]. split; [exact Hcalc|].
  intros a H. destruct (spec_score_produced a H) as [s Hs].
  exists s. split; [exact Hs|]. rewrite Hcalc, Hs. reflexivity.
Qed.

(** C1.  The score of a project is the sum, taken in binary64 in the order
    of the formula, of: for every connector of [connector_usage_count] its
    weight of the static table (2 when it is not in the table) times its
    usage count; the flows times 2; the sub-flows times 1; the components
    times 0.1; the Java files times 5; the lines of custom code times 0.01;
    the DataWeave files times 3; the complex transformations times 5; and the
    large files (those of more than 1000 lines) times 10; rounded to two
    decimal places.  It is produced whenever the integers fit a binary64
    float, and it is a function of these counts alone: two analyses with the
    same counts have the same score. *)
Theorem C1_complexity_score_formula
    (re_findall : string -> string -> list string) :
  (forall connector,
      Dict.get_or connector 2 connector_complexity_scores
      = spec_weight connector)
  /\ (forall a,
        _calculate_project_complexity a
        = (fun s => set_complexity_score (PyFloat s) a) <$> spec_score a)
  /\ (forall a,
        Forall (fun z => PyFloat.of_int z <> None) (score_operands a) ->
        exists s,
          spec_score a = Some s
          /\ _calculate_project_complexity a
             = Some (set_complexity_score (PyFloat s) a))
  /\ (forall a b,
        same_counts a b -> project_complexity a = project_complexity b)
  /\ (forall path xml_files,
        let a :=
          fst (analyze_configuration_files_loop re_findall xml_files
                 (new_analysis path)) in
        large_files (complexity_indicators a)
        = large_among (files (configuration_files a))).
Proof.
  destruct scorer_facts as (Htable & Hcalc & Hfit).
  split; [exact Htable|]. split; [exact Hcalc|]. split; [exact Hfit|]. split.
  - intros a b H. rewrite !project_complexity_spec.
    rewrite (spec_score_same_counts a b H). reflexivity.
  - exact (large_files_of_project re_findall).
Qed.

Lemma C1_complexity_score_formula_witness :
  (exists s,
      spec_score sample_analysis = Some s
      /\ _calculate_project_complexity sample_analysis
         = Some (set_complexity_score (PyFloat s) sample_analysis))
  /\ project_complexity sample_analysis
     = project_complexity sample_analysis_permuted.
Proof.
  split.
  - apply (proj1 (proj2 (proj2 (C1_complexity_score_formula no_match)))
             sample_analysis).
    repeat constructor; vm_compute; discriminate.
  - apply (proj1 (proj2 (proj2 (proj2 (C1_complexity_score_formula no_match))))
             sample_analysis sample_analysis_permuted).
    unfold same_counts. repeat split; try reflexivity.
    cbn. apply Permutation_sym.
    apply (Permutation_cons_app [("sap", 2); ("http", 3)]%string []).
    reflexivity.
Defined.

(** The score of [sample_analysis] is the float nearest to 77.04. *)
Example sample_score :
  project_complexity sample_analysis
  = Some (PyFloat (PyFloat.div (PyFloat.nearest 7704) (PyFloat.nearest 100))).
Proof. vm_compute. reflexivity. Qed.

(** ** C5: a malformed configuration file *)

Section Malformed.
Variable re_findall : string -> string -> list string.

Let step := analyze_configuration_file re_findall.






(** A round of the loop only adds to the output. *)
Lemma step_output (f : xml_file) (st : project_analysis * list string) :
  snd (step st f)
  = snd st ++ snd (_analyze_xml_file f)
    ++ snd (_extract_connectors_from_xml f
              (record_file_analysis f (fst (_analyze_xml_file f)) (fst st)))
    ++ snd (_analyze_dataweave_in_xml re_findall f
              (fst (_extract_connectors_from_xml f
                      (record_file_analysis f (fst (_analyze_xml_file f))
                         (fst st))))).
Proof.
  destruct st as [a out]. unfold step, analyze_configuration_file.
  destruct (_analyze_xml_file f) as [fa out1]. cbn [fst snd].
  destruct (_extract_connectors_from_xml f (record_file_analysis f fa a))
    as [a2 o2].
  cbn [fst snd].
  destruct (_analyze_dataweave_in_xml re_findall f a2) as [a3 o3].
  reflexivity.
Qed.


Variable f : xml_file.
Variable content e : string.
Hypothesis readable : xml_read f = Returned content.
Hypothesis malformed : xml_parse f = Raised e.




End Malformed.

Lemma analyze_project_unfold (re_findall : string -> string -> list string)
    (path : list string) (pf : project_files) :
  analyze_project re_findall path pf
  = a ← _calculate_project_complexity
          (fst (analysis_before_scoring re_findall path pf));
    Some (a, snd (analysis_before_scoring re_findall path pf)).
Proof.
  unfold analyze_project, analysis_before_scoring.
  destruct (_analyze_mule_version _ pf (new_analysis path)) as [a1 o1].
  destruct (_analyze_configuration_files re_findall pf a1) as [a2 o2].
  destruct (_analyze_custom_code pf a2) as [a3 o3].
  destruct (_analyze_tests pf a3) as [a4 o4]. reflexivity.
Qed.





(** ** C6: aggregation *)

(** A loop whose rounds commute gives the same result on a permuted list. *)
Lemma fold_left_perm {A S : Type} (f : S -> A -> S) (l l' : list A) :
  (forall s x y, f (f s x) y = f (f s y) x) ->
  Permutation l l' -> forall s, fold_left f l s = fold_left f l' s.
Proof.
  intros comm. induction 1 as [|x l l' _ IH|x y l|l l' l'' _ IH1 _ IH2];
    intros s; cbn [fold_left].
  - reflexivity.
  - apply IH.
  - rewrite comm. reflexivity.
  - rewrite IH1. apply IH2.
Qed.

Lemma sum_int_perm (l l' : list Z) :
  Permutation l l' -> PySum.sum_int l = PySum.sum_int l'.
Proof.
  intros H. unfold PySum.sum_int. apply fold_left_perm; [|exact H].
  intros s x y. lia.
Qed.

Lemma count_version_perm (ps ps' : list project_analysis) :
  Permutation ps ps' ->
  fold_left count_version ps (0, 0, 0) = fold_left count_version ps' (0, 0, 0).
Proof.
  intros H. apply fold_left_perm; [|exact H].
  intros [[a b] c] x y. unfold count_version.
  destruct (PyStr.startswith (mule_version x) "4.");
    destruct (PyStr.startswith (mule_version x) "3.");
    destruct (PyStr.startswith (mule_version y) "4.");
    destruct (PyStr.startswith (mule_version y) "3."); reflexivity.
Qed.

Lemma weight_of_absent (k : string) (table : dict Z) :
  occurs_in k table = false -> weight_of k table = 0.
Proof.
  unfold occurs_in, weight_of.
  induction table as [|[k' n] table IH]; cbn; [reflexivity|].
  destruct (String.eqb k k'); cbn; [discriminate|]. intros H. rewrite IH; auto.
Qed.

(** What [count_all] leaves under a key. *)
Lemma get_count_all (k : string) (table counter : dict Z) :
  Dict.get k (count_all counter table)
  = if occurs_in k table
    then Some (Dict.get_or k 0 counter + weight_of k table)
    else Dict.get k counter.
Proof.
  unfold count_all, occurs_in, weight_of. revert counter.
  induction table as [|[k' n] table IH]; intros counter; cbn [fold_left];
    [reflexivity|].
  rewrite IH. cbn [existsb fold_right fst snd].
  destruct (String.eqb k k') eqn:E; cbn [orb].
  - apply String.eqb_eq in E. subst k'. rewrite get_or_add_eq.
    destruct (existsb _ table) eqn:Ht.
    + f_equal. lia.
    + fold (occurs_in k table) in Ht. apply weight_of_absent in Ht.
      unfold weight_of in Ht. rewrite Ht.
      unfold Dict.add. rewrite get_set_eq. f_equal. lia.
  - apply String.eqb_neq in E.
    rewrite get_or_add_ne by congruence.
    unfold Dict.add. rewrite get_set_ne by congruence. reflexivity.
Qed.

Lemma get_or_count_all (k : string) (table counter : dict Z) :
  Dict.get_or k 0 (count_all counter table)
  = Dict.get_or k 0 counter + weight_of k table.
Proof.
  unfold Dict.get_or at 1. rewrite get_count_all.
  destruct (occurs_in k table) eqn:E; [reflexivity|].
  rewrite (weight_of_absent k table E). unfold Dict.get_or. lia.
Qed.

Section Tables.
Variable table : project_analysis -> dict Z.

Let merge (counter : dict Z) (p : project_analysis) : dict Z :=
  count_all counter (table p).

Lemma weights_absent (k : string) (ps : list project_analysis) :
  existsb (fun p => occurs_in k (table p)) ps = false ->
  fold_right (fun p acc => weight_of k (table p) + acc) 0 ps = 0.
Proof.
  induction ps as [|p ps IH]; cbn [existsb fold_right]; [reflexivity|].
  intros H. apply orb_false_iff in H. destruct H as [Hp Hps].
  rewrite (weight_of_absent k _ Hp), (IH Hps). reflexivity.
Qed.

(** What the loop over the projects leaves under a key. *)
Lemma get_merged (k : string) (ps : list project_analysis)
    (counter : dict Z) :
  Dict.get k (fold_left merge ps counter)
  = if existsb (fun p => occurs_in k (table p)) ps
    then Some (Dict.get_or k 0 counter
               + fold_right (fun p acc => weight_of k (table p) + acc) 0 ps)
    else Dict.get k counter.
Proof.
  revert counter. induction ps as [|p ps IH]; intros counter;
    cbn [fold_left existsb fold_right]; [reflexivity|].
  rewrite IH. unfold merge. rewrite get_or_count_all, get_count_all.
  destruct (occurs_in k (table p)) eqn:E; cbn [orb].
  - destruct (existsb _ ps) eqn:Eps; f_equal; [lia|].
    rewrite (weights_absent k ps Eps). lia.
  - rewrite (weight_of_absent k _ E).
    destruct (existsb _ ps); [f_equal; lia | reflexivity].
Qed.

Lemma merged_perm (ps ps' : list project_analysis) (counter : dict Z) :
  Permutation ps ps' ->
  same_dict (fold_left merge ps counter) (fold_left merge ps' counter).
Proof.
  intros H k. rewrite !get_merged.
  assert (He : existsb (fun p => occurs_in k (table p)) ps
               = existsb (fun p => occurs_in k (table p)) ps').
  { clear counter.
    induction H as [|x l l' _ IH|x y l|l l' l'' _ IH1 _ IH2]; cbn [existsb].
    - reflexivity.
    - rewrite IH. reflexivity.
    - destruct (occurs_in k (table x)), (occurs_in k (table y)); reflexivity.
    - congruence. }
  assert (Hw : fold_right (fun p acc => weight_of k (table p) + acc) 0 ps
               = fold_right (fun p acc => weight_of k (table p) + acc) 0 ps').
  { clear counter He.
    induction H as [|x l l' _ IH|x y l|l l' l'' _ IH1 _ IH2];
      cbn [fold_right]; lia. }
  rewrite He, Hw. reflexivity.
Qed.
End Tables.

Lemma count_project_split (ps : list project_analysis) (c t : dict Z) :
  fold_left count_project ps (c, t)
  = (fold_left
       (fun c p =>
          count_all c (connector_usage_count (connectors_and_components p)))
       ps c,
     fold_left
       (fun t p => count_all t (component_types (connectors_and_components p)))
       ps t).
Proof.
  revert c t. induction ps as [|p ps IH]; intros c t; cbn [fold_left];
    [reflexivity|].
  unfold count_project at 2. apply IH.
Qed.

Lemma floats_plain_returns (items : list number) (f : float) :
  Forall (fun n => exists s, n = PyFloat s) items ->
  exists r, PySum.floats_plain f items = Some r.
Proof.
  intros H. revert f. induction H as [|n items [s ->] _ IH]; intros f; cbn.
  - eauto.
  - apply IH.
Qed.

Lemma floats_compensated_returns (items : list number) (f c : float) :
  Forall (fun n => exists s, n = PyFloat s) items ->
  exists r, PySum.floats_compensated f c items = Some r.
Proof.
  intros H. revert f c. induction H as [|n items [s ->] _ IH]; intros f c;
    cbn [PySum.floats_compensated].
  - eauto.
  - apply IH.
Qed.

(** The sum of float scores never raises. *)
Lemma sum_returns (alg : sum_algorithm) (items : list number) :
  Forall (fun n => exists s, n = PyFloat s) items ->
  exists r, PySum.sum alg items = Some r.
Proof.
  intros H. unfold PySum.sum. destruct H as [|n items [s ->] H]; cbn [PySum.from].
  - eauto.
  - change (PyFloat.of_int 0) with (Some (S754_zero false)).
    cbn [mbind option_bind].
    destruct alg.
    + destruct (floats_plain_returns items
                  (PyFloat.add (S754_zero false) s) H) as [r ->].
      cbn. eauto.
    + destruct (floats_compensated_returns items
                  (PyFloat.add (S754_zero false) s) (S754_zero false) H)
        as [r ->].
      cbn. eauto.
Qed.

(** [_calculate_summary_stats] with the results of its loops named. *)
Lemma summary_stats_fields (alg : sum_algorithm) (r : analysis_results) :
  _calculate_summary_stats alg r
  = (total ←
       PySum.sum alg
         (map (fun p => complexity_score (connectors_and_components p))
            (projects r));
     let versions := fold_left count_version (projects r) (0, 0, 0) in
     let tables := fold_left count_project (projects r) ([], []) in
     Some
       {| summary :=
            {| Summary.total_projects := Summary.total_projects (summary r);
               Summary.mule_4_projects := fst (fst versions);
               Summary.mule_3_projects := snd (fst versions);
               Summary.unknown_version_projects := snd versions;
               Summary.total_flows :=
                 PySum.sum_int
                   (map (fun p => total_flows (flows_and_subflows p))
                      (projects r));
               Summary.total_subflows :=
                 PySum.sum_int
                   (map (fun p => total_subflows (flows_and_subflows p))
                      (projects r));
               Summary.total_components :=
                 PySum.sum_int
                   (map (fun p =>
                           total_components (connectors_and_components p))
                      (projects r));
               Summary.total_java_files :=
                 PySum.sum_int
                   (map (fun p => java_files_count (custom_code p))
                      (projects r));
               Summary.total_dwl_files :=
                 PySum.sum_int
                   (map (fun p => dwl_files_count (dataweave_analysis p))
                      (projects r));
               Summary.total_munit_tests :=
                 PySum.sum_int
                   (map (fun p => munit_test_files (testing p)) (projects r));
               Summary.total_complexity_score := total;
               Summary.connector_usage_summary := fst tables;
               Summary.component_types_summary := snd tables |};
          projects := projects r |}).
Proof.
  unfold _calculate_summary_stats.
  destruct (fold_left count_version _ _) as [[m4 m3] u].
  destruct (PySum.sum alg _) as [s|]; cbn [mbind option_bind]; [|reflexivity].
  destruct (fold_left count_project _ _) as [c t]. reflexivity.
Qed.

(** C6, as amended.  For every list of completed project results and every
    permutation of it, the aggregator returns on both, with the same counts
    per version bucket, the same totals of flows, sub-flows, components, Java
    files, DataWeave files and test files, and the same connector-usage and
    component-type tables (every key has the same count in both).  The total
    complexity score, a sum of floats taken in the order of the list, is left
    out. *)
Theorem C6_aggregation_order_independent (alg : sum_algorithm)
    (r r' : analysis_results) :
  Permutation (projects r) (projects r') ->
  Forall scored (projects r) ->
  exists s s',
    _calculate_summary_stats alg r = Some s
    /\ _calculate_summary_stats alg r' = Some s'
    /\ same_summary_counts (summary s) (summary s').
Proof.
  intros Hperm Hscored.
  assert (Hscored' : Forall scored (projects r')).
  { rewrite List.Forall_forall in *. intros p Hp. apply Hscored.
    apply (Permutation_in p (Permutation_sym Hperm) Hp). }
  assert (Hfloats : forall ps, Forall scored ps ->
            Forall (fun n => exists s, n = PyFloat s)
              (map (fun p => complexity_score (connectors_and_components p)) ps)).
  { intros ps H. induction H as [|p ps Hp _ IH]; cbn; constructor; auto. }
  destruct (sum_returns alg _ (Hfloats _ Hscored)) as [t Ht].
  destruct (sum_returns alg _ (Hfloats _ Hscored')) as [t' Ht'].
  rewrite !summary_stats_fields, Ht, Ht'. cbn [mbind option_bind].
  do 2 eexists. split; [reflexivity|]. split; [reflexivity|].
  unfold same_summary_counts. cbn [summary Summary.mule_4_projects
    Summary.mule_3_projects Summary.unknown_version_projects
    Summary.total_flows Summary.total_subflows Summary.total_components
    Summary.total_java_files Summary.total_dwl_files
    Summary.total_munit_tests Summary.connector_usage_summary
    Summary.component_types_summary].
  rewrite (count_version_perm _ _ Hperm).
  repeat split; try reflexivity;
    try (apply sum_int_perm; apply Permutation_map; exact Hperm).
  - rewrite !count_project_split. cbn [fst].
    apply (merged_perm
             (fun p => connector_usage_count (connectors_and_components p))).
    exact Hperm.
  - rewrite !count_project_split. cbn [snd].
    apply (merged_perm
             (fun p => component_types (connectors_and_components p))).
    exact Hperm.
Qed.

Lemma C6_aggregation_order_independent_witness :
  exists s s',
    _calculate_summary_stats LeftToRight (results_for small_projects) = Some s
    /\ _calculate_summary_stats LeftToRight
         (results_for (rev small_projects)) = Some s'
    /\ same_summary_counts (summary s) (summary s').
Proof.
  apply (C6_aggregation_order_independent LeftToRight
           (results_for small_projects) (results_for (rev small_projects))).
  - apply Permutation_rev.
  - repeat constructor; eexists; vm_compute; reflexivity.
Defined.

(** C6 as stated fails for the total complexity score: the scores 1, 1, 2^53
    and 2^106 add up to 2^106 + 2^54 in this order and to 2^106 in the
    reverse order, with either way of summing floats; added one after the
    other, the scores 0.1, 0.2 and 0.3 add up to 0.6000000000000001 and in
    the reverse order to 0.6. *)
Lemma C6_total_score_counterexample :
  Permutation wide_projects (rev wide_projects)
  /\ Forall scored wide_projects
  /\ (forall alg,
        total_score alg wide_projects
        = Some (PyFloat (PyFloat.nearest (2 ^ 106 + 2 ^ 54)))
        /\ total_score alg (rev wide_projects)
           = Some (PyFloat (PyFloat.nearest (2 ^ 106)))
        /\ total_score alg wide_projects
           <> total_score alg (rev wide_projects))
  /\ Permutation small_projects (rev small_projects)
  /\ Forall scored small_projects
  /\ total_score LeftToRight small_projects
     <> total_score LeftToRight (rev small_projects).
Proof.
  split; [apply Permutation_rev|].
  split; [repeat constructor; eexists; vm_compute; reflexivity|].
  split.
  - intros alg. destruct alg.
    + split; [vm_compute; reflexivity|]. split; [vm_compute; reflexivity|].
      vm_compute. discriminate.
    + split; [vm_compute; reflexivity|]. split; [vm_compute; reflexivity|].
      vm_compute. discriminate.
  - split; [apply Permutation_rev|].
    split; [repeat constructor; eexists; vm_compute; reflexivity|].
    vm_compute. discriminate.
Qed.
(** * Further properties *)

(** ** Discovery: what is reported, and under which name *)

Section Identity.
Variable re_findall : string -> string -> list string.

Lemma extract_identity (f : xml_file) (a : project_analysis) :
  identity (fst (_extract_connectors_from_xml f a)) = identity a.
Proof.
  unfold _extract_connectors_from_xml.
  destruct (xml_parse f); [|reflexivity].
  destruct (fold_left _ (iter _) _). reflexivity.
Qed.

Lemma dataweave_identity (f : xml_file) (a : project_analysis) :
  identity (fst (_analyze_dataweave_in_xml re_findall f a)) = identity a.
Proof.
  unfold _analyze_dataweave_in_xml. destruct (xml_read f); [|reflexivity].
  destruct (fold_left _ dw_patterns _) as [[x y] z]. reflexivity.
Qed.

Lemma record_file_identity (f : xml_file) (fa : file_analysis)
    (a : project_analysis) :
  identity (record_file_analysis f fa a) = identity a.
Proof.
  unfold record_file_analysis. destruct (1000 <? line_count fa); reflexivity.
Qed.

Lemma configuration_file_identity (st : project_analysis * list string)
    (f : xml_file) :
  identity (fst (analyze_configuration_file re_findall st f))
  = identity (fst st).
Proof.
  destruct st as [a out]. unfold analyze_configuration_file.
  destruct (_analyze_xml_file f) as [fa out1].
  pose proof (extract_identity f (record_file_analysis f fa a)) as H1.
  destruct (_extract_connectors_from_xml f _) as [a1 out2].
  pose proof (dataweave_identity f a1) as H2.
  destruct (_analyze_dataweave_in_xml re_findall f a1) as [a2 out3].
  cbn [fst] in *. rewrite H2, H1. apply record_file_identity.
Qed.

Lemma configuration_loop_identity (fs : list xml_file)
    (st : project_analysis * list string) :
  identity (fst (fold_left (analyze_configuration_file re_findall) fs st))
  = identity (fst st).
Proof.
  revert st. induction fs as [|f fs IH]; intros st; [reflexivity|].
  cbn [fold_left]. rewrite IH. apply configuration_file_identity.
Qed.

Lemma configuration_files_identity (pf : project_files)
    (a : project_analysis) :
  identity (fst (_analyze_configuration_files re_findall pf a)) = identity a.
Proof.
  unfold _analyze_configuration_files.
  destruct (pf_mule pf) as [fs|]; [|reflexivity].
  unfold analyze_configuration_files_loop.
  rewrite configuration_loop_identity. reflexivity.
Qed.

Lemma mule_version_identity (name : string) (pf : project_files)
    (a : project_analysis) :
  identity (fst (_analyze_mule_version name pf a)) = identity a.
Proof.
  unfold _analyze_mule_version.
  destruct (pf_pom pf) as [[pom|e]|]; try reflexivity.
  destruct (pom_mule_version pom); cbn [fst];
    match goal with
    | |- context [if ?b then _ else _] => destruct b
    end; try reflexivity; destruct (pom_plugin_version pom); reflexivity.
Qed.

Lemma custom_code_identity (pf : project_files) (a : project_analysis) :
  identity (fst (_analyze_custom_code pf a)) = identity a.
Proof.
  unfold _analyze_custom_code.
  destruct (pf_java pf) as [js|]; destruct (pf_dwl pf) as [ds|];
    repeat match goal with
      | |- context [fold_left ?f ?l ?s] =>
          destruct (fold_left f l s) as [[? ?] ?] || destruct (fold_left f l s)
      end; reflexivity.
Qed.

Lemma tests_identity (pf : project_files) (a : project_analysis) :
  identity (fst (_analyze_tests pf a)) = identity a.
Proof.
  unfold _analyze_tests.
  destruct (pf_munit pf) as [ms|]; destruct (pf_other_tests pf) as [os|];
    repeat match goal with
      | |- context [fold_left ?f ?l ?s] => destruct (fold_left f l s)
      end; reflexivity.
Qed.

(** [analyze_project] leaves the name and the path as [new_analysis] sets
    them, and the display fields unset. *)
Lemma analyze_project_identity (path : list string) (pf : project_files)
    (a : project_analysis) (out : list string) :
  analyze_project re_findall path pf = Some (a, out) ->
  identity a = (List.last path EmptyString, path, None, None).
Proof.
  unfold analyze_project.
  pose proof (mule_version_identity
                (project_name (new_analysis path)) pf (new_analysis path))
    as H1.
  destruct (_analyze_mule_version _ pf (new_analysis path)) as [a1 o1].
  pose proof (configuration_files_identity pf a1) as H2.
  destruct (_analyze_configuration_files re_findall pf a1) as [a2 o2].
  pose proof (custom_code_identity pf a2) as H3.
  destruct (_analyze_custom_code pf a2) as [a3 o3].
  pose proof (tests_identity pf a3) as H4.
  destruct (_analyze_tests pf a3) as [a4 o4].
  unfold _calculate_project_complexity.
  destruct (project_complexity a4) as [s|]; cbn [mbind option_bind];
    [|discriminate].
  intros [= <- _]. cbn [fst] in *.
  change (identity (set_complexity_score s a4)) with (identity a4).
  rewrite H4, H3, H2, H1. reflexivity.
Qed.
End Identity.

Lemma reaches_last (d : fs_node) (path : list string) (item : fs_node) :
  reaches d path item ->
  path <> [] /\ List.last path EmptyString = node_name item /\ visible path.
Proof.
  induction 1 as [d item Hin Hdir Hvis
                 |d mid path item Hin Hdir Hvis Hproj Hreach IH].
  - split; [discriminate|]. split; [reflexivity|].
    constructor; [exact Hvis|constructor].
  - destruct IH as (Hne & Hlast & Hv).
    split; [discriminate|]. split.
    + destruct path as [|x path]; [contradiction|]. exact Hlast.
    + constructor; assumption.
Qed.

Lemma last_app_nonempty {A : Type} (xs ys : list A) (d : A) :
  ys <> [] -> List.last (xs ++ ys) d = List.last ys d.
Proof.
  intros H. induction xs as [|x xs IH]; [reflexivity|].
  cbn [app]. destruct (xs ++ ys) eqn:E.
  - apply app_eq_nil in E. destruct E as [_ ->]. contradiction.
  - exact IH.
Qed.

Lemma string_app_assoc (a b c : string) :
  (a +:+ b) +:+ c = a +:+ (b +:+ c).
Proof.
  induction a as [|x a IH]; [reflexivity|].
  change (String x ((a +:+ b) +:+ c) = String x (a +:+ (b +:+ c))).
  f_equal. exact IH.
Qed.

Lemma join_snoc (sep : string) (xs : list string) (x : string) :
  xs <> [] ->
  PyStr.join sep (xs ++ [x]) = PyStr.join sep xs +:+ sep +:+ x.
Proof.
  unfold PyStr.join. induction xs as [|y xs IH]; [contradiction|].
  intros _. destruct xs as [|z xs].
  - reflexivity.
  - change ((y :: z :: xs) ++ [x]) with (y :: (z :: xs) ++ [x]).
    change (String.concat sep (y :: (z :: xs) ++ [x]))
      with (y +:+ sep +:+ String.concat sep ((z :: xs) ++ [x])).
    rewrite IH by discriminate.
    change (String.concat sep (y :: z :: xs))
      with (y +:+ sep +:+ String.concat sep (z :: xs)).
    rewrite !string_app_assoc. reflexivity.
Qed.

(** A loop whose rounds are related by a preorder relates its ends, and every
    round of a loop that returns has returned. *)
Lemma for_each_related {A S : Type} (R : S -> S -> Prop)
    (body : A -> S -> option S) :
  (forall s, R s s) ->
  (forall a b c, R a b -> R b c -> R a c) ->
  (forall e s s', body e s = Some s' -> R s s') ->
  forall items st st', for_each body items st = Some st' -> R st st'.
Proof.
  intros Hrefl Htrans Hbody.
  induction items as [|e es IH]; intros st st' Hrun.
  - injection Hrun as <-. apply Hrefl.
  - cbn [for_each] in Hrun.
    destruct (body e st) as [s1|] eqn:Hstep; cbn in Hrun; [|discriminate].
    apply (Htrans _ s1); [exact (Hbody _ _ _ Hstep) | exact (IH _ _ Hrun)].
Qed.

Lemma for_each_round {A S : Type} (R : S -> S -> Prop)
    (body : A -> S -> option S) :
  (forall s, R s s) ->
  (forall a b c, R a b -> R b c -> R a c) ->
  (forall e s s', body e s = Some s' -> R s s') ->
  forall items st st', for_each body items st = Some st' ->
  forall e, In e items ->
  exists s s', body e s = Some s' /\ R s' st'.
Proof.
  intros Hrefl Htrans Hbody.
  induction items as [|e0 es IH]; intros st st' Hrun e He; [destruct He|].
  cbn [for_each] in Hrun.
  destruct (body e0 st) as [s1|] eqn:Hstep; cbn in Hrun; [|discriminate].
  destruct He as [<-|He].
  - exists st, s1. split; [exact Hstep|].
    exact (for_each_related R body Hrefl Htrans Hbody es s1 st' Hrun).
  - exact (IH _ _ Hrun e He).
Qed.

Lemma keeps_projects_refl (s : analysis_results * list string) :
  keeps_projects s s.
Proof.
  exists []. rewrite app_nil_r. split; [reflexivity|].
  change (len (@nil project_analysis)) with 0. lia.
Qed.

Lemma keeps_projects_trans (a b c : analysis_results * list string) :
  keeps_projects a b -> keeps_projects b c -> keeps_projects a c.
Proof.
  intros (n1 & Hp1 & Hn1) (n2 & Hp2 & Hn2). exists (n1 ++ n2).
  rewrite Hp2, Hp1, Hn2, Hn1, app_assoc, len_app. split; [reflexivity|lia].
Qed.

Section WalkerExact.
Variable re_findall : string -> string -> list string.
Variable target_projects : option (list string).
Variable base_path : list string.
Variable max_depth : Z.

Let walk :=
  _find_mulesoft_projects_recursive re_findall target_projects base_path
    max_depth.

Let body (relative : list string) (item : fs_node)
    (st : analysis_results * list string) :=
  if is_dir item && negb (PyStr.startswith (node_name item) ".") then
    if _is_mulesoft_project item then
      if filtered_out target_projects (node_name item) then Some st
      else report_project re_findall base_path item
             (relative ++ [node_name item]) st
    else walk item (relative ++ [node_name item]) st
  else Some st.

Lemma walk_dir (name : string) (pf : project_files) (entries : list fs_node)
    (relative : list string) (st : analysis_results * list string) :
  walk (Dir name pf entries) relative st
  = if max_depth <? len relative then Some st
    else for_each (body relative) entries st.
Proof. reflexivity. Qed.

Lemma report_project_exact (item : fs_node) (relative_path : list string)
    (st st' : analysis_results * list string) :
  is_dir item = true ->
  report_project re_findall base_path item relative_path st = Some st' ->
  exists p,
    fst st' = append_project p (fst st)
    /\ reported_as re_findall base_path relative_path item p.
Proof.
  destruct st as [results out]. unfold report_project.
  destruct item as [name|name pf entries]; [discriminate|]. intros _.
  cbn [node_contents].
  destruct (analyze_project re_findall (base_path ++ relative_path) pf)
    as [[a out']|] eqn:Ha; cbn [mbind option_bind]; [|discriminate].
  intros [= <-]. cbn [fst]. eexists. split; [reflexivity|].
  exists pf, a, out'. split; [reflexivity|]. split; [exact Ha|].
  destruct (1 <? len relative_path); reflexivity.
Qed.

(** The walker only appends, and counts what it appends. *)
Lemma walker_keeps (node : fs_node) :
  forall (relative : list string) (st st' : analysis_results * list string),
    walk node relative st = Some st' -> keeps_projects st st'.
Proof.
  induction node as [name|name pf entries IH] using fs_node_ind;
    intros relative st st' Hwalk.
  - unfold walk in Hwalk. cbn in Hwalk.
    destruct (max_depth <? len relative); injection Hwalk as <-;
      apply keeps_projects_refl.
  - rewrite walk_dir in Hwalk.
    destruct (max_depth <? len relative).
    { injection Hwalk as <-. apply keeps_projects_refl. }
    revert st Hwalk.
    induction IH as [|item items IHitem _ IHitems]; intros st Hwalk.
    + injection Hwalk as <-. apply keeps_projects_refl.
    + cbn [for_each] in Hwalk.
      destruct (body relative item st) as [st1|] eqn:Hstep; cbn in Hwalk;
        [|discriminate].
      apply (keeps_projects_trans _ st1); [|exact (IHitems _ Hwalk)].
      clear IHitems Hwalk. unfold body in Hstep.
      destruct (is_dir item) eqn:Hisdir; cbn [andb] in Hstep.
      2:{ injection Hstep as <-. apply keeps_projects_refl. }
      destruct (PyStr.startswith (node_name item) "."); cbn [negb] in Hstep.
      { injection Hstep as <-. apply keeps_projects_refl. }
      destruct (_is_mulesoft_project item).
      * destruct (filtered_out target_projects (node_name item)).
        { injection Hstep as <-. apply keeps_projects_refl. }
        apply (report_project_exact _ _ _ _ Hisdir) in Hstep.
        destruct Hstep as (q & Heq & _). exists [q]. rewrite Heq.
        split; reflexivity.
      * exact (IHitem _ _ _ Hstep).
Qed.

Lemma body_keeps (relative : list string) (item : fs_node)
    (s s' : analysis_results * list string) :
  body relative item s = Some s' -> keeps_projects s s'.
Proof.
  unfold body. intros Hstep.
  destruct (is_dir item) eqn:Hisdir; cbn [andb] in Hstep.
  2:{ injection Hstep as <-. apply keeps_projects_refl. }
  destruct (PyStr.startswith (node_name item) "."); cbn [negb] in Hstep.
  { injection Hstep as <-. apply keeps_projects_refl. }
  destruct (_is_mulesoft_project item).
  - destruct (filtered_out target_projects (node_name item)).
    { injection Hstep as <-. apply keeps_projects_refl. }
    apply (report_project_exact _ _ _ _ Hisdir) in Hstep.
    destruct Hstep as (q & Heq & _). exists [q]. rewrite Heq.
    split; reflexivity.
  - exact (walker_keeps _ _ _ _ Hstep).
Qed.

(** Every project that the walker appends while it visits [node] is the
    report of a visible project directory that passes the name filter. *)
Lemma walker_reports_exactly (node : fs_node) :
  forall (relative : list string) (st st' : analysis_results * list string),
    walk node relative st = Some st' ->
    forall p,
      In p (projects (fst st')) ->
      In p (projects (fst st))
      \/ exists path item,
           reaches node path item
           /\ _is_mulesoft_project item = true
           /\ filtered_out target_projects (node_name item) = false
           /\ reported_as re_findall base_path (relative ++ path) item p.
Proof.
  induction node as [name|name pf entries IH] using fs_node_ind;
    intros relative st st' Hwalk p Hp.
  - unfold walk in Hwalk. cbn in Hwalk.
    destruct (max_depth <? len relative); injection Hwalk as <-; auto.
  - rewrite walk_dir in Hwalk.
    destruct (max_depth <? len relative) eqn:Hdepth.
    { injection Hwalk as <-. auto. }
    assert (Hsub : forall e, In e entries ->
                     In e (node_entries (Dir name pf entries)))
      by (intros e He; exact He).
    revert Hsub. generalize (Dir name pf entries) as d. intros d Hsub.
    revert st Hwalk Hsub.
    induction IH as [|item items IHitem _ IHitems]; intros st Hwalk Hsub.
    + injection Hwalk as <-. auto.
    + cbn [for_each] in Hwalk.
      destruct (body relative item st) as [st1|] eqn:Hstep; cbn in Hwalk;
        [|discriminate].
      assert (Hrest : forall e, In e items -> In e (node_entries d))
        by (intros e He; apply Hsub; right; exact He).
      destruct (IHitems st1 Hwalk Hrest) as [Hold|Hnew]; [|right; exact Hnew].
      assert (Hitem : In item (node_entries d))
        by (apply Hsub; left; reflexivity).
      clear IHitems Hwalk Hrest Hsub Hp. unfold body in Hstep.
      destruct (is_dir item) eqn:Hisdir; cbn [andb] in Hstep.
      2:{ injection Hstep as <-. auto. }
      destruct (PyStr.startswith (node_name item) ".") eqn:Hhidden;
        cbn [negb] in Hstep.
      { injection Hstep as <-. auto. }
      destruct (_is_mulesoft_project item) eqn:Hproj.
      * destruct (filtered_out target_projects (node_name item)) eqn:Hfilter.
        { injection Hstep as <-. auto. }
        apply (report_project_exact _ _ _ _ Hisdir) in Hstep.
        destruct Hstep as (q & Heq & Hq). rewrite Heq in Hold.
        rewrite append_project_projects in Hold.
        apply in_app_or in Hold. destruct Hold as [Hold|[<-|[]]]; auto.
        right. exists [node_name item], item. repeat split; auto.
        apply reaches_entry; assumption.
      * destruct (IHitem _ _ _ Hstep p Hold)
          as [Hold'|(path & item' & Hreach & Hproj' & Hfilter & Hq)]; auto.
        right. exists (node_name item :: path), item'. repeat split; auto.
        -- apply reaches_below; assumption.
        -- rewrite <- app_assoc in Hq. exact Hq.
Qed.

(** A project directory within the depth bound that passes the name filter
    is reported whenever the walk returns. *)
Lemma walker_finds (node : fs_node) (path : list string) (item : fs_node) :
  reaches node path item ->
  _is_mulesoft_project item = true ->
  filtered_out target_projects (node_name item) = false ->
  forall (relative : list string) (st st' : analysis_results * list string),
    len relative + len path <= max_depth + 1 ->
    walk node relative st = Some st' ->
    exists p,
      In p (projects (fst st'))
      /\ reported_as re_findall base_path (relative ++ path) item p.
Proof.
  intros Hreach Hproj Hfilter.
  induction Hreach as [d item Hin Hdir Hvis
                      |d mid path item Hin Hdir Hvis Hnot Hreach IH];
    intros relative st st' Hlen Hwalk.
  - destruct d as [name|name pf entries]; [destruct Hin|].
    rewrite walk_dir in Hwalk.
    change (len [node_name item]) with 1 in Hlen.
    destruct (max_depth <? len relative) eqn:Hdepth;
      [apply Z.ltb_lt in Hdepth; lia|].
    destruct (for_each_round keeps_projects (body relative)
                keeps_projects_refl keeps_projects_trans
                (body_keeps relative) entries st st' Hwalk item Hin)
      as (s & s' & Hstep & (new & Hnew & _)).
    unfold body in Hstep. rewrite Hdir, Hvis, Hproj, Hfilter in Hstep.
    cbn [andb negb] in Hstep.
    apply (report_project_exact _ _ _ _ Hdir) in Hstep.
    destruct Hstep as (p & Heq & Hp). exists p. split; [|exact Hp].
    rewrite Hnew, Heq, append_project_projects.
    apply in_or_app. left. apply in_or_app. right. left. reflexivity.
  - destruct d as [name|name pf entries]; [destruct Hin|].
    rewrite walk_dir in Hwalk.
    assert (Hpath : len (node_name mid :: path) = 1 + len path).
    { unfold len. cbn [length]. lia. }
    rewrite Hpath in Hlen. pose proof (len_nonneg path) as Hnn.
    destruct (max_depth <? len relative) eqn:Hdepth;
      [apply Z.ltb_lt in Hdepth; lia|].
    destruct (for_each_round keeps_projects (body relative)
                keeps_projects_refl keeps_projects_trans
                (body_keeps relative) entries st st' Hwalk mid Hin)
      as (s & s' & Hstep & (new & Hnew & _)).
    unfold body in Hstep. rewrite Hdir, Hvis, Hnot in Hstep.
    cbn [andb negb] in Hstep.
    destruct (IH Hproj Hfilter (relative ++ [node_name mid]) s s')
      as (p & Hp & Hq).
    + rewrite len_app. change (len [node_name mid]) with 1. lia.
    + exact Hstep.
    + exists p. split.
      * rewrite Hnew. apply in_or_app. left. exact Hp.
      * rewrite <- app_assoc in Hq. exact Hq.
Qed.
End WalkerExact.

(** The projects of a run are the reports of the visible project directories
    that pass the name filter. *)
Lemma run_reports_exactly (re_findall : string -> string -> list string)
    (alg : sum_algorithm) (base_path : list string) (root : fs_node)
    (targets : option (list string)) (results : analysis_results)
    (out : list string) :
  analyze_repository_folder re_findall alg base_path root targets
  = Some (results, out) ->
  forall p,
    In p (projects results) ->
    exists path item,
      reaches root path item
      /\ _is_mulesoft_project item = true
      /\ filtered_out targets (node_name item) = false
      /\ reported_as re_findall base_path path item p.
Proof.
  unfold analyze_repository_folder. intros Hrun p Hp.
  match type of Hrun with
  | (?w ≫= _) = _ => destruct w as [[r1 o1]|] eqn:Hwalk
  end; cbn in Hrun; [|discriminate].
  destruct (_calculate_summary_stats alg r1) as [r2|] eqn:Hsum; cbn in Hrun;
    [|discriminate].
  injection Hrun as <- <-.
  rewrite (summary_stats_projects alg r1 r2 Hsum) in Hp.
  destruct (walker_reports_exactly re_findall targets base_path
              default_max_depth root [] _ _ Hwalk p Hp)
    as [[]|(path & item & Hreach & Hproj & Hfilter & Hq)].
  exists path, item. repeat split; auto.
Qed.

(** What a report records about the place of its project. *)
Lemma reported_identity (re_findall : string -> string -> list string)
    (base_path path : list string) (item : fs_node) (p : project_analysis) :
  path <> [] ->
  reported_as re_findall base_path path item p ->
  identity p
  = (List.last path EmptyString, base_path ++ path,
     Some (if 1 <? len path then PyStr.join "/" path else node_name item),
     Some (if 1 <? len path then PyStr.join "/" (removelast path)
           else "local"%string)).
Proof.
  intros Hne (pf & a & out & _ & Ha & ->).
  apply analyze_project_identity in Ha.
  rewrite (last_app_nonempty base_path path EmptyString Hne) in Ha.
  unfold identity in *. injection Ha as Hn Hp _ _.
  destruct (1 <? len path); cbn; rewrite Hn, Hp; reflexivity.
Qed.

Lemma targeted_shop_run :
  targeted_run = Some (targeted_results, targeted_output).
Proof. vm_compute. reflexivity. Qed.

(** X1.  Discovery is complete within the depth bound: when a run returns,
    every visible project directory that lies at most 4 + 1 parts below the
    analyzed folder, with no hidden directory and no other project on the way
    down, and whose name passes the name filter, has an entry among the
    projects: its analysis, recorded under its path. *)
Theorem X1_discovery_finds_every_project
    (re_findall : string -> string -> list string) (alg : sum_algorithm)
    (base_path : list string) (root : fs_node)
    (targets : option (list string)) (results : analysis_results)
    (out : list string) (path : list string) (item : fs_node) :
  analyze_repository_folder re_findall alg base_path root targets
  = Some (results, out) ->
  reaches root path item ->
  _is_mulesoft_project item = true ->
  len path <= default_max_depth + 1 ->
  filtered_out targets (node_name item) = false ->
  exists p,
    In p (projects results)
    /\ reported_as re_findall base_path path item p
    /\ project_path p = base_path ++ path.
Proof.
  unfold analyze_repository_folder. intros Hrun Hreach Hproj Hlen Hfilter.
  match type of Hrun with
  | (?w ≫= _) = _ => destruct w as [[r1 o1]|] eqn:Hwalk
  end; cbn in Hrun; [|discriminate].
  destruct (_calculate_summary_stats alg r1) as [r2|] eqn:Hsum; cbn in Hrun;
    [|discriminate].
  injection Hrun as <- <-.
  rewrite (summary_stats_projects alg r1 r2 Hsum).
  destruct (walker_finds re_findall targets base_path default_max_depth
              root path item Hreach Hproj Hfilter [] _ _ Hlen Hwalk)
    as (p & Hp & Hq).
  exists p. split; [exact Hp|]. split; [exact Hq|].
  destruct (reaches_last _ _ _ Hreach) as (Hne & _ & _).
  pose proof (reported_identity _ _ _ _ _ Hne Hq) as Hid.
  unfold identity in Hid. congruence.
Qed.

Lemma X1_discovery_finds_every_project_witness :
  exists p,
    In p (projects (results_of shop_tree))
    /\ reported_as no_match ["repos"%string] ["shop"%string] shop_dir p
    /\ project_path p = ["repos"%string] ++ ["shop"%string].
Proof.
  apply (X1_discovery_finds_every_project no_match LeftToRight
           ["repos"%string] shop_tree None (results_of shop_tree)
           (output_of shop_tree) ["shop"%string] shop_dir).
  - exact shop_run.
  - apply (reaches_entry shop_tree shop_dir).
    + left. reflexivity.
    + reflexivity.
    + reflexivity.
  - reflexivity.
  - vm_compute. discriminate.
  - reflexivity.
Defined.

Lemma count_version_total (ps : list project_analysis) (a b c : Z) :
  let '(a', b', c') := fold_left count_version ps (a, b, c) in
  a' + b' + c' = a + b + c + len ps.
Proof.
  revert a b c. induction ps as [|p ps IH]; intros a b c.
  - cbn. change (len (@nil project_analysis)) with 0. lia.
  - cbn [fold_left]. unfold count_version at 2.
    assert (Hlen : len (p :: ps) = 1 + len ps).
    { unfold len. cbn [length]. lia. }
    destruct (PyStr.startswith (mule_version p) "4.");
      [|destruct (PyStr.startswith (mule_version p) "3.")].
    + specialize (IH (a + 1) b c).
      destruct (fold_left count_version ps _) as [[a' b'] c']. lia.
    + specialize (IH a (b + 1) c).
      destruct (fold_left count_version ps _) as [[a' b'] c']. lia.
    + specialize (IH a b (c + 1)).
      destruct (fold_left count_version ps _) as [[a' b'] c']. lia.
Qed.

(** X2.  The counts of a run agree with its list of projects: the walker's
    running count [total_projects] is the number of entries of [projects],
    and the three version buckets that the aggregator fills (4.x, 3.x and
    everything else) add up to it, so that every project is in exactly one
    bucket. *)
Theorem X2_project_counts_agree
    (re_findall : string -> string -> list string) (alg : sum_algorithm)
    (base_path : list string) (root : fs_node)
    (targets : option (list string)) (results : analysis_results)
    (out : list string) :
  analyze_repository_folder re_findall alg base_path root targets
  = Some (results, out) ->
  Summary.total_projects (summary results) = len (projects results)
  /\ Summary.mule_4_projects (summary results)
     + Summary.mule_3_projects (summary results)
     + Summary.unknown_version_projects (summary results)
     = len (projects results).
Proof.
  unfold analyze_repository_folder. intros Hrun.
  match type of Hrun with
  | (?w ≫= _) = _ => destruct w as [[r1 o1]|] eqn:Hwalk
  end; cbn in Hrun; [|discriminate].
  destruct (_calculate_summary_stats alg r1) as [r2|] eqn:Hsum; cbn in Hrun;
    [|discriminate].
  injection Hrun as <- <-.
  destruct (walker_keeps re_findall targets base_path default_max_depth
              root [] _ _ Hwalk) as (new & Hnew & Hcount).
  cbn [fst initial_results projects summary Summary.total_projects
       Summary.initial app] in Hnew, Hcount.
  rewrite summary_stats_fields in Hsum.
  destruct (PySum.sum alg _) as [total|]; cbn [mbind option_bind] in Hsum;
    [|discriminate].
  injection Hsum as <-.
  cbn [summary projects Summary.total_projects Summary.mule_4_projects
       Summary.mule_3_projects Summary.unknown_version_projects].
  split; [rewrite Hcount, Hnew; lia|].
  pose proof (count_version_total (projects r1) 0 0 0) as Hv.
  destruct (fold_left count_version (projects r1) (0, 0, 0)) as [[a b] c].
  cbn [fst snd]. lia.
Qed.

Lemma X2_project_counts_agree_witness :
  Summary.total_projects (summary (results_of shop_tree))
  = len (projects (results_of shop_tree))
  /\ Summary.mule_4_projects (summary (results_of shop_tree))
     + Summary.mule_3_projects (summary (results_of shop_tree))
     + Summary.unknown_version_projects (summary (results_of shop_tree))
     = len (projects (results_of shop_tree)).
Proof.
  apply (X2_project_counts_agree no_match LeftToRight ["repos"%string]
           shop_tree None (results_of shop_tree) (output_of shop_tree)).
  exact shop_run.
Defined.

(** X3.  The name filter: in a run that is given a non-empty list of target
    projects, every reported project has a directory name that is in the
    list. *)
Theorem X3_only_target_projects_are_reported
    (re_findall : string -> string -> list string) (alg : sum_algorithm)
    (base_path : list string) (root : fs_node)
    (t : string) (ts : list string) (results : analysis_results)
    (out : list string) :
  analyze_repository_folder re_findall alg base_path root (Some (t :: ts))
  = Some (results, out) ->
  forall p, In p (projects results) -> In (project_name p) (t :: ts).
Proof.
  intros Hrun p Hp.
  destruct (run_reports_exactly _ _ _ _ _ _ _ Hrun p Hp)
    as (path & item & Hreach & _ & Hfilter & Hq).
  destruct (reaches_last _ _ _ Hreach) as (Hne & Hlast & _).
  pose proof (reported_identity _ _ _ _ _ Hne Hq) as Hid.
  unfold identity in Hid. injection Hid as Hname _ _ _.
  rewrite Hname, Hlast. unfold filtered_out in Hfilter.
  apply negb_false_iff in Hfilter. apply existsb_exists in Hfilter.
  destruct Hfilter as (x & Hx & Heq). apply String.eqb_eq in Heq.
  rewrite Heq. exact Hx.
Qed.

Lemma X3_only_target_projects_are_reported_witness :
  In (project_name targeted_project) ["shop"; "billing"]%string.
Proof.
  apply (X3_only_target_projects_are_reported no_match LeftToRight
           ["repos"%string] shop_tree "shop" ["billing"%string]
           targeted_results targeted_output targeted_shop_run
           targeted_project).
  vm_compute. left. reflexivity.
Defined.

(** X4.  How a reported project is named.  Its [project_name] is the last
    part of its path.  A project directly inside the analyzed folder has its
    name as display name and the source [local]; a project further down has
    its relative path, joined with slashes, as display name and the path of
    its parent as source, so that the display name is the source, a slash and
    the name.  Both fields are always set. *)
Theorem X4_display_name_and_source
    (re_findall : string -> string -> list string) (alg : sum_algorithm)
    (base_path : list string) (root : fs_node)
    (targets : option (list string)) (results : analysis_results)
    (out : list string) :
  analyze_repository_folder re_findall alg base_path root targets
  = Some (results, out) ->
  forall p,
    In p (projects results) ->
    exists path,
      path <> []
      /\ project_path p = base_path ++ path
      /\ project_name p = List.last path EmptyString
      /\ if 1 <? len path then
           project_display_name p = Some (PyStr.join "/" path)
           /\ project_source p = Some (PyStr.join "/" (removelast path))
           /\ PyStr.join "/" path
              = PyStr.join "/" (removelast path) +:+ "/" +:+ project_name p
         else
           project_display_name p = Some (project_name p)
           /\ project_source p = Some "local"%string.
Proof.
  intros Hrun p Hp.
  destruct (run_reports_exactly _ _ _ _ _ _ _ Hrun p Hp)
    as (path & item & Hreach & _ & _ & Hq).
  destruct (reaches_last _ _ _ Hreach) as (Hne & Hlast & _).
  pose proof (reported_identity _ _ _ _ _ Hne Hq) as Hid.
  unfold identity in Hid. injection Hid as Hname Hpath Hdisplay Hsource.
  exists path. split; [exact Hne|]. split; [exact Hpath|].
  split; [exact Hname|].
  destruct (1 <? len path) eqn:Hnested.
  - split; [exact Hdisplay|]. split; [exact Hsource|].
    rewrite Hname.
    rewrite (app_removelast_last EmptyString Hne) at 1.
    apply join_snoc. intros Hnil.
    rewrite (app_removelast_last EmptyString Hne), Hnil in Hnested.
    discriminate.
  - rewrite Hname, Hlast. split; [exact Hdisplay|exact Hsource].
Qed.

Lemma X4_display_name_and_source_witness :
  let p := first_project deep_tree in
  exists path,
    path <> []
    /\ project_path p = ["repos"%string] ++ path
    /\ project_name p = List.last path EmptyString
    /\ if 1 <? len path then
         project_display_name p = Some (PyStr.join "/" path)
         /\ project_source p = Some (PyStr.join "/" (removelast path))
         /\ PyStr.join "/" path
            = PyStr.join "/" (removelast path) +:+ "/" +:+ project_name p
       else
         project_display_name p = Some (project_name p)
         /\ project_source p = Some "local"%string.
Proof.
  apply (X4_display_name_and_source no_match LeftToRight ["repos"%string]
           deep_tree None (results_of deep_tree) (output_of deep_tree)
           deep_run (first_project deep_tree)).
  vm_compute. left. reflexivity.
Defined.

(** X5.  Hidden directories are neither reported nor entered: no part of the
    path of a reported project, relative to the analyzed folder, starts with
    a dot. *)
Theorem X5_hidden_directories_are_skipped
    (re_findall : string -> string -> list string) (alg : sum_algorithm)
    (base_path : list string) (root : fs_node)
    (targets : option (list string)) (results : analysis_results)
    (out : list string) :
  analyze_repository_folder re_findall alg base_path root targets
  = Some (results, out) ->
  forall p,
    In p (projects results) ->
    exists path, project_path p = base_path ++ path /\ visible path.
Proof.
  intros Hrun p Hp.
  destruct (run_reports_exactly _ _ _ _ _ _ _ Hrun p Hp)
    as (path & item & Hreach & _ & _ & Hq).
  destruct (reaches_last _ _ _ Hreach) as (Hne & _ & Hvis).
  pose proof (reported_identity _ _ _ _ _ Hne Hq) as Hid.
  unfold identity in Hid. injection Hid as _ Hpath _ _.
  exists path. split; assumption.
Qed.

Lemma X5_hidden_directories_are_skipped_witness :
  exists path,
    project_path (first_project deep_tree) = ["repos"%string] ++ path
    /\ visible path.
Proof.
  apply (X5_hidden_directories_are_skipped no_match LeftToRight
           ["repos"%string] deep_tree None (results_of deep_tree)
           (output_of deep_tree) deep_run (first_project deep_tree)).
  vm_compute. left. reflexivity.
Defined.

(** ** The per-file analysis *)

Lemma tally_total_set (k : string) (d : dict Z) (tags : dict (dict Z)) :
  tally_total (Dict.set k d tags)
  = tally_total tags - Dict.total (@Dict.get_or (dict Z) k [] tags)
    + Dict.total d.
Proof.
  unfold tally_total, Dict.get_or.
  induction tags as [|[k' d'] tags IH]; cbn [Dict.set Dict.get fold_right snd].
  - change (Dict.total []) with 0. lia.
  - destruct (String.eqb k k') eqn:E; cbn [fold_right snd]; [lia|].
    rewrite IH. destruct (Dict.get k tags); lia.
Qed.

(** One round of the tally loop counts one element. *)
Lemma tally_step (m : dict connector_info) (tags : dict (dict Z))
    (e : Element) :
  tally_total (tally m tags e) = tally_total tags + 1.
Proof.
  unfold tally. destruct (classify m e) as [k local].
  rewrite tally_total_set, total_add.
  unfold Dict.mem, Dict.get_or, dict in *.
  destruct (Dict.get k tags) as [d|] eqn:E.
  - rewrite E. lia.
  - rewrite tally_total_set. unfold Dict.get_or, dict in *.
    rewrite get_set_eq, E. change (Dict.total []) with 0. lia.
Qed.

Lemma tally_loop (m : dict connector_info) (l : list Element)
    (tags : dict (dict Z)) :
  tally_total (fold_left (tally m) l tags) = tally_total tags + len l.
Proof.
  revert tags. induction l as [|e l IH]; intros tags; cbn [fold_left].
  - change (len (@nil Element)) with 0. lia.
  - rewrite IH, tally_step.
    change (len (e :: l)) with (Z.of_nat (S (length l))).
    rewrite Nat2Z.inj_succ. fold (len l). lia.
Qed.

(** X6.  The tag tally of a file loses no element: for a file that is read
    and whose document parses, the counts in [xml_tags_by_namespace], added
    up over all namespaces and local names, give the number of elements of
    the document, which is the [components] count plus one. *)
Theorem X6_tag_tally_counts_every_element (f : xml_file) (content : string)
    (root : Element) :
  xml_read f = Returned content ->
  xml_parse f = Returned root ->
  tally_total (xml_tags_by_namespace (fst (_analyze_xml_file f)))
  = element_count root
  /\ tally_total (xml_tags_by_namespace (fst (_analyze_xml_file f)))
     = components (fst (_analyze_xml_file f)) + 1.
Proof.
  intros Hread Hparse. rewrite (analyze_parsed f content root Hread Hparse).
  cbn [xml_tags_by_namespace components].
  rewrite tally_loop, len_iter. change (tally_total []) with 0. lia.
Qed.

Lemma X6_tag_tally_counts_every_element_witness :
  tally_total (xml_tags_by_namespace (fst (_analyze_xml_file flow_in_mule_file)))
  = element_count (Elem "mule" [] [Elem "flow" [] []])
  /\ tally_total
       (xml_tags_by_namespace (fst (_analyze_xml_file flow_in_mule_file)))
     = components (fst (_analyze_xml_file flow_in_mule_file)) + 1.
Proof.
  apply (X6_tag_tally_counts_every_element flow_in_mule_file
           "<mule><flow/></mule>" (Elem "mule" [] [Elem "flow" [] []])).
  - reflexivity.
  - reflexivity.
Defined.

Lemma endswith_both (s a b : string) :
  PyStr.endswith s a = true -> PyStr.endswith s b = true ->
  PyStr.endswith a b = true \/ PyStr.endswith b a = true.
Proof.
  induction s as [|c s IH]; intros Ha Hb.
  - destruct a; [|discriminate Ha]. destruct b; [|discriminate Hb].
    left. reflexivity.
  - cbn [PyStr.endswith] in Ha, Hb.
    apply orb_true_iff in Ha. apply orb_true_iff in Hb.
    destruct Ha as [Ha|Ha].
    + apply String.eqb_eq in Ha. subst a. left.
      cbn [PyStr.endswith]. apply orb_true_iff. exact Hb.
    + destruct Hb as [Hb|Hb].
      * apply String.eqb_eq in Hb. subst b. right.
        cbn [PyStr.endswith]. apply orb_true_iff. right. exact Ha.
      * exact (IH Ha Hb).
Qed.

Lemma endswith_self (s suf : string) :
  String.eqb s suf = true -> PyStr.endswith s suf = true.
Proof. intros H. destruct s; cbn [PyStr.endswith]; rewrite H; reflexivity. Qed.

(** No tag is counted both as a flow and as a sub-flow. *)
Lemma flow_tags_exclusive (t : string) :
  is_flow_tag t = true -> is_subflow_tag t = false.
Proof.
  unfold is_flow_tag, is_subflow_tag. intros Hflow.
  destruct (PyStr.endswith t "}sub-flow" || String.eqb t "sub-flow") eqn:Hsub;
    [|reflexivity].
  exfalso.
  assert (Hf : PyStr.endswith t "}flow" = true \/ PyStr.endswith t "flow" = true).
  { apply orb_true_iff in Hflow. destruct Hflow as [H|H]; [left; exact H|].
    right. apply endswith_self. exact H. }
  assert (Hs : PyStr.endswith t "}sub-flow" = true
               \/ PyStr.endswith t "sub-flow" = true).
  { apply orb_true_iff in Hsub. destruct Hsub as [H|H]; [left; exact H|].
    right. apply endswith_self. exact H. }
  apply orb_true_iff in Hflow. apply orb_true_iff in Hsub.
  destruct Hflow as [Hflow|Hflow]; destruct Hsub as [Hsub|Hsub].
  - destruct (endswith_both _ _ _ Hflow Hsub) as [H|H]; vm_compute in H;
      discriminate.
  - apply String.eqb_eq in Hsub. subst t. vm_compute in Hflow. discriminate.
  - apply String.eqb_eq in Hflow. subst t. vm_compute in Hsub. discriminate.
  - apply String.eqb_eq in Hflow. subst t. vm_compute in Hsub. discriminate.
Qed.

Lemma count_flow_loop (l : list Element) (a b : Z) :
  fold_left count_flow l (a, b)
  = (a + len (List.filter (fun e => is_flow_tag (tag e)) l),
     b + len (List.filter (fun e => is_subflow_tag (tag e)) l)).
Proof.
  revert a b. induction l as [|e l IH]; intros a b; cbn [fold_left List.filter].
  - change (len (@nil Element)) with 0. rewrite !Z.add_0_r. reflexivity.
  - unfold count_flow at 2.
    destruct (is_flow_tag (tag e)) eqn:Hflow.
    + rewrite (flow_tags_exclusive _ Hflow), IH.
      change (len (e :: List.filter (fun e => is_flow_tag (tag e)) l))
        with (Z.of_nat (S (length (List.filter (fun e => is_flow_tag (tag e)) l)))).
      rewrite Nat2Z.inj_succ. unfold len. f_equal; lia.
    + destruct (is_subflow_tag (tag e)); rewrite IH; [|reflexivity].
      change (len (e :: List.filter (fun e => is_subflow_tag (tag e)) l))
        with (Z.of_nat
                (S (length (List.filter (fun e => is_subflow_tag (tag e)) l)))).
      rewrite Nat2Z.inj_succ. unfold len. f_equal; lia.
Qed.

(** X7.  What the flow counters of a file count.  For a file that is read and
    whose document parses, [flows] is the number of elements, the root
    included, whose tag is [flow] or ends in [}flow], and [subflows] the number
    of those whose tag is [sub-flow] or ends in [}sub-flow]; no element is in
    both groups, so the [elif] of the loop drops nothing. *)
Theorem X7_flow_counters_count_flow_tags (f : xml_file) (content : string)
    (root : Element) :
  xml_read f = Returned content ->
  xml_parse f = Returned root ->
  flows (fst (_analyze_xml_file f)) = len (elements_with is_flow_tag root)
  /\ subflows (fst (_analyze_xml_file f))
     = len (elements_with is_subflow_tag root)
  /\ forall e, In e (elements_with is_flow_tag root) ->
               ~ In e (elements_with is_subflow_tag root).
Proof.
  intros Hread Hparse. rewrite (analyze_parsed f content root Hread Hparse).
  cbn [flows subflows]. rewrite count_flow_loop. cbn [fst snd].
  split; [reflexivity|]. split; [reflexivity|].
  unfold elements_with. intros e He Hs.
  apply filter_In in He. apply filter_In in Hs.
  destruct He as [_ He]. destruct Hs as [_ Hs].
  rewrite (flow_tags_exclusive _ He) in Hs. discriminate.
Qed.

Lemma X7_flow_counters_count_flow_tags_witness :
  flows (fst (_analyze_xml_file flow_in_mule_file))
  = len (elements_with is_flow_tag (Elem "mule" [] [Elem "flow" [] []]))
  /\ subflows (fst (_analyze_xml_file flow_in_mule_file))
     = len (elements_with is_subflow_tag (Elem "mule" [] [Elem "flow" [] []]))
  /\ forall e,
       In e (elements_with is_flow_tag (Elem "mule" [] [Elem "flow" [] []])) ->
       ~ In e (elements_with is_subflow_tag
                 (Elem "mule" [] [Elem "flow" [] []])).
Proof.
  apply (X7_flow_counters_count_flow_tags flow_in_mule_file
           "<mule><flow/></mule>" (Elem "mule" [] [Elem "flow" [] []])).
  - reflexivity.
  - reflexivity.
Defined.

(** ** The namespace resolvers *)








(** ** The connector tables *)

Lemma get_in_values {V : Type} (k : string) (v : V) (d : dict V) :
  Dict.get k d = Some v -> In v (Dict.values d).
Proof.
  unfold Dict.values. induction d as [|[k' v'] d IH]; cbn; [discriminate|].
  destruct (String.eqb k k'); [intros [= ->]; left; reflexivity|].
  intros H. right. exact (IH H).
Qed.

(** Adding one to an entry keeps the keys distinct and the counts positive. *)
Lemma add_one_well_formed (k : string) (d : dict Z) :
  List.NoDup (Dict.keys d) -> Forall (fun n => 1 <= n) (Dict.values d) ->
  List.NoDup (Dict.keys (Dict.add k 1 d))
  /\ Forall (fun n => 1 <= n) (Dict.values (Dict.add k 1 d)).
Proof.
  intros Hk Hv. unfold Dict.add. split; [apply keys_set_NoDup; exact Hk|].
  apply values_set; [exact Hv|]. unfold Dict.get_or.
  destruct (Dict.get k d) as [n|] eqn:E; [|lia].
  apply get_in_values in E. rewrite List.Forall_forall in Hv.
  specialize (Hv n E). cbn beta in Hv. lia.
Qed.

(** The connector that the attribution loop credits is never empty and never
    [documentation]. *)
Lemma attribution_connector (root : Element) (e : Element) (c : string) :
  truthy (fst (attribution (namespaces_of root) e)) = Some c ->
  c <> EmptyString /\ c <> "documentation"%string.
Proof.
  intros H.
  assert (Hne : c <> EmptyString).
  { unfold truthy in H. destruct (fst _) as [c'|]; [|discriminate].
    destruct c'; cbn in H; [discriminate|]. injection H as <-. discriminate. }
  split; [exact Hne|].
  assert (Hsrc : fst (attribution (namespaces_of root) e) = Some c).
  { unfold truthy in H. destruct (fst _) as [c'|]; [|discriminate].
    destruct (nonempty c'); congruence. }
  clear H. unfold attribution in Hsrc.
  destruct (PyStr.rsplit1 rbrace (tag e)) as [[uri local]|].
  - cbn [fst] in Hsrc.
    destruct (PyStr.contains _ mule_schema); [|discriminate]. cbv zeta in Hsrc.
    destruct (is_reserved _) eqn:Hres; injection Hsrc as <-; [discriminate|].
    intros Heq. rewrite Heq in Hres. discriminate.
  - destruct (PyStr.split1 colon (tag e)) as [[prefix local]|];
      cbn [fst] in Hsrc; [|injection Hsrc as <-; discriminate].
    apply get_in_values in Hsrc.
    pose proof (namespaces_of_unreserved root) as Hun.
    unfold unreserved in Hun. rewrite List.Forall_forall in Hun.
    specialize (Hun _ Hsrc). intros ->. discriminate.
Qed.

Lemma extract_well_formed (root : Element) (u : gset string) (c t : dict Z) :
  well_formed_tables u c t ->
  well_formed_tables
    (u ∪ list_to_set (Dict.values (namespaces_of root)))
    (fst (fold_left (attribute (namespaces_of root)) (iter root) (c, t)))
    (snd (fold_left (attribute (namespaces_of root)) (iter root) (c, t))).
Proof.
  intros (Hu & Hkeys & Hc & Ht & Hcv & Htv).
  unfold well_formed_tables. split.
  - rewrite elem_of_union. intros [H|H]; [exact (Hu H)|].
    rewrite elem_of_list_to_set, list_elem_of_In in H.
    pose proof (namespaces_of_unreserved root) as Hun.
    unfold unreserved in Hun. rewrite List.Forall_forall in Hun.
    specialize (Hun _ H). discriminate.
  - apply (fold_left_pair_inv (attribute (namespaces_of root))
             (fun c t =>
                (forall k, In k (Dict.keys c) ->
                   k <> EmptyString /\ k <> "documentation"%string)
                /\ List.NoDup (Dict.keys c)
                /\ List.NoDup (Dict.keys t)
                /\ Forall (fun n => 1 <= n) (Dict.values c)
                /\ Forall (fun n => 1 <= n) (Dict.values t)));
      [|cbn [fst snd]; auto].
    clear. intros c t e (Hkeys & Hc & Ht & Hcv & Htv).
    unfold attribute.
    pose proof (attribution_connector root e) as Hconn.
    destruct (attribution (namespaces_of root) e) as [connector local].
    cbn [fst] in Hconn.
    destruct (truthy connector) as [name|]; cbn [fst snd]; [|auto].
    destruct (add_one_well_formed name c Hc Hcv) as [Hc' Hcv'].
    match goal with
    | |- context [Dict.add ?ty 1 t] =>
        destruct (add_one_well_formed ty t Ht Htv) as [Ht' Htv']
    end.
    split; [|auto].
    intros k Hk. unfold Dict.add in Hk. apply keys_set_in in Hk.
    destruct Hk as [->|Hk]; [exact (Hconn name eq_refl)|exact (Hkeys k Hk)].
Qed.

(** What attribution preserves holds of the tables of every project of a
    run. *)
Lemma run_tables (re_findall : string -> string -> list string)
    (Q : gset string -> dict Z -> dict Z -> Prop) :
  (forall root u c t,
     Q u c t ->
     Q (u ∪ list_to_set (Dict.values (namespaces_of root)))
       (fst (fold_left (attribute (namespaces_of root)) (iter root) (c, t)))
       (snd (fold_left (attribute (namespaces_of root)) (iter root) (c, t)))) ->
  Q ∅ [] [] ->
  forall (alg : sum_algorithm) (base_path : list string) (root : fs_node)
         (targets : option (list string)) (results : analysis_results)
         (out : list string),
    analyze_repository_folder re_findall alg base_path root targets
    = Some (results, out) ->
    forall p, In p (projects results) -> connector_tables Q p.
Proof.
  intros HQ H0 alg base_path root targets results out Hrun p Hp.
  destruct (run_reports _ _ _ _ _ _ _ Hrun p Hp)
    as (path & item & _ & _ & _ & pf & a & o & name & source & _ & Ha & ->).
  change (connector_tables Q a).
  exact (analyze_project_tables re_findall Q HQ (base_path ++ path) pf a o
           H0 Ha).
Qed.

Lemma empty_tables_well_formed : well_formed_tables ∅ [] [].
Proof.
  unfold well_formed_tables. split; [apply not_elem_of_empty|].
  split; [intros k []|]. repeat split; constructor.
Qed.

(** X9.  The connector tables of every reported project are well formed:
    [documentation] is neither a unique connector nor, like the empty name, a
    key of [connector_usage_count]; no key occurs twice in
    [connector_usage_count] or in [component_types]; and every count in the
    two tables is at least one. *)
Theorem X9_connector_tables_are_well_formed
    (re_findall : string -> string -> list string) (alg : sum_algorithm)
    (base_path : list string) (root : fs_node)
    (targets : option (list string)) (results : analysis_results)
    (out : list string) :
  analyze_repository_folder re_findall alg base_path root targets
  = Some (results, out) ->
  forall p,
    In p (projects results) ->
    connector_tables well_formed_tables p.
Proof.
  exact (run_tables re_findall well_formed_tables extract_well_formed
           empty_tables_well_formed alg base_path root targets results out).
Qed.

Lemma X9_connector_tables_are_well_formed_witness :
  connector_tables well_formed_tables (first_project shop_tree).
Proof.
  apply (X9_connector_tables_are_well_formed no_match LeftToRight
           ["repos"%string] shop_tree None (results_of shop_tree)
           (output_of shop_tree) shop_run (first_project shop_tree)).
  vm_compute. left. reflexivity.
Defined.

(** ** The accounts of the configuration files *)

Lemma sum_int_from (l : list Z) (z : Z) :
  fold_left Z.add l z = z + PySum.sum_int l.
Proof.
  unfold PySum.sum_int. revert z.
  induction l as [|x l IH]; intros z; cbn [fold_left]; [lia|].
  rewrite (IH (z + x)), (IH (0 + x)). lia.
Qed.

Lemma sum_int_cons (x : Z) (l : list Z) :
  PySum.sum_int (x :: l) = x + PySum.sum_int l.
Proof. unfold PySum.sum_int at 1. cbn [fold_left]. apply sum_int_from. Qed.

Lemma find_snoc {A : Type} (test : A -> bool) (l : list A) (x : A) :
  List.find test (l ++ [x])
  = match List.find test l with
    | Some y => Some y
    | None => if test x then Some x else None
    end.
Proof.
  induction l as [|y l IH]; cbn [app List.find]; [reflexivity|].
  destruct (test y); [reflexivity|exact IH].
Qed.

Section Documents.
Variable re_findall : string -> string -> list string.

Lemma extract_documents (f : xml_file) (a : project_analysis) :
  documents (fst (_extract_connectors_from_xml f a)) = documents a.
Proof.
  unfold _extract_connectors_from_xml.
  destruct (xml_parse f); [|reflexivity].
  destruct (fold_left _ (iter _) _). reflexivity.
Qed.

Lemma dataweave_documents (f : xml_file) (a : project_analysis) :
  documents (fst (_analyze_dataweave_in_xml re_findall f a)) = documents a.
Proof.
  unfold _analyze_dataweave_in_xml. destruct (xml_read f); [|reflexivity].
  destruct (fold_left _ dw_patterns _) as [[x y] z]. reflexivity.
Qed.

Lemma mule_version_documents (name : string) (pf : project_files)
    (a : project_analysis) :
  documents (fst (_analyze_mule_version name pf a)) = documents a.
Proof.
  unfold _analyze_mule_version.
  destruct (pf_pom pf) as [[pom|e]|]; try reflexivity.
  destruct (pom_mule_version pom); cbn [fst];
    match goal with
    | |- context [if ?b then _ else _] => destruct b
    end; try reflexivity; destruct (pom_plugin_version pom); reflexivity.
Qed.

Lemma custom_code_documents (pf : project_files) (a : project_analysis) :
  documents (fst (_analyze_custom_code pf a)) = documents a.
Proof.
  unfold _analyze_custom_code.
  destruct (pf_java pf) as [js|]; destruct (pf_dwl pf) as [ds|];
    repeat match goal with
      | |- context [fold_left ?f ?l ?s] =>
          destruct (fold_left f l s) as [[? ?] ?] || destruct (fold_left f l s)
      end; reflexivity.
Qed.

Lemma tests_documents (pf : project_files) (a : project_analysis) :
  documents (fst (_analyze_tests pf a)) = documents a.
Proof.
  unfold _analyze_tests.
  destruct (pf_munit pf) as [ms|]; destruct (pf_other_tests pf) as [os|];
    repeat match goal with
      | |- context [fold_left ?f ?l ?s] => destruct (fold_left f l s)
      end; reflexivity.
Qed.

(** What one round of the loop over the configuration files does to the
    accounts. *)
Lemma configuration_file_documents (st : project_analysis * list string)
    (f : xml_file) :
  let a := fst st in
  let a' := fst (analyze_configuration_file re_findall st f) in
  let fa := fst (_analyze_xml_file f) in
  configuration_files a'
  = {| count := count (configuration_files a);
       files := files (configuration_files a) ++ [file_entry f] |}
  /\ flows_and_subflows a'
     = {| total_flows := total_flows (flows_and_subflows a) + flows fa;
          total_subflows :=
            total_subflows (flows_and_subflows a) + subflows fa;
          flows_per_file :=
            Dict.set (xml_name f) (flows fa)
              (flows_per_file (flows_and_subflows a)) |}
  /\ total_components (connectors_and_components a')
     = total_components (connectors_and_components a) + components fa
  /\ large_files (complexity_indicators a')
     = large_files (complexity_indicators a) ++ large_among [file_entry f].
Proof.
  destruct st as [a out]. unfold analyze_configuration_file, file_entry.
  cbn [fst]. destruct (_analyze_xml_file f) as [fa out1]. cbn [fst].
  pose proof (extract_documents f (record_file_analysis f fa a)) as H1.
  destruct (_extract_connectors_from_xml f _) as [a1 out2].
  pose proof (dataweave_documents f a1) as H2.
  destruct (_analyze_dataweave_in_xml re_findall f a1) as [a2 out3].
  cbn [fst] in *. unfold documents in H1, H2.
  injection H1 as Hc1 Hf1 Ht1 Hl1. injection H2 as Hc2 Hf2 Ht2 Hl2.
  rewrite Hc2, Hf2, Ht2, Hl2, Hc1, Hf1, Ht1, Hl1.
  unfold record_file_analysis, large_among.
  cbn [flat_map size_lines filename].
  destruct (1000 <? line_count fa) eqn:E; cbn; rewrite ?app_nil_r;
    repeat split; reflexivity.
Qed.

(** The accounts after the loop over some files, from any state. *)
Lemma configuration_loop_documents (fs : list xml_file)
    (st : project_analysis * list string) :
  let a := fst st in
  let a' := fst (fold_left (analyze_configuration_file re_findall) fs st) in
  let entries := map file_entry fs in
  count (configuration_files a') = count (configuration_files a)
  /\ files (configuration_files a') = files (configuration_files a) ++ entries
  /\ total_flows (flows_and_subflows a')
     = total_flows (flows_and_subflows a)
       + PySum.sum_int (map entry_flows entries)
  /\ total_subflows (flows_and_subflows a')
     = total_subflows (flows_and_subflows a)
       + PySum.sum_int (map entry_subflows entries)
  /\ total_components (connectors_and_components a')
     = total_components (connectors_and_components a)
       + PySum.sum_int (map entry_components entries)
  /\ large_files (complexity_indicators a')
     = large_files (complexity_indicators a) ++ large_among entries.
Proof.
  revert st. induction fs as [|f fs IH]; intros st; cbn [fold_left map].
  - cbv zeta. rewrite !app_nil_r. change (PySum.sum_int []) with 0.
    repeat split; lia.
  - specialize (IH (analyze_configuration_file re_findall st f)).
    destruct (configuration_file_documents st f) as (Hc & Hf & Ht & Hl).
    cbv zeta in *.
    destruct IH as (I1 & I2 & I3 & I4 & I5 & I6).
    rewrite I1, I2, I3, I4, I5, I6, Hc, Hf, Ht, Hl.
    cbn [count files total_flows total_subflows large_files].
    rewrite !sum_int_cons, <- !app_assoc.
    change (file_entry f :: map file_entry fs)
      with ([file_entry f] ++ map file_entry fs).
    rewrite large_among_app.
    repeat split; try reflexivity; unfold file_entry;
      cbn [entry_flows entry_subflows entry_components]; lia.
Qed.

(** The entry of [flows_per_file] under a name after the loop. *)
Lemma configuration_loop_flows_per_file (name : string) (fs : list xml_file)
    (st : project_analysis * list string) :
  Dict.get name
    (flows_per_file
       (flows_and_subflows
          (fst (fold_left (analyze_configuration_file re_findall) fs st))))
  = match last_named name fs with
    | Some f => Some (flows (fst (_analyze_xml_file f)))
    | None => Dict.get name (flows_per_file (flows_and_subflows (fst st)))
    end.
Proof.
  unfold last_named. revert st.
  induction fs as [|f fs IH]; intros st; cbn [fold_left rev]; [reflexivity|].
  rewrite IH, find_snoc.
  destruct (List.find _ (rev fs)); [reflexivity|].
  destruct (configuration_file_documents st f) as (_ & Hf & _ & _).
  cbv zeta in Hf. rewrite Hf. cbn [flows_per_file].
  destruct (String.eqb (xml_name f) name) eqn:E.
  - apply String.eqb_eq in E. subst name. apply get_set_eq.
  - apply String.eqb_neq in E. apply get_set_ne. exact E.
Qed.

(** With pairwise distinct file names, [flows_per_file] adds up to the
    flows of the files. *)
Lemma configuration_loop_flows_total (fs : list xml_file)
    (st : project_analysis * list string) :
  List.NoDup (map xml_name fs) ->
  (forall f, In f fs ->
     Dict.get (xml_name f) (flows_per_file (flows_and_subflows (fst st)))
     = None) ->
  Dict.total
    (flows_per_file
       (flows_and_subflows
          (fst (fold_left (analyze_configuration_file re_findall) fs st))))
  = Dict.total (flows_per_file (flows_and_subflows (fst st)))
    + PySum.sum_int (map entry_flows (map file_entry fs)).
Proof.
  revert st. induction fs as [|f fs IH]; intros st Hnames Hfresh;
    cbn [fold_left map].
  - change (PySum.sum_int []) with 0. lia.
  - cbn [map] in Hnames. inversion Hnames as [|? ? Hnotin Hrest]; subst.
    destruct (configuration_file_documents st f) as (_ & Hf & _ & _).
    cbv zeta in Hf.
    rewrite IH; [| exact Hrest |].
    + rewrite Hf. cbn [flows_per_file]. rewrite total_set, sum_int_cons.
      unfold Dict.get_or. rewrite (Hfresh f (or_introl eq_refl)).
      unfold file_entry. cbn [entry_flows]. lia.
    + intros g Hg. rewrite Hf. cbn [flows_per_file].
      rewrite get_set_ne; [apply Hfresh; right; exact Hg|].
      intros Heq. apply Hnotin. rewrite Heq. apply in_map. exact Hg.
Qed.

(** The accounts of the project that [analyze_project] returns are those of
    the loop over its configuration files, started on [new_analysis]. *)
Lemma analyze_project_documents (path : list string) (pf : project_files)
    (a : project_analysis) (out : list string) :
  analyze_project re_findall path pf = Some (a, out) ->
  exists a1,
    documents a1 = documents (new_analysis path)
    /\ documents a
       = documents (fst (_analyze_configuration_files re_findall pf a1)).
Proof.
  unfold analyze_project.
  pose proof (mule_version_documents
                (project_name (new_analysis path)) pf (new_analysis path))
    as H1.
  destruct (_analyze_mule_version _ pf (new_analysis path)) as [a1 o1].
  destruct (_analyze_configuration_files re_findall pf a1) as [a2 o2] eqn:E2.
  pose proof (custom_code_documents pf a2) as H3.
  destruct (_analyze_custom_code pf a2) as [a3 o3].
  pose proof (tests_documents pf a3) as H4.
  destruct (_analyze_tests pf a3) as [a4 o4].
  unfold _calculate_project_complexity.
  destruct (project_complexity a4) as [s|]; cbn [mbind option_bind];
    [|discriminate].
  intros [= <- _]. cbn [fst] in *. exists a1. split; [exact H1|].
  change (documents (set_complexity_score s a4)) with (documents a4).
  rewrite H4, H3, E2. reflexivity.
Qed.
End Documents.

(** The accounts of the project that [analyze_project] returns. *)
Lemma analyze_project_accounts
    (re_findall : string -> string -> list string) (path : list string)
    (pf : project_files) (a : project_analysis) (out : list string) :
  analyze_project re_findall path pf = Some (a, out) ->
  let entries := files (configuration_files a) in
  entries = map file_entry (mule_files pf)
  /\ count (configuration_files a) = len entries
  /\ total_flows (flows_and_subflows a)
     = PySum.sum_int (map entry_flows entries)
  /\ total_subflows (flows_and_subflows a)
     = PySum.sum_int (map entry_subflows entries)
  /\ total_components (connectors_and_components a)
     = PySum.sum_int (map entry_components entries)
  /\ large_files (complexity_indicators a) = large_among entries.
Proof.
  intros Ha. destruct (analyze_project_documents _ _ _ _ _ Ha) as (a1 & H1 & H).
  unfold documents in H1, H. injection H1 as Hc1 Hf1 Ht1 Hl1.
  injection H as Hc Hf Ht Hl. cbv zeta. rewrite Hc, Hf, Ht, Hl.
  unfold _analyze_configuration_files, mule_files.
  destruct (pf_mule pf) as [fs|].
  - unfold analyze_configuration_files_loop.
    destruct (configuration_loop_documents re_findall fs
                (set_configuration_files
                   {| count := len fs; files := files (configuration_files a1) |}
                   a1, []))
      as (I1 & I2 & I3 & I4 & I5 & I6).
    cbn [fst] in I1, I2, I3, I4, I5, I6.
    rewrite I1, I2, I3, I4, I5, I6.
    cbn [configuration_files set_configuration_files count files
         flows_and_subflows connectors_and_components complexity_indicators].
    rewrite Hc1, Hf1, Ht1, Hl1. cbn.
    unfold len. rewrite !length_map. repeat split; lia.
  - cbn [fst]. rewrite Hc1, Hf1, Ht1, Hl1. cbn. repeat split; reflexivity.
Qed.


(** X10.  The accounts of a project add up.  In the analysis that
    [analyze_project] returns, [configuration_files.files] holds one entry
    per configuration file, in order, made from the per-file analysis;
    [configuration_files.count] is their number; [total_flows],
    [total_subflows] and [total_components] are the sums of the per-file
    counts of the entries; and [large_files] lists exactly the entries of
    more than 1000 lines. *)
Theorem X10_project_totals_are_sums_over_files
    (re_findall : string -> string -> list string) (path : list string)
    (pf : project_files) (a : project_analysis) (out : list string) :
  analyze_project re_findall path pf = Some (a, out) ->
  let entries := files (configuration_files a) in
  entries = map file_entry (mule_files pf)
  /\ count (configuration_files a) = len entries
  /\ total_flows (flows_and_subflows a)
     = PySum.sum_int (map entry_flows entries)
  /\ total_subflows (flows_and_subflows a)
     = PySum.sum_int (map entry_subflows entries)
  /\ total_components (connectors_and_components a)
     = PySum.sum_int (map entry_components entries)
  /\ large_files (complexity_indicators a) = large_among entries.
Proof. exact (analyze_project_accounts re_findall path pf a out). Qed.

Lemma X10_project_totals_are_sums_over_files_witness :
  let entries := files (configuration_files shop_analysis) in
  entries = map file_entry (mule_files db_project_files)
  /\ count (configuration_files shop_analysis) = len entries
  /\ total_flows (flows_and_subflows shop_analysis)
     = PySum.sum_int (map entry_flows entries)
  /\ total_subflows (flows_and_subflows shop_analysis)
     = PySum.sum_int (map entry_subflows entries)
  /\ total_components (connectors_and_components shop_analysis)
     = PySum.sum_int (map entry_components entries)
  /\ large_files (complexity_indicators shop_analysis) = large_among entries.
Proof.
  apply (X10_project_totals_are_sums_over_files no_match
           ["repos"; "shop"]%string db_project_files shop_analysis
           shop_analysis_output).
  vm_compute. reflexivity.
Defined.

(** X11.  [flows_per_file] is keyed by the bare file name.  In the analysis
    that [analyze_project] returns, the entry under a name is the flow count
    of the last configuration file with that name, and there is no entry for
    a name that no file has; so two files of the same name in different
    folders share one entry.  When the names are pairwise distinct, the
    entries add up to [total_flows]. *)
Theorem X11_flows_per_file_is_keyed_by_name
    (re_findall : string -> string -> list string) (path : list string)
    (pf : project_files) (a : project_analysis) (out : list string) :
  analyze_project re_findall path pf = Some (a, out) ->
  (forall name,
     Dict.get name (flows_per_file (flows_and_subflows a))
     = option_map (fun f => flows (fst (_analyze_xml_file f)))
         (last_named name (mule_files pf)))
  /\ (List.NoDup (map xml_name (mule_files pf)) ->
      Dict.total (flows_per_file (flows_and_subflows a))
      = total_flows (flows_and_subflows a)).
Proof.
  intros Ha. destruct (analyze_project_documents _ _ _ _ _ Ha) as (a1 & H1 & H).
  unfold documents in H1, H. injection H1 as _ Hf1 _ _.
  injection H as _ Hf _ _. rewrite Hf.
  unfold _analyze_configuration_files, mule_files.
  destruct (pf_mule pf) as [fs|].
  - unfold analyze_configuration_files_loop.
    set (st := (set_configuration_files
                  {| count := len fs; files := files (configuration_files a1) |}
                  a1, @nil string)).
    assert (Hst : flows_and_subflows (fst st)
                  = {| total_flows := 0; total_subflows := 0;
                       flows_per_file := [] |}).
    { exact Hf1. }
    split.
    + intros name.
      rewrite (configuration_loop_flows_per_file re_findall name fs st), Hst.
      destruct (last_named name fs); reflexivity.
    + intros Hnames.
      rewrite (configuration_loop_flows_total re_findall fs st Hnames).
      * destruct (configuration_loop_documents re_findall fs st)
          as (_ & _ & I3 & _).
        rewrite I3, Hst. reflexivity.
      * intros f _. rewrite Hst. reflexivity.
  - cbn [fst]. rewrite Hf1. split; [intros name|intros _]; reflexivity.
Qed.

Lemma X11_flows_per_file_is_keyed_by_name_witness :
  (forall name,
     Dict.get name (flows_per_file (flows_and_subflows shop_analysis))
     = option_map (fun f => flows (fst (_analyze_xml_file f)))
         (last_named name (mule_files db_project_files)))
  /\ (List.NoDup (map xml_name (mule_files db_project_files)) ->
      Dict.total (flows_per_file (flows_and_subflows shop_analysis))
      = total_flows (flows_and_subflows shop_analysis)).
Proof.
  apply (X11_flows_per_file_is_keyed_by_name no_match
           ["repos"; "shop"]%string db_project_files shop_analysis
           shop_analysis_output).
  vm_compute. reflexivity.
Defined.

(** ** The scan for DataWeave expressions *)





(** ** Custom code and tests *)

Section CodeAndTests.
Variable re_findall : string -> string -> list string.

Lemma extract_code_and_tests (f : xml_file) (a : project_analysis) :
  code_and_tests (fst (_extract_connectors_from_xml f a)) = code_and_tests a.
Proof.
  unfold _extract_connectors_from_xml.
  destruct (xml_parse f); [|reflexivity].
  destruct (fold_left _ (iter _) _). reflexivity.
Qed.

Lemma dataweave_code_and_tests (f : xml_file) (a : project_analysis) :
  code_and_tests (fst (_analyze_dataweave_in_xml re_findall f a))
  = code_and_tests a.
Proof.
  unfold _analyze_dataweave_in_xml. destruct (xml_read f); [|reflexivity].
  destruct (fold_left _ dw_patterns _) as [[x y] z]. reflexivity.
Qed.

Lemma record_file_code_and_tests (f : xml_file) (fa : file_analysis)
    (a : project_analysis) :
  code_and_tests (record_file_analysis f fa a) = code_and_tests a.
Proof.
  unfold record_file_analysis. destruct (1000 <? line_count fa); reflexivity.
Qed.

Lemma configuration_loop_code_and_tests (fs : list xml_file)
    (st : project_analysis * list string) :
  code_and_tests
    (fst (fold_left (analyze_configuration_file re_findall) fs st))
  = code_and_tests (fst st).
Proof.
  revert st. induction fs as [|f fs IH]; intros st; [reflexivity|].
  cbn [fold_left]. rewrite IH. destruct st as [a out].
  unfold analyze_configuration_file.
  destruct (_analyze_xml_file f) as [fa out1].
  pose proof (extract_code_and_tests f (record_file_analysis f fa a)) as H1.
  destruct (_extract_connectors_from_xml f _) as [a1 out2].
  pose proof (dataweave_code_and_tests f a1) as H2.
  destruct (_analyze_dataweave_in_xml re_findall f a1) as [a2 out3].
  cbn [fst] in *. rewrite H2, H1. apply record_file_code_and_tests.
Qed.

Lemma configuration_files_code_and_tests (pf : project_files)
    (a : project_analysis) :
  code_and_tests (fst (_analyze_configuration_files re_findall pf a))
  = code_and_tests a.
Proof.
  unfold _analyze_configuration_files.
  destruct (pf_mule pf) as [fs|]; [|reflexivity].
  unfold analyze_configuration_files_loop.
  rewrite configuration_loop_code_and_tests. reflexivity.
Qed.

Lemma mule_version_code_and_tests (name : string) (pf : project_files)
    (a : project_analysis) :
  code_and_tests (fst (_analyze_mule_version name pf a)) = code_and_tests a.
Proof.
  unfold _analyze_mule_version.
  destruct (pf_pom pf) as [[pom|e]|]; try reflexivity.
  destruct (pom_mule_version pom); cbn [fst];
    match goal with
    | |- context [if ?b then _ else _] => destruct b
    end; try reflexivity; destruct (pom_plugin_version pom); reflexivity.
Qed.

(** The loop over the Java files appends one class per readable file and
    adds its lines. *)
Lemma read_java_files (fs : list java_file) (total : Z)
    (classes : list java_class) (out : list string) :
  let '(total', classes', _) :=
    fold_left read_java_file fs (total, classes, out) in
  classes' = classes ++ flat_map class_of fs
  /\ total' = total + PySum.sum_int (map lines (flat_map class_of fs)).
Proof.
  revert total classes out.
  induction fs as [|f fs IH]; intros total classes out;
    cbn [fold_left flat_map].
  - rewrite app_nil_r. change (PySum.sum_int (map lines [])) with 0.
    split; [reflexivity|lia].
  - unfold read_java_file at 2, class_of at 1 3.
    destruct (java_lines f) as [n|e].
    + specialize (IH (total + n)
                    (classes ++ [ {| class_name := java_stem f;
                                     file_path := java_relative_path f;
                                     lines := n |} ]) out).
      destruct (fold_left read_java_file fs _) as [[total' classes'] out'].
      destruct IH as [-> ->]. rewrite <- app_assoc.
      split; [reflexivity|].
      cbn [app map lines]. rewrite sum_int_cons. lia.
    + specialize (IH total classes
                    (out ++ ["Warning: Could not read Java file "
                             +:+ java_path f])).
      destruct (fold_left read_java_file fs _) as [[total' classes'] out'].
      exact IH.
Qed.

Lemma read_dwl_files (fs : list (string * outcome Z))
    (dw : dataweave_analysis_t) (out : list string) :
  dwl_files_count (fst (fold_left read_dwl_file fs (dw, out)))
  = dwl_files_count dw.
Proof.
  revert dw out. induction fs as [|f fs IH]; intros dw out; [reflexivity|].
  cbn [fold_left]. unfold read_dwl_file at 2.
  destruct (snd f); rewrite IH; reflexivity.
Qed.

Lemma read_munit_files (fs : list (string * outcome Z)) (total : Z)
    (out : list string) :
  fst (fold_left read_munit_file fs (total, out))
  = total + PySum.sum_int (map counted fs).
Proof.
  revert total out. induction fs as [|f fs IH]; intros total out;
    cbn [fold_left map].
  - change (PySum.sum_int []) with 0. cbn [fst]. lia.
  - rewrite sum_int_cons. unfold read_munit_file at 2, counted at 1.
    destruct (snd f); rewrite IH; lia.
Qed.

(** What [_analyze_custom_code] records, on an analysis whose list of Java
    classes is still empty. *)
Lemma custom_code_records (pf : project_files) (a : project_analysis) :
  custom_code a
  = {| java_files_count := 0; java_classes := [];
       total_custom_code_lines := 0 |} ->
  dwl_files_count (dataweave_analysis a) = 0 ->
  let a' := fst (_analyze_custom_code pf a) in
  custom_code a'
  = {| java_files_count := len (java_files pf);
       java_classes := flat_map class_of (java_files pf);
       total_custom_code_lines :=
         PySum.sum_int (map lines (flat_map class_of (java_files pf))) |}
  /\ dwl_files_count (dataweave_analysis a') = len (dwl_files pf)
  /\ testing a' = testing a.
Proof.
  intros Hcode Hdwl. unfold _analyze_custom_code, java_files, dwl_files.
  destruct (pf_java pf) as [js|].
  - pose proof (read_java_files js 0 (java_classes (custom_code a)) []) as Hj.
    destruct (fold_left read_java_file js _) as [[total classes] out].
    destruct Hj as [-> ->]. rewrite Hcode. cbn [java_classes app].
    destruct (pf_dwl pf) as [ds|].
    + match goal with
      | |- context [fold_left read_dwl_file ds ?s] =>
          pose proof (read_dwl_files ds (fst s) (snd s)) as Hd;
          cbn [fst snd] in Hd; destruct (fold_left read_dwl_file ds s)
      end.
      cbn [fst snd] in *. cbn. rewrite Hd. repeat split; reflexivity.
    + cbn. rewrite Hdwl. repeat split; reflexivity.
  - destruct (pf_dwl pf) as [ds|].
    + match goal with
      | |- context [fold_left read_dwl_file ds ?s] =>
          pose proof (read_dwl_files ds (fst s) (snd s)) as Hd;
          cbn [fst snd] in Hd; destruct (fold_left read_dwl_file ds s)
      end.
      cbn [fst snd] in *. cbn. rewrite Hd, Hcode. repeat split; reflexivity.
    + cbn. rewrite Hdwl, Hcode. repeat split; reflexivity.
Qed.

(** What [_analyze_tests] records, on an analysis without tests. *)
Lemma tests_records (pf : project_files) (a : project_analysis) :
  testing a
  = {| munit_test_files := 0; munit_test_cases := 0; other_test_files := 0 |} ->
  let a' := fst (_analyze_tests pf a) in
  testing a'
  = {| munit_test_files := len (munit_files pf);
       munit_test_cases := PySum.sum_int (map counted (munit_files pf));
       other_test_files := len (other_tests pf) |}
  /\ custom_code a' = custom_code a
  /\ dwl_files_count (dataweave_analysis a')
     = dwl_files_count (dataweave_analysis a).
Proof.
  intros Htest. unfold _analyze_tests, munit_files, other_tests.
  destruct (pf_munit pf) as [ms|].
  - pose proof (read_munit_files ms 0 []) as Hm.
    destruct (fold_left read_munit_file ms (0, [])) as [total out].
    cbn [fst] in Hm. rewrite Hm.
    destruct (pf_other_tests pf) as [os|]; cbn; rewrite ?Htest;
      repeat split; reflexivity.
  - destruct (pf_other_tests pf) as [os|]; cbn; rewrite ?Htest;
      repeat split; reflexivity.
Qed.
End CodeAndTests.

(** What [analyze_project] records about custom code and tests. *)
Lemma analyze_project_code_and_tests
    (re_findall : string -> string -> list string) (path : list string)
    (pf : project_files) (a : project_analysis) (out : list string) :
  analyze_project re_findall path pf = Some (a, out) ->
  java_files_count (custom_code a) = len (java_files pf)
  /\ java_classes (custom_code a) = flat_map class_of (java_files pf)
  /\ total_custom_code_lines (custom_code a)
     = PySum.sum_int (map lines (java_classes (custom_code a)))
  /\ len (java_classes (custom_code a)) <= java_files_count (custom_code a)
  /\ dwl_files_count (dataweave_analysis a) = len (dwl_files pf)
  /\ munit_test_files (testing a) = len (munit_files pf)
  /\ munit_test_cases (testing a)
     = PySum.sum_int (map counted (munit_files pf))
  /\ other_test_files (testing a) = len (other_tests pf).
Proof.
  unfold analyze_project.
  pose proof (mule_version_code_and_tests
                (project_name (new_analysis path)) pf (new_analysis path))
    as H1.
  destruct (_analyze_mule_version _ pf (new_analysis path)) as [a1 o1].
  pose proof (configuration_files_code_and_tests re_findall pf a1) as H2.
  destruct (_analyze_configuration_files re_findall pf a1) as [a2 o2].
  cbn [fst] in H1, H2. rewrite H1 in H2. unfold code_and_tests in H2.
  injection H2 as Hcode Htest Hdwl.
  pose proof (custom_code_records pf a2 Hcode Hdwl) as H3.
  destruct (_analyze_custom_code pf a2) as [a3 o3].
  cbn [fst] in H3. cbv zeta in H3. destruct H3 as (Hc3 & Hd3 & Ht3).
  rewrite Htest in Ht3.
  pose proof (tests_records pf a3 Ht3) as H4.
  destruct (_analyze_tests pf a3) as [a4 o4].
  cbn [fst] in H4. cbv zeta in H4. destruct H4 as (Ht4 & Hc4 & Hd4).
  unfold _calculate_project_complexity.
  destruct (project_complexity a4) as [s|]; cbn [mbind option_bind];
    [|discriminate].
  intros [= <- _].
  change (custom_code (set_complexity_score s a4)) with (custom_code a4).
  change (testing (set_complexity_score s a4)) with (testing a4).
  change (dataweave_analysis (set_complexity_score s a4))
    with (dataweave_analysis a4).
  rewrite Hc4, Hd4, Ht4, Hc3, Hd3.
  cbn [java_files_count java_classes total_custom_code_lines
       munit_test_files munit_test_cases other_test_files].
  repeat split; try reflexivity.
  generalize (java_files pf). intros fs. unfold len.
  apply Nat2Z.inj_le.
  induction fs as [|f fs IH]; cbn [flat_map length]; [lia|].
  rewrite length_app. unfold class_of at 1.
  destruct (java_lines f); cbn [length]; lia.
Qed.


(** X13.  What a project records about its custom code and its tests.  In
    the analysis that [analyze_project] returns, [java_files_count] is the
    number of Java files found, readable or not; [java_classes] has one
    entry per readable Java file, in order, and [total_custom_code_lines] is
    the sum of their lines, so that an unreadable file is counted as a file
    and adds no lines; [dwl_files_count] is the number of DataWeave files;
    [munit_test_files] and [other_test_files] are the numbers of files found,
    and [munit_test_cases] adds up the test elements of the suites that
    parse. *)
Theorem X13_custom_code_and_tests_records
    (re_findall : string -> string -> list string) (path : list string)
    (pf : project_files) (a : project_analysis) (out : list string) :
  analyze_project re_findall path pf = Some (a, out) ->
  java_files_count (custom_code a) = len (java_files pf)
  /\ java_classes (custom_code a) = flat_map class_of (java_files pf)
  /\ total_custom_code_lines (custom_code a)
     = PySum.sum_int (map lines (java_classes (custom_code a)))
  /\ len (java_classes (custom_code a)) <= java_files_count (custom_code a)
  /\ dwl_files_count (dataweave_analysis a) = len (dwl_files pf)
  /\ munit_test_files (testing a) = len (munit_files pf)
  /\ munit_test_cases (testing a)
     = PySum.sum_int (map counted (munit_files pf))
  /\ other_test_files (testing a) = len (other_tests pf).
Proof. exact (analyze_project_code_and_tests re_findall path pf a out). Qed.

Lemma X13_custom_code_and_tests_records_witness :
  java_files_count (custom_code code_analysis)
  = len (java_files code_project_files)
  /\ java_classes (custom_code code_analysis)
     = flat_map class_of (java_files code_project_files)
  /\ total_custom_code_lines (custom_code code_analysis)
     = PySum.sum_int (map lines (java_classes (custom_code code_analysis)))
  /\ len (java_classes (custom_code code_analysis))
     <= java_files_count (custom_code code_analysis)
  /\ dwl_files_count (dataweave_analysis code_analysis)
     = len (dwl_files code_project_files)
  /\ munit_test_files (testing code_analysis)
     = len (munit_files code_project_files)
  /\ munit_test_cases (testing code_analysis)
     = PySum.sum_int (map counted (munit_files code_project_files))
  /\ other_test_files (testing code_analysis)
     = len (other_tests code_project_files).
Proof.
  apply (X13_custom_code_and_tests_records no_match
           ["repos"; "code"]%string code_project_files code_analysis
           code_analysis_output).
  vm_compute. reflexivity.
Defined.

(** ** The aggregator *)

Lemma sum_int_fold_right {A : Type} (g : A -> Z) (l : list A) :
  PySum.sum_int (map g l) = fold_right (fun x acc => g x + acc) 0 l.
Proof.
  induction l as [|x l IH]; [reflexivity|].
  cbn [map fold_right]. rewrite sum_int_cons, IH. reflexivity.
Qed.

Lemma not_in_keys_absent (k : string) (table : dict Z) :
  ~ In k (Dict.keys table) -> occurs_in k table = false.
Proof.
  unfold occurs_in, Dict.keys.
  induction table as [|[k' n] table IH]; cbn [existsb map In fst];
    [reflexivity|].
  intros H. destruct (String.eqb k k') eqn:E.
  - apply String.eqb_eq in E. subst k'. destruct H. left. reflexivity.
  - cbn [orb]. apply IH. intros Hin. apply H. right. exact Hin.
Qed.

(** In a table without repeated keys, the entries under a key add up to the
    entry that [get] finds. *)
Lemma weight_of_get_or (k : string) (table : dict Z) :
  List.NoDup (Dict.keys table) -> weight_of k table = Dict.get_or k 0 table.
Proof.
  unfold Dict.keys, Dict.get_or.
  induction table as [|[k' n] table IH]; cbn [map fst]; intros Hk;
    [reflexivity|].
  inversion Hk as [|? ? Hnotin Hrest]; subst.
  change (weight_of k ((k', n) :: table))
    with ((if String.eqb k k' then n else 0) + weight_of k table).
  cbn [Dict.get]. destruct (String.eqb k k') eqn:E.
  - apply String.eqb_eq in E. subst k'.
    rewrite (weight_of_absent k table (not_in_keys_absent k table Hnotin)).
    lia.
  - rewrite (IH Hrest). lia.
Qed.

Lemma total_count_all (table counter : dict Z) :
  Dict.total (count_all counter table) = Dict.total counter + Dict.total table.
Proof.
  unfold count_all. revert counter.
  induction table as [|[k n] table IH]; intros counter; cbn [fold_left].
  - change (Dict.total []) with 0. lia.
  - rewrite IH, total_add. unfold Dict.total, Dict.values. cbn. lia.
Qed.

Lemma count_all_NoDup (table counter : dict Z) :
  List.NoDup (Dict.keys counter) ->
  List.NoDup (Dict.keys (count_all counter table)).
Proof.
  unfold count_all. revert counter.
  induction table as [|[k n] table IH]; intros counter H; cbn [fold_left];
    [exact H|].
  apply IH. unfold Dict.add. apply keys_set_NoDup. exact H.
Qed.

Section MergedTables.
Variable table : project_analysis -> dict Z.

Lemma merged_get_or (k : string) (ps : list project_analysis) :
  Forall (fun p => List.NoDup (Dict.keys (table p))) ps ->
  Dict.get_or k 0
    (fold_left (fun counter p => count_all counter (table p)) ps [])
  = counted_over table k ps.
Proof.
  intros Hps. unfold counted_over. rewrite sum_int_fold_right.
  unfold Dict.get_or at 1. rewrite (get_merged table k ps []).
  assert (Hw : fold_right (fun p acc => weight_of k (table p) + acc) 0 ps
               = fold_right (fun p acc => Dict.get_or k 0 (table p) + acc) 0 ps).
  { induction Hps as [|p ps Hp _ IH]; cbn [fold_right]; [reflexivity|].
    rewrite IH, (weight_of_get_or k (table p) Hp). reflexivity. }
  destruct (existsb _ ps) eqn:E.
  - rewrite Hw. unfold Dict.get_or at 1. cbn [Dict.get]. lia.
  - rewrite <- Hw, (weights_absent table k ps E). reflexivity.
Qed.

Lemma merged_total (ps : list project_analysis) (counter : dict Z) :
  Dict.total (fold_left (fun counter p => count_all counter (table p)) ps counter)
  = Dict.total counter + PySum.sum_int (map (fun p => Dict.total (table p)) ps).
Proof.
  revert counter. induction ps as [|p ps IH]; intros counter;
    cbn [fold_left map].
  - change (PySum.sum_int []) with 0. lia.
  - rewrite IH, total_count_all, sum_int_cons. lia.
Qed.

Lemma merged_NoDup (ps : list project_analysis) (counter : dict Z) :
  List.NoDup (Dict.keys counter) ->
  List.NoDup
    (Dict.keys
       (fold_left (fun counter p => count_all counter (table p)) ps counter)).
Proof.
  revert counter. induction ps as [|p ps IH]; intros counter H;
    cbn [fold_left]; [exact H|].
  apply IH. apply count_all_NoDup. exact H.
Qed.
End MergedTables.

Lemma attribution_balanced (root : Element) (u : gset string) (c t : dict Z) :
  Dict.total c = Dict.total t ->
  Dict.total
    (fst (fold_left (attribute (namespaces_of root)) (iter root) (c, t)))
  = Dict.total
      (snd (fold_left (attribute (namespaces_of root)) (iter root) (c, t))).
Proof. apply attribute_balance. Qed.

(** X14.  The two summary tables of a run add up the tables of its projects.
    For every key, the count in [connector_usage_summary] is the sum of the
    counts that the projects have under the key (zero where a project does
    not have it), and likewise for [component_types_summary]; no key occurs
    twice in a summary table; and the counts of the two summary tables have
    the same total, the sum of the usage totals of the projects. *)
Theorem X14_summary_tables_add_up
    (re_findall : string -> string -> list string) (alg : sum_algorithm)
    (base_path : list string) (root : fs_node)
    (targets : option (list string)) (results : analysis_results)
    (out : list string) :
  analyze_repository_folder re_findall alg base_path root targets
  = Some (results, out) ->
  let usage p := connector_usage_count (connectors_and_components p) in
  let types p := component_types (connectors_and_components p) in
  let s := summary results in
  (forall k,
     Dict.get_or k 0 (Summary.connector_usage_summary s)
     = counted_over usage k (projects results))
  /\ (forall k,
        Dict.get_or k 0 (Summary.component_types_summary s)
        = counted_over types k (projects results))
  /\ List.NoDup (Dict.keys (Summary.connector_usage_summary s))
  /\ List.NoDup (Dict.keys (Summary.component_types_summary s))
  /\ Dict.total (Summary.connector_usage_summary s)
     = PySum.sum_int (map (fun p => Dict.total (usage p)) (projects results))
  /\ Dict.total (Summary.connector_usage_summary s)
     = Dict.total (Summary.component_types_summary s).
Proof.
  intros Hrun.
  pose proof (run_tables re_findall well_formed_tables extract_well_formed
                empty_tables_well_formed alg base_path root targets results
                out Hrun) as Hwf.
  pose proof (run_tables re_findall
                (fun _ c t => Dict.total c = Dict.total t)
                (fun r u c t H => attribution_balanced r u c t H)
                eq_refl alg base_path root targets results out Hrun) as Hbal.
  unfold analyze_repository_folder in Hrun.
  match type of Hrun with
  | (?w ≫= _) = _ => destruct w as [[r1 o1]|] eqn:Hwalk
  end; cbn in Hrun; [|discriminate].
  destruct (_calculate_summary_stats alg r1) as [r2|] eqn:Hsum; cbn in Hrun;
    [|discriminate].
  injection Hrun as <- <-.
  rewrite summary_stats_fields in Hsum.
  destruct (PySum.sum alg _) as [total|]; cbn [mbind option_bind] in Hsum;
    [|discriminate].
  injection Hsum as <-.
  cbn [summary projects Summary.connector_usage_summary
       Summary.component_types_summary] in *.
  rewrite count_project_split. cbn [fst snd].
  assert (Hu : Forall (fun p => List.NoDup
                         (Dict.keys
                            (connector_usage_count
                               (connectors_and_components p))))
                 (projects r1)).
  { rewrite List.Forall_forall. intros p Hp.
    destruct (Hwf p Hp) as (_ & _ & H & _). exact H. }
  assert (Ht : Forall (fun p => List.NoDup
                         (Dict.keys
                            (component_types (connectors_and_components p))))
                 (projects r1)).
  { rewrite List.Forall_forall. intros p Hp.
    destruct (Hwf p Hp) as (_ & _ & _ & H & _). exact H. }
  split; [intros k; apply (merged_get_or _ k _ Hu)|].
  split; [intros k; apply (merged_get_or _ k _ Ht)|].
  split; [apply merged_NoDup; constructor|].
  split; [apply merged_NoDup; constructor|].
  rewrite !merged_total. change (Dict.total []) with 0.
  split; [lia|]. f_equal.
  assert (Hall : forall ps : list project_analysis,
            (forall p, In p ps ->
               Dict.total (connector_usage_count (connectors_and_components p))
               = Dict.total (component_types (connectors_and_components p))) ->
            map (fun p => Dict.total
                   (connector_usage_count (connectors_and_components p))) ps
            = map (fun p => Dict.total
                     (component_types (connectors_and_components p))) ps).
  { intros ps H. apply map_ext_in. exact H. }
  f_equal. apply Hall. exact Hbal.
Qed.

Lemma X14_summary_tables_add_up_witness :
  let usage p := connector_usage_count (connectors_and_components p) in
  let types p := component_types (connectors_and_components p) in
  let s := summary (results_of shop_tree) in
  (forall k,
     Dict.get_or k 0 (Summary.connector_usage_summary s)
     = counted_over usage k (projects (results_of shop_tree)))
  /\ (forall k,
        Dict.get_or k 0 (Summary.component_types_summary s)
        = counted_over types k (projects (results_of shop_tree)))
  /\ List.NoDup (Dict.keys (Summary.connector_usage_summary s))
  /\ List.NoDup (Dict.keys (Summary.component_types_summary s))
  /\ Dict.total (Summary.connector_usage_summary s)
     = PySum.sum_int
         (map (fun p => Dict.total (usage p)) (projects (results_of shop_tree)))
  /\ Dict.total (Summary.connector_usage_summary s)
     = Dict.total (Summary.component_types_summary s).
Proof.
  apply (X14_summary_tables_add_up no_match LeftToRight ["repos"%string]
           shop_tree None (results_of shop_tree) (output_of shop_tree)).
  exact shop_run.
Defined.

(** X15.  The aggregator recomputes: its result depends only on the list of
    projects and on the running count [total_projects], and applying it to
    its own result gives that result again. *)
Theorem X15_aggregation_is_idempotent (alg : sum_algorithm)
    (r r' : analysis_results) :
  _calculate_summary_stats alg r = Some r' ->
  _calculate_summary_stats alg r' = Some r'
  /\ forall r0,
       projects r0 = projects r ->
       Summary.total_projects (summary r0)
       = Summary.total_projects (summary r) ->
       _calculate_summary_stats alg r0 = Some r'.
Proof.
  intros H.
  assert (Hdep : forall r0,
            projects r0 = projects r ->
            Summary.total_projects (summary r0)
            = Summary.total_projects (summary r) ->
            _calculate_summary_stats alg r0 = Some r').
  { intros r0 Hp Hn. rewrite summary_stats_fields, Hp, Hn.
    rewrite summary_stats_fields in H. exact H. }
  split; [|exact Hdep].
  apply Hdep.
  - exact (summary_stats_projects alg r r' H).
  - rewrite summary_stats_fields in H.
    destruct (PySum.sum alg _); cbn [mbind option_bind] in H; [|discriminate].
    injection H as <-. reflexivity.
Qed.

Lemma X15_aggregation_is_idempotent_witness :
  _calculate_summary_stats LeftToRight (results_of shop_tree)
  = Some (results_of shop_tree)
  /\ forall r0,
       projects r0 = projects (fst shop_walk) ->
       Summary.total_projects (summary r0)
       = Summary.total_projects (summary (fst shop_walk)) ->
       _calculate_summary_stats LeftToRight r0 = Some (results_of shop_tree).
Proof.
  apply (X15_aggregation_is_idempotent LeftToRight (fst shop_walk)
           (results_of shop_tree)).
  vm_compute. reflexivity.
Defined.

Lemma analyze_project_scored (re_findall : string -> string -> list string)
    (path : list string) (pf : project_files) (a : project_analysis)
    (out : list string) :
  analyze_project re_findall path pf = Some (a, out) -> scored a.
Proof.
  rewrite analyze_project_unfold.
  destruct scorer_facts as (_ & Hcalc & _). rewrite Hcalc.
  destruct (spec_score _) as [s|]; cbn; [|discriminate].
  intros [= <- _]. exists s. reflexivity.
Qed.

(** The sum of float scores is a float, and the sum of none is the integer
    zero. *)
Lemma sum_of_scores (alg : sum_algorithm) (items : list number) :
  Forall (fun n => exists s, n = PyFloat s) items ->
  match items with
  | [] => PySum.sum alg items = Some (PyInt 0)
  | _ :: _ => exists f, PySum.sum alg items = Some (PyFloat f)
  end.
Proof.
  intros H. unfold PySum.sum. destruct H as [|n items [s ->] H];
    cbn [PySum.from]; [reflexivity|].
  change (PyFloat.of_int 0) with (Some (S754_zero false)).
  cbn [mbind option_bind]. destruct alg.
  - destruct (floats_plain_returns items
                (PyFloat.add (S754_zero false) s) H) as [r ->].
    cbn. eauto.
  - destruct (floats_compensated_returns items
                (PyFloat.add (S754_zero false) s) (S754_zero false) H)
      as [r ->].
    cbn. eauto.
Qed.

(** X16.  After a walk that returns, the aggregation never raises.  Every
    project that the walker appends carries a float score; so on projects
    that all do, the built-in [sum] of the scores returns, and the total
    score is a float, except that it is the integer [0] when no project was
    found. *)
Theorem X16_aggregation_never_raises
    (re_findall : string -> string -> list string) (alg : sum_algorithm)
    (targets : option (list string)) (base_path : list string)
    (max_depth : Z) (root : fs_node) (relative : list string)
    (st st' : analysis_results * list string) :
  _find_mulesoft_projects_recursive re_findall targets base_path max_depth
    root relative st = Some st' ->
  Forall scored (projects (fst st)) ->
  Forall scored (projects (fst st'))
  /\ exists r,
       _calculate_summary_stats alg (fst st') = Some r
       /\ match projects (fst st') with
          | [] => Summary.total_complexity_score (summary r) = PyInt 0
          | _ :: _ =>
              exists f,
                Summary.total_complexity_score (summary r) = PyFloat f
          end.
Proof.
  intros Hwalk Hst.
  assert (Hall : Forall scored (projects (fst st'))).
  { rewrite List.Forall_forall in *. intros p Hp.
    destruct (walker_reports re_findall targets base_path max_depth root
                relative st st' Hwalk p Hp)
      as [Hold|(path & item & _ & _ & _ & pf & a & o & name & source
                & _ & Ha & ->)].
    - exact (Hst p Hold).
    - destruct (analyze_project_scored _ _ _ _ _ Ha) as [s Hs].
      exists s. exact Hs. }
  split; [exact Hall|].
  assert (Hfloats :
            Forall (fun n => exists s, n = PyFloat s)
              (map (fun p => complexity_score (connectors_and_components p))
                 (projects (fst st')))).
  { clear -Hall. induction Hall as [|p ps Hp _ IH]; cbn; constructor; auto. }
  pose proof (sum_of_scores alg _ Hfloats) as Hsum.
  rewrite summary_stats_fields.
  destruct (projects (fst st')) as [|p ps]; cbn [map] in Hsum |- *.
  - rewrite Hsum. cbn [mbind option_bind]. eexists. split; reflexivity.
  - destruct Hsum as [f Hf]. rewrite Hf. cbn [mbind option_bind].
    eexists. split; [reflexivity|]. exists f. reflexivity.
Qed.

Lemma X16_aggregation_never_raises_witness :
  Forall scored (projects (fst shop_walk))
  /\ exists r,
       _calculate_summary_stats LeftToRight (fst shop_walk) = Some r
       /\ match projects (fst shop_walk) with
          | [] => Summary.total_complexity_score (summary r) = PyInt 0
          | _ :: _ =>
              exists f,
                Summary.total_complexity_score (summary r) = PyFloat f
          end.
Proof.
  apply (X16_aggregation_never_raises no_match LeftToRight None
           ["repos"%string] default_max_depth shop_tree []
           (initial_results, []) shop_walk).
  - vm_compute. reflexivity.
  - constructor.
Defined.

(** ** The version of a project *)

Section Version.
Variable re_findall : string -> string -> list string.

Lemma extract_version (f : xml_file) (a : project_analysis) :
  version_of (fst (_extract_connectors_from_xml f a)) = version_of a.
Proof.
  unfold _extract_connectors_from_xml.
  destruct (xml_parse f); [|reflexivity].
  destruct (fold_left _ (iter _) _). reflexivity.
Qed.

Lemma dataweave_version (f : xml_file) (a : project_analysis) :
  version_of (fst (_analyze_dataweave_in_xml re_findall f a)) = version_of a.
Proof.
  unfold _analyze_dataweave_in_xml. destruct (xml_read f); [|reflexivity].
  destruct (fold_left _ dw_patterns _) as [[x y] z]. reflexivity.
Qed.

Lemma record_file_version (f : xml_file) (fa : file_analysis)
    (a : project_analysis) :
  version_of (record_file_analysis f fa a) = version_of a.
Proof.
  unfold record_file_analysis. destruct (1000 <? line_count fa); reflexivity.
Qed.

Lemma configuration_loop_version (fs : list xml_file)
    (st : project_analysis * list string) :
  version_of (fst (fold_left (analyze_configuration_file re_findall) fs st))
  = version_of (fst st).
Proof.
  revert st. induction fs as [|f fs IH]; intros st; [reflexivity|].
  cbn [fold_left]. rewrite IH. destruct st as [a out].
  unfold analyze_configuration_file.
  destruct (_analyze_xml_file f) as [fa out1].
  pose proof (extract_version f (record_file_analysis f fa a)) as H1.
  destruct (_extract_connectors_from_xml f _) as [a1 out2].
  pose proof (dataweave_version f a1) as H2.
  destruct (_analyze_dataweave_in_xml re_findall f a1) as [a2 out3].
  cbn [fst] in *. rewrite H2, H1. apply record_file_version.
Qed.

Lemma configuration_files_version (pf : project_files)
    (a : project_analysis) :
  version_of (fst (_analyze_configuration_files re_findall pf a))
  = version_of a.
Proof.
  unfold _analyze_configuration_files.
  destruct (pf_mule pf) as [fs|]; [|reflexivity].
  unfold analyze_configuration_files_loop.
  rewrite configuration_loop_version. reflexivity.
Qed.

Lemma custom_code_version (pf : project_files) (a : project_analysis) :
  version_of (fst (_analyze_custom_code pf a)) = version_of a.
Proof.
  unfold _analyze_custom_code.
  destruct (pf_java pf) as [js|]; destruct (pf_dwl pf) as [ds|];
    repeat match goal with
      | |- context [fold_left ?f ?l ?s] =>
          destruct (fold_left f l s) as [[? ?] ?] || destruct (fold_left f l s)
      end; reflexivity.
Qed.

Lemma tests_version (pf : project_files) (a : project_analysis) :
  version_of (fst (_analyze_tests pf a)) = version_of a.
Proof.
  unfold _analyze_tests.
  destruct (pf_munit pf) as [ms|]; destruct (pf_other_tests pf) as [os|];
    repeat match goal with
      | |- context [fold_left ?f ?l ?s] => destruct (fold_left f l s)
      end; reflexivity.
Qed.

(** [_analyze_mule_version] keeps the flag in step with the version. *)
Lemma mule_version_flag (name : string) (pf : project_files)
    (a : project_analysis) :
  legacy_flag_agrees a ->
  legacy_flag_agrees (fst (_analyze_mule_version name pf a)).
Proof.
  unfold legacy_flag_agrees, _analyze_mule_version. intros Ha.
  destruct (pf_pom pf) as [[pom|e]|]; cbn [fst]; try exact Ha.
  destruct (pom_mule_version pom) as [text|].
  - destruct (String.eqb (mule_version (set_version text _ a)) "unknown")
      eqn:E; [|reflexivity].
    cbn [mule_version set_version] in E. apply String.eqb_eq in E. subst text.
    destruct (pom_plugin_version pom); reflexivity.
  - destruct (String.eqb (mule_version a) "unknown") eqn:E; [|exact Ha].
    apply String.eqb_eq in E.
    destruct (pom_plugin_version pom); [|exact Ha].
    cbn [is_legacy mule_version set_version]. rewrite Ha, E. reflexivity.
Qed.

Lemma analyze_project_flag (path : list string) (pf : project_files)
    (a : project_analysis) (out : list string) :
  analyze_project re_findall path pf = Some (a, out) ->
  legacy_flag_agrees a.
Proof.
  unfold analyze_project.
  pose proof (mule_version_flag
                (project_name (new_analysis path)) pf (new_analysis path)
                eq_refl) as H1.
  destruct (_analyze_mule_version _ pf (new_analysis path)) as [a1 o1].
  pose proof (configuration_files_version pf a1) as H2.
  destruct (_analyze_configuration_files re_findall pf a1) as [a2 o2].
  pose proof (custom_code_version pf a2) as H3.
  destruct (_analyze_custom_code pf a2) as [a3 o3].
  pose proof (tests_version pf a3) as H4.
  destruct (_analyze_tests pf a3) as [a4 o4].
  unfold _calculate_project_complexity.
  destruct (project_complexity a4) as [s|]; cbn [mbind option_bind];
    [|discriminate].
  intros [= <- _]. cbn [fst] in *.
  change (legacy_flag_agrees a4).
  assert (Hv : version_of a4 = version_of a1).
  { rewrite H4, H3, H2. reflexivity. }
  unfold version_of in Hv. injection Hv as Hm Hl.
  unfold legacy_flag_agrees in *. rewrite Hm, Hl. exact H1.
Qed.
End Version.

Lemma version_prefixes_exclusive (s : string) :
  PyStr.startswith s "4." = true -> PyStr.startswith s "3." = false.
Proof.
  destruct s as [|c s]; [discriminate|]. cbn [PyStr.startswith].
  intros H. apply andb_true_iff in H. destruct H as [H _].
  apply Ascii.eqb_eq in H. subst c. reflexivity.
Qed.

Lemma count_version_legacy (ps : list project_analysis) (a b c : Z) :
  snd (fst (fold_left count_version ps (a, b, c)))
  = b + len (List.filter
               (fun p => PyStr.startswith (mule_version p) "3.") ps).
Proof.
  revert a b c. induction ps as [|p ps IH]; intros a b c;
    cbn [fold_left List.filter].
  - change (len (@nil project_analysis)) with 0. cbn [fst snd]. lia.
  - unfold count_version at 2.
    destruct (PyStr.startswith (mule_version p) "4.") eqn:E4.
    + rewrite (version_prefixes_exclusive _ E4). apply IH.
    + destruct (PyStr.startswith (mule_version p) "3."); rewrite IH;
        [|reflexivity].
      unfold len. cbn [length]. lia.
Qed.

(** X17.  The legacy flag and the version buckets agree.  Every reported
    project is flagged as legacy exactly when its recorded version starts
    with [3.], whether the version comes from the [mule.version] property,
    from the Maven plugin (recorded as [plugin-...], never legacy) or is
    unknown; so the number of Mule 3.x projects in the summary is the number
    of projects flagged as legacy. *)
Theorem X17_legacy_flag_matches_version
    (re_findall : string -> string -> list string) (alg : sum_algorithm)
    (base_path : list string) (root : fs_node)
    (targets : option (list string)) (results : analysis_results)
    (out : list string) :
  analyze_repository_folder re_findall alg base_path root targets
  = Some (results, out) ->
  (forall p, In p (projects results) -> legacy_flag_agrees p)
  /\ Summary.mule_3_projects (summary results)
     = len (List.filter is_legacy (projects results)).
Proof.
  intros Hrun.
  assert (Hflag : forall p, In p (projects results) -> legacy_flag_agrees p).
  { intros p Hp.
    destruct (run_reports _ _ _ _ _ _ _ Hrun p Hp)
      as (path & item & _ & _ & _ & pf & a & o & name & source & _ & Ha & ->).
    exact (analyze_project_flag re_findall _ _ _ _ Ha). }
  split; [exact Hflag|].
  unfold analyze_repository_folder in Hrun.
  match type of Hrun with
  | (?w ≫= _) = _ => destruct w as [[r1 o1]|] eqn:Hwalk
  end; cbn in Hrun; [|discriminate].
  destruct (_calculate_summary_stats alg r1) as [r2|] eqn:Hsum; cbn in Hrun;
    [|discriminate].
  injection Hrun as <- <-.
  rewrite summary_stats_fields in Hsum.
  destruct (PySum.sum alg _) as [total|]; cbn [mbind option_bind] in Hsum;
    [|discriminate].
  injection Hsum as <-.
  cbn [summary projects Summary.mule_3_projects] in *.
  rewrite count_version_legacy. f_equal.
  assert (Hext : forall ps : list project_analysis,
            (forall p, In p ps -> legacy_flag_agrees p) ->
            List.filter (fun p => PyStr.startswith (mule_version p) "3.") ps
            = List.filter is_legacy ps).
  { intros ps H. apply List.filter_ext_in. intros p Hp.
    symmetry. exact (H p Hp). }
  rewrite (Hext _ Hflag). reflexivity.
Qed.

Lemma X17_legacy_flag_matches_version_witness :
  (forall p, In p (projects (results_of shop_tree)) -> legacy_flag_agrees p)
  /\ Summary.mule_3_projects (summary (results_of shop_tree))
     = len (List.filter is_legacy (projects (results_of shop_tree))).
Proof.
  apply (X17_legacy_flag_matches_version no_match LeftToRight
           ["repos"%string] shop_tree None (results_of shop_tree)
           (output_of shop_tree)).
  exact shop_run.
Defined.

(** ** The warnings of a project *)

Lemma failed_range {A : Type} (o : outcome A) : 0 <= failed o <= 1.
Proof. destruct o; cbn; lia. Qed.

Lemma sum_int_nonneg {A : Type} (g : A -> Z) (l : list A) :
  (forall x, 0 <= g x) -> 0 <= PySum.sum_int (map g l).
Proof.
  intros Hg. induction l as [|x l IH]; cbn [map].
  - change (PySum.sum_int []) with 0. lia.
  - rewrite sum_int_cons. specialize (Hg x). lia.
Qed.

Lemma sum_int_zero {A : Type} (g : A -> Z) (l : list A) :
  (forall x, 0 <= g x) ->
  PySum.sum_int (map g l) = 0 <-> Forall (fun x => g x = 0) l.
Proof.
  intros Hg. induction l as [|x l IH]; cbn [map].
  - split; [constructor|reflexivity].
  - rewrite sum_int_cons. pose proof (Hg x) as Hx.
    pose proof (sum_int_nonneg g l Hg) as Hl. split.
    + intros H. constructor; [lia|]. apply IH. lia.
    + intros H. inversion H as [|? ? H1 H2]; subst.
      apply IH in H2. lia.
Qed.

Section Warnings.
Variable re_findall : string -> string -> list string.

Lemma file_analysis_warnings (f : xml_file) :
  len (snd (_analyze_xml_file f))
  = Z.max (failed (xml_read f)) (failed (xml_parse f)).
Proof.
  unfold _analyze_xml_file.
  destruct (xml_read f) as [content|e]; destruct (xml_parse f) as [root|e'];
    try reflexivity.
  destruct (fold_left count_flow _ _). reflexivity.
Qed.

Lemma extract_warnings (f : xml_file) (a : project_analysis) :
  len (snd (_extract_connectors_from_xml f a)) = failed (xml_parse f).
Proof.
  unfold _extract_connectors_from_xml.
  destruct (xml_parse f) as [root|e]; [|reflexivity].
  destruct (fold_left _ (iter _) _). reflexivity.
Qed.

Lemma dataweave_warnings (f : xml_file) (a : project_analysis) :
  len (snd (_analyze_dataweave_in_xml re_findall f a)) = failed (xml_read f).
Proof.
  unfold _analyze_dataweave_in_xml.
  destruct (xml_read f) as [content|e]; [|reflexivity].
  destruct (fold_left _ dw_patterns _) as [[x y] z]. reflexivity.
Qed.

Lemma configuration_loop_warnings (fs : list xml_file)
    (st : project_analysis * list string) :
  len (snd (fold_left (analyze_configuration_file re_findall) fs st))
  = len (snd st) + PySum.sum_int (map file_warnings fs).
Proof.
  revert st. induction fs as [|f fs IH]; intros st; cbn [fold_left map].
  - change (PySum.sum_int []) with 0. lia.
  - rewrite IH, sum_int_cons, (step_output re_findall f st), !len_app.
    rewrite file_analysis_warnings, extract_warnings, dataweave_warnings.
    unfold file_warnings. lia.
Qed.

Lemma configuration_files_warnings (pf : project_files)
    (a : project_analysis) :
  len (snd (_analyze_configuration_files re_findall pf a))
  = PySum.sum_int (map file_warnings (mule_files pf)).
Proof.
  unfold _analyze_configuration_files, mule_files.
  destruct (pf_mule pf) as [fs|]; [|reflexivity].
  unfold analyze_configuration_files_loop.
  rewrite configuration_loop_warnings. reflexivity.
Qed.

Lemma mule_version_warnings (name : string) (pf : project_files)
    (a : project_analysis) :
  len (snd (_analyze_mule_version name pf a))
  = match pf_pom pf with Some pom => failed pom | None => 0 end.
Proof.
  unfold _analyze_mule_version. destruct (pf_pom pf) as [[pom|e]|]; reflexivity.
Qed.

Lemma read_java_warnings (fs : list java_file) (total : Z)
    (classes : list java_class) (out : list string) :
  len (snd (fold_left read_java_file fs (total, classes, out)))
  = len out + PySum.sum_int (map (fun f => failed (java_lines f)) fs).
Proof.
  revert total classes out.
  induction fs as [|f fs IH]; intros total classes out; cbn [fold_left map].
  - change (PySum.sum_int []) with 0. cbn [snd]. lia.
  - rewrite sum_int_cons. unfold read_java_file at 2.
    destruct (java_lines f); rewrite IH; cbn [failed]; [lia|].
    rewrite len_app. change (len [_]) with 1. lia.
Qed.

Lemma read_dwl_warnings (fs : list (string * outcome Z))
    (dw : dataweave_analysis_t) (out : list string) :
  len (snd (fold_left read_dwl_file fs (dw, out)))
  = len out + PySum.sum_int (map (fun f => failed (snd f)) fs).
Proof.
  revert dw out. induction fs as [|f fs IH]; intros dw out;
    cbn [fold_left map].
  - change (PySum.sum_int []) with 0. cbn [snd]. lia.
  - rewrite sum_int_cons. unfold read_dwl_file at 2.
    destruct (snd f); rewrite IH; cbn [failed]; [lia|].
    rewrite len_app. change (len [_]) with 1. lia.
Qed.

Lemma read_munit_warnings (fs : list (string * outcome Z)) (total : Z)
    (out : list string) :
  len (snd (fold_left read_munit_file fs (total, out)))
  = len out + PySum.sum_int (map (fun f => failed (snd f)) fs).
Proof.
  revert total out. induction fs as [|f fs IH]; intros total out;
    cbn [fold_left map].
  - change (PySum.sum_int []) with 0. cbn [snd]. lia.
  - rewrite sum_int_cons. unfold read_munit_file at 2.
    destruct (snd f); rewrite IH; cbn [failed]; [lia|].
    rewrite len_app. change (len [_]) with 1. lia.
Qed.

Lemma custom_code_warnings (pf : project_files) (a : project_analysis) :
  len (snd (_analyze_custom_code pf a))
  = PySum.sum_int (map (fun f => failed (java_lines f)) (java_files pf))
    + PySum.sum_int (map (fun f => failed (snd f)) (dwl_files pf)).
Proof.
  unfold _analyze_custom_code, java_files, dwl_files.
  destruct (pf_java pf) as [js|].
  - pose proof (read_java_warnings js 0 (java_classes (custom_code a)) [])
      as Hj.
    destruct (fold_left read_java_file js _) as [[total classes] out].
    cbn [snd] in Hj.
    destruct (pf_dwl pf) as [ds|].
    + match goal with
      | |- context [fold_left read_dwl_file ds ?s] =>
          pose proof (read_dwl_warnings ds (fst s) (snd s)) as Hd;
          cbn [fst snd] in Hd; destruct (fold_left read_dwl_file ds s)
      end.
      cbn [snd] in *. rewrite len_app, Hj, Hd.
      change (len (@nil string)) with 0. lia.
    + cbn [snd]. rewrite len_app, Hj.
      change (len (@nil string)) with 0. change (PySum.sum_int (map _ []))
        with 0. lia.
  - destruct (pf_dwl pf) as [ds|].
    + match goal with
      | |- context [fold_left read_dwl_file ds ?s] =>
          pose proof (read_dwl_warnings ds (fst s) (snd s)) as Hd;
          cbn [fst snd] in Hd; destruct (fold_left read_dwl_file ds s)
      end.
      cbn [snd app] in *. rewrite Hd. change (len (@nil string)) with 0.
      change (PySum.sum_int (map _ [])) with 0. lia.
    + reflexivity.
Qed.

Lemma tests_warnings (pf : project_files) (a : project_analysis) :
  len (snd (_analyze_tests pf a))
  = PySum.sum_int (map (fun f => failed (snd f)) (munit_files pf)).
Proof.
  unfold _analyze_tests, munit_files.
  destruct (pf_munit pf) as [ms|].
  - pose proof (read_munit_warnings ms 0 []) as Hm.
    destruct (fold_left read_munit_file ms (0, [])) as [total out].
    cbn [snd] in *. rewrite Hm. change (len (@nil string)) with 0. lia.
  - reflexivity.
Qed.
End Warnings.

(** X18.  Every failure is reported, and only failures are.  The lines that
    the analysis of a project prints are warnings: one when [pom.xml] does
    not parse; for a configuration file one from the file analysis when it
    cannot be read or parsed, one from the connector extraction when it
    cannot be parsed and one from the DataWeave scan when it cannot be read;
    and one for every Java, DataWeave or MUnit file that cannot be read or
    parsed.  So a project is analyzed in silence exactly when nothing
    failed. *)
Theorem X18_warnings_account_for_failures
    (re_findall : string -> string -> list string) (path : list string)
    (pf : project_files) (a : project_analysis) (out : list string) :
  analyze_project re_findall path pf = Some (a, out) ->
  len out = warnings_due pf /\ (out = [] <-> clean pf).
Proof.
  intros Ha.
  assert (Hlen : len out = warnings_due pf).
  { revert Ha. unfold analyze_project.
    pose proof (mule_version_warnings
                  (project_name (new_analysis path)) pf (new_analysis path))
      as H1.
    destruct (_analyze_mule_version _ pf (new_analysis path)) as [a1 o1].
    pose proof (configuration_files_warnings re_findall pf a1) as H2.
    destruct (_analyze_configuration_files re_findall pf a1) as [a2 o2].
    pose proof (custom_code_warnings pf a2) as H3.
    destruct (_analyze_custom_code pf a2) as [a3 o3].
    pose proof (tests_warnings pf a3) as H4.
    destruct (_analyze_tests pf a3) as [a4 o4].
    destruct (_calculate_project_complexity a4); cbn [mbind option_bind];
      [|discriminate].
    intros [= _ <-]. cbn [snd] in *. rewrite !len_app, H1, H2, H3, H4.
    unfold warnings_due. lia. }
  split; [exact Hlen|].
  assert (Hempty : out = [] <-> len out = 0).
  { destruct out; [split; reflexivity|]. split; [discriminate|].
    unfold len. cbn [length]. lia. }
  rewrite Hempty, Hlen. unfold warnings_due, clean.
  assert (Hfile : forall f, 0 <= file_warnings f).
  { intros f. unfold file_warnings.
    pose proof (failed_range (xml_read f)). pose proof (failed_range (xml_parse f)).
    lia. }
  pose proof (sum_int_nonneg file_warnings (mule_files pf) Hfile) as N1.
  pose proof (sum_int_nonneg (fun f => failed (java_lines f)) (java_files pf)
                (fun f => proj1 (failed_range (java_lines f)))) as N2.
  pose proof (sum_int_nonneg (fun f : string * outcome Z => failed (snd f))
                (dwl_files pf) (fun f => proj1 (failed_range (snd f)))) as N3.
  pose proof (sum_int_nonneg (fun f : string * outcome Z => failed (snd f))
                (munit_files pf) (fun f => proj1 (failed_range (snd f)))) as N4.
  pose proof (sum_int_zero file_warnings (mule_files pf) Hfile) as Z1.
  pose proof (sum_int_zero (fun f => failed (java_lines f)) (java_files pf)
                (fun f => proj1 (failed_range (java_lines f)))) as Z2.
  pose proof (sum_int_zero (fun f : string * outcome Z => failed (snd f))
                (dwl_files pf) (fun f => proj1 (failed_range (snd f)))) as Z3.
  pose proof (sum_int_zero (fun f : string * outcome Z => failed (snd f))
                (munit_files pf) (fun f => proj1 (failed_range (snd f)))) as Z4.
  assert (Hfiles : Forall (fun f => file_warnings f = 0) (mule_files pf)
                   <-> Forall (fun f => failed (xml_read f) = 0
                                        /\ failed (xml_parse f) = 0)
                         (mule_files pf)).
  { rewrite !List.Forall_forall. split; intros H f Hf; specialize (H f Hf);
      unfold file_warnings in *;
      pose proof (failed_range (xml_read f));
      pose proof (failed_range (xml_parse f)); lia. }
  assert (Hpom : 0 <= match pf_pom pf with
                      | Some pom => failed pom
                      | None => 0
                      end).
  { destruct (pf_pom pf) as [pom|]; [apply failed_range|lia]. }
  split.
  - intros H.
    split; [destruct (pf_pom pf); [lia|exact I]|].
    split; [apply Hfiles, Z1; lia|].
    split; [apply Z2; lia|]. split; [apply Z3; lia|apply Z4; lia].
  - intros (C0 & C1 & C2 & C3 & C4).
    apply Hfiles, Z1 in C1. apply Z2 in C2. apply Z3 in C3. apply Z4 in C4.
    destruct (pf_pom pf); lia.
Qed.

Lemma X18_warnings_account_for_failures_witness :
  len code_analysis_output = warnings_due code_project_files
  /\ (code_analysis_output = [] <-> clean code_project_files).
Proof.
  apply (X18_warnings_account_for_failures no_match ["repos"; "code"]%string
           code_project_files code_analysis code_analysis_output).
  vm_compute. reflexivity.
Defined.

(** ** Conversion of a count to a float *)

Lemma digits2_size (p : positive) : digits2_pos p = Pos.size p.
Proof. induction p as [p IH|p IH|]; cbn; rewrite ?IH; reflexivity. Qed.

Lemma digits2_lower (p : positive) :
  2 ^ (Z.pos (digits2_pos p) - 1) <= Z.pos p.
Proof.
  rewrite digits2_size. pose proof (Pos.size_le p) as H.
  assert (H2 : Z.pos (2 ^ Pos.size p) <= Z.pos p~0) by exact H.
  rewrite Pos2Z.inj_pow in H2.
  replace (Z.pos (Pos.size p)) with (Z.pos (Pos.size p) - 1 + 1) in H2 by lia.
  rewrite Z.pow_add_r in H2 by lia. lia.
Qed.

Lemma shr_1_div2 (mrs : shr_record) :
  0 <= shr_m mrs -> shr_m (shr_1 mrs) = shr_m mrs / 2.
Proof.
  destruct mrs as [m r s]. cbn [shr_m]. intros Hm.
  destruct m as [|[p|p|]|p]; cbn [shr_1 shr_m]; try reflexivity; try lia.
  - apply Z.div_unique with (r := 1); lia.
  - apply Z.div_unique with (r := 0); lia.
Qed.

Lemma iter_shr_1 (p : positive) :
  forall mrs,
    0 <= shr_m mrs ->
    shr_m (SpecFloat.iter_pos shr_1 p mrs) = shr_m mrs / 2 ^ Z.pos p.
Proof.
  assert (Hstep : forall mrs, 0 <= shr_m mrs -> 0 <= shr_m mrs / 2).
  { intros mrs H. apply Z.div_pos; lia. }
  induction p as [p IH|p IH|]; intros mrs Hm; cbn [SpecFloat.iter_pos].
  - pose proof (Hstep mrs Hm) as H1. rewrite <- shr_1_div2 in H1 by exact Hm.
    assert (H2 : 0 <= shr_m (SpecFloat.iter_pos shr_1 p (shr_1 mrs))).
    { rewrite IH by exact H1. apply Z.div_pos; lia. }
    rewrite IH by exact H2. rewrite IH by exact H1.
    rewrite shr_1_div2 by exact Hm.
    rewrite !Z.div_div by lia. f_equal.
    rewrite Pos2Z.inj_xI, <- !Z.pow_add_r by lia.
    change 2 with (2 ^ 1) at 1. rewrite <- Z.pow_add_r by lia. f_equal. lia.
  - assert (H2 : 0 <= shr_m (SpecFloat.iter_pos shr_1 p mrs)).
    { rewrite IH by exact Hm. apply Z.div_pos; lia. }
    rewrite IH by exact H2. rewrite IH by exact Hm.
    rewrite Z.div_div by lia. f_equal.
    rewrite Pos2Z.inj_xO, <- Z.pow_add_r by lia. f_equal. lia.
  - rewrite shr_1_div2 by exact Hm. reflexivity.
Qed.

(** Rounding a positive mantissa to the format leaves a positive
    mantissa. *)
Lemma shr_fexp_positive (p : positive) (e : Z) (l : location) :
  -1074 <= e ->
  0 < shr_m (fst (shr_fexp 53 1024 (Z.pos p) e l))
  /\ e <= snd (shr_fexp 53 1024 (Z.pos p) e l).
Proof.
  intros He. unfold shr_fexp, shr, fexp, emin. cbn [Zdigits2].
  pose proof (digits2_lower p) as Hd.
  assert (Hm : shr_m (shr_record_of_loc (Z.pos p) l) = Z.pos p).
  { destruct l as [|[| |]]; reflexivity. }
  destruct (Z.max (Z.pos (digits2_pos p) + e - 53) (3 - 1024 - 53) - e)
    as [|n|n] eqn:En; cbn [fst snd]; rewrite ?Hm; try lia.
  rewrite iter_shr_1 by (rewrite Hm; lia). rewrite Hm.
  split; [|lia].
  assert (Hn : Z.pos n <= Z.pos (digits2_pos p) - 1) by lia.
  apply Z.div_str_pos. split; [apply Z.pow_pos_nonneg; lia|].
  apply Z.le_trans with (2 ^ (Z.pos (digits2_pos p) - 1)); [|exact Hd].
  apply Z.pow_le_mono_r; lia.
Qed.

Lemma round_nearest_even_positive (m : Z) (l : location) :
  0 < m -> 0 < round_nearest_even m l.
Proof.
  intros H. destruct l as [|[| |]]; cbn [round_nearest_even]; try lia.
  destruct (Z.even m); lia.
Qed.

Lemma binary_round_aux_nonzero (s : bool) (p : positive) (e : Z)
    (l : location) :
  -1074 <= e ->
  PyFloat.is_zero (binary_round_aux 53 1024 s (Z.pos p) e l) = false.
Proof.
  intros He. unfold binary_round_aux.
  destruct (shr_fexp_positive p e l He) as [H1 H2].
  destruct (shr_fexp 53 1024 (Z.pos p) e l) as [mrs1 e1]. cbn [fst snd] in *.
  pose proof (round_nearest_even_positive (shr_m mrs1)
                (loc_of_shr_record mrs1) H1) as H3.
  destruct (round_nearest_even (shr_m mrs1) (loc_of_shr_record mrs1))
    as [|q|q]; try lia.
  destruct (shr_fexp_positive q e1 loc_Exact ltac:(lia)) as [H4 H5].
  destruct (shr_fexp 53 1024 (Z.pos q) e1 loc_Exact) as [mrs2 e2].
  cbn [fst snd] in *.
  destruct (shr_m mrs2) as [|m|m]; try lia.
  destruct (e2 <=? 1024 - 53); reflexivity.
Qed.

(** The float of a positive count is not a zero. *)
Lemma of_int_nonzero (n : Z) (f : float) :
  0 < n -> PyFloat.of_int n = Some f -> PyFloat.is_zero f = false.
Proof.
  intros Hn. unfold PyFloat.of_int, PyFloat.nearest.
  destruct n as [|p|p]; try lia.
  assert (Hz : PyFloat.is_zero
                 (binary_normalize PyFloat.prec PyFloat.emax (Z.pos p) 0 false)
               = false).
  { unfold binary_normalize, binary_round, shl_align, PyFloat.prec,
      PyFloat.emax, fexp, emin.
    destruct (Z.max (Z.pos (digits2_pos p) + 0 - 53) (3 - 1024 - 53) - 0)
      as [|d|d] eqn:Ed; apply binary_round_aux_nonzero; lia. }
  destruct (binary_normalize _ _ _ _ _); intros [= <-]; try exact Hz.
Qed.

(** ** The comprehensive index *)

Lemma count_if_filter {A : Type} (test : A -> bool) (xs : list A) :
  count_if test xs = len (List.filter test xs).
Proof.
  unfold count_if. induction (List.filter test xs) as [|x l IH].
  - reflexivity.
  - cbn [map]. rewrite sum_int_cons, IH. unfold len. cbn [length]. lia.
Qed.

Lemma count_version_fourth (ps : list project_analysis) (a b c : Z) :
  fst (fst (fold_left count_version ps (a, b, c)))
  = a + len (List.filter
               (fun p => PyStr.startswith (mule_version p) "4.") ps).
Proof.
  revert a b c. induction ps as [|p ps IH]; intros a b c;
    cbn [fold_left List.filter].
  - change (len (@nil project_analysis)) with 0. cbn [fst]. lia.
  - unfold count_version at 2.
    destruct (PyStr.startswith (mule_version p) "4.").
    + rewrite IH. unfold len. cbn [length]. lia.
    + destruct (PyStr.startswith (mule_version p) "3."); apply IH.
Qed.

Lemma count_if_positive {A : Type} (g : A -> Z) (xs : list A) :
  (forall x, In x xs -> 0 <= g x) ->
  0 < PySum.sum_int (map g xs) ->
  0 < count_if (fun x => 0 <? g x) xs.
Proof.
  rewrite count_if_filter. induction xs as [|x xs IH]; intros Hg Hsum.
  - change (PySum.sum_int (map g [])) with 0 in Hsum. lia.
  - cbn [map List.filter] in *. rewrite sum_int_cons in Hsum.
    destruct (0 <? g x) eqn:E.
    + unfold len. cbn [length]. lia.
    + apply Z.ltb_ge in E. pose proof (Hg x (or_introl eq_refl)).
      apply IH; [intros y Hy; apply Hg; right; exact Hy|lia].
Qed.

Lemma run_scored (re_findall : string -> string -> list string)
    (alg : sum_algorithm) (base_path : list string) (root : fs_node)
    (targets : option (list string)) (results : analysis_results)
    (out : list string) :
  analyze_repository_folder re_findall alg base_path root targets
  = Some (results, out) ->
  Forall scored (projects results)
  /\ Forall (fun p => 0 <= java_files_count (custom_code p)) (projects results).
Proof.
  intros Hrun. rewrite !List.Forall_forall. split; intros p Hp;
    destruct (run_reports _ _ _ _ _ _ _ Hrun p Hp)
      as (path & item & _ & _ & _ & pf & a & o & name & source & _ & Ha & ->).
  - destruct (analyze_project_scored _ _ _ _ _ Ha) as [s Hs].
    exists s. exact Hs.
  - change (0 <= java_files_count (custom_code a)).
    destruct (analyze_project_code_and_tests _ _ _ _ _ Ha) as (H & _).
    rewrite H. apply len_nonneg.
Qed.

Lemma run_summary (re_findall : string -> string -> list string)
    (alg : sum_algorithm) (base_path : list string) (root : fs_node)
    (targets : option (list string)) (results : analysis_results)
    (out : list string) :
  analyze_repository_folder re_findall alg base_path root targets
  = Some (results, out) ->
  _calculate_summary_stats alg results = Some results.
Proof.
  unfold analyze_repository_folder. intros Hrun.
  match type of Hrun with
  | (?w ≫= _) = _ => destruct w as [[r1 o1]|] eqn:Hwalk
  end; cbn in Hrun; [|discriminate].
  destruct (_calculate_summary_stats alg r1) as [r2|] eqn:Hsum; cbn in Hrun;
    [|discriminate].
  injection Hrun as <- <-.
  pose proof (summary_stats_projects alg r1 r2 Hsum) as Hp.
  rewrite summary_stats_fields in Hsum |- *. rewrite Hp.
  destruct (PySum.sum alg _) as [total|]; cbn [mbind option_bind] in Hsum |- *;
    [|discriminate].
  injection Hsum as <-. reflexivity.
Qed.

Lemma empty_run :
  run_of empty_tree = Some (results_of empty_tree, output_of empty_tree).
Proof. vm_compute. reflexivity. Qed.

(** The counts and sums of an index that is produced. *)
Lemma index_counts (alg : sum_algorithm) (r : analysis_results)
    (s : index_statistics) :
  _generate_comprehensive_index alg r = Ok s ->
  let ps := projects r in
  index_mule_4_count s
  = count_if (fun p => PyStr.startswith (mule_version p) "4.") ps
  /\ index_mule_3_count s
     = count_if (fun p => PyStr.startswith (mule_version p) "3.") ps
  /\ index_unknown_count s
     = len ps - index_mule_4_count s - index_mule_3_count s
  /\ index_total_flows s
     = PySum.sum_int (map (fun p => total_flows (flows_and_subflows p)) ps)
  /\ index_total_subflows s
     = PySum.sum_int (map (fun p => total_subflows (flows_and_subflows p)) ps)
  /\ index_total_components s
     = PySum.sum_int
         (map (fun p => total_components (connectors_and_components p)) ps)
  /\ index_total_java_files s
     = PySum.sum_int (map (fun p => java_files_count (custom_code p)) ps)
  /\ index_total_dwl_files s
     = PySum.sum_int (map (fun p => dwl_files_count (dataweave_analysis p)) ps)
  /\ index_total_munit_tests s
     = PySum.sum_int (map (fun p => munit_test_files (testing p)) ps).
Proof.
  unfold _generate_comprehensive_index.
  destruct (PySum.sum alg _) as [total|]; [|discriminate].
  destruct (PyDiv.truediv total _) as [average|e]; [|discriminate].
  destruct (0 <? _).
  - destruct (PyDiv.truediv _ _); [|discriminate].
    intros [= <-]. repeat split; reflexivity.
  - intros [= <-]. repeat split; reflexivity.
Qed.

(** X19.  The two text reports show the same figures.  Whenever the
    comprehensive index of a run is produced, the version distribution that
    it recomputes from the projects (the unknown versions as what is left of
    the number of projects) and its totals of flows, sub-flows, components,
    Java files, DataWeave files and MUnit files are the values that the
    aggregator has stored in the summary, which the summary report prints. *)
Theorem X19_index_agrees_with_summary
    (re_findall : string -> string -> list string) (alg : sum_algorithm)
    (base_path : list string) (root : fs_node)
    (targets : option (list string)) (results : analysis_results)
    (out : list string) (s : index_statistics) :
  analyze_repository_folder re_findall alg base_path root targets
  = Some (results, out) ->
  _generate_comprehensive_index alg results = Ok s ->
  index_mule_4_count s = Summary.mule_4_projects (summary results)
  /\ index_mule_3_count s = Summary.mule_3_projects (summary results)
  /\ index_unknown_count s
     = Summary.unknown_version_projects (summary results)
  /\ index_total_flows s = Summary.total_flows (summary results)
  /\ index_total_subflows s = Summary.total_subflows (summary results)
  /\ index_total_components s = Summary.total_components (summary results)
  /\ index_total_java_files s = Summary.total_java_files (summary results)
  /\ index_total_dwl_files s = Summary.total_dwl_files (summary results)
  /\ index_total_munit_tests s = Summary.total_munit_tests (summary results).
Proof.
  intros Hrun Hindex. pose proof (run_summary _ _ _ _ _ _ _ Hrun) as Hsum.
  rewrite summary_stats_fields in Hsum.
  destruct (PySum.sum alg _) as [total|] eqn:Htotal;
    cbn [mbind option_bind] in Hsum; [|discriminate].
  injection Hsum as Hsum.
  pose proof (count_version_total (projects results) 0 0 0) as Hall.
  pose proof (count_version_fourth (projects results) 0 0 0) as H4.
  pose proof (count_version_legacy (projects results) 0 0 0) as H3.
  destruct (fold_left count_version (projects results) (0, 0, 0))
    as [[m4 m3] u].
  cbn [fst snd] in *.
  destruct (index_counts alg results s Hindex)
    as (I4 & I3 & Iu & If & Is & Ic & Ij & Id & Im).
  cbv zeta in *. rewrite !count_if_filter in *.
  pose proof (f_equal summary Hsum) as Hs. cbn [summary] in Hs.
  rewrite <- Hs. cbn [Summary.mule_4_projects
    Summary.mule_3_projects Summary.unknown_version_projects
    Summary.total_flows Summary.total_subflows Summary.total_components
    Summary.total_java_files Summary.total_dwl_files
    Summary.total_munit_tests].
  repeat split; try assumption; lia.
Qed.

Lemma X19_index_agrees_with_summary_witness :
  exists s,
    shop_index = Ok s
    /\ index_mule_4_count s
       = Summary.mule_4_projects (summary (results_of shop_tree))
    /\ index_mule_3_count s
       = Summary.mule_3_projects (summary (results_of shop_tree))
    /\ index_unknown_count s
       = Summary.unknown_version_projects (summary (results_of shop_tree))
    /\ index_total_flows s
       = Summary.total_flows (summary (results_of shop_tree))
    /\ index_total_subflows s
       = Summary.total_subflows (summary (results_of shop_tree))
    /\ index_total_components s
       = Summary.total_components (summary (results_of shop_tree))
    /\ index_total_java_files s
       = Summary.total_java_files (summary (results_of shop_tree))
    /\ index_total_dwl_files s
       = Summary.total_dwl_files (summary (results_of shop_tree))
    /\ index_total_munit_tests s
       = Summary.total_munit_tests (summary (results_of shop_tree)).
Proof.
  destruct shop_index as [s|e] eqn:E; [|vm_compute in E; discriminate].
  exists s. split; [reflexivity|].
  apply (X19_index_agrees_with_summary no_match LeftToRight ["repos"%string]
           shop_tree None (results_of shop_tree) (output_of shop_tree) s).
  - exact shop_run.
  - exact E.
Defined.

(** X20.  The comprehensive index divides by the number of projects.  After
    a run that found no project, [_generate_comprehensive_index] raises
    [ZeroDivisionError] at the average complexity: the sum of no score is the
    integer 0, divided by 0.  After a run that found a project it never
    raises [ZeroDivisionError]: the number of projects is positive, and the
    average number of Java lines is taken only when some project has Java
    files. *)
Theorem X20_index_divides_by_the_number_of_projects
    (re_findall : string -> string -> list string) (alg : sum_algorithm)
    (base_path : list string) (root : fs_node)
    (targets : option (list string)) (results : analysis_results)
    (out : list string) :
  analyze_repository_folder re_findall alg base_path root targets
  = Some (results, out) ->
  (projects results = [] ->
   _generate_comprehensive_index alg results = Raise ZeroDivisionError)
  /\ (projects results <> [] ->
      _generate_comprehensive_index alg results <> Raise ZeroDivisionError).
Proof.
  intros Hrun. split.
  - intros Hnone. unfold _generate_comprehensive_index. rewrite Hnone.
    reflexivity.
  - intros Hsome. destruct (run_scored _ _ _ _ _ _ _ Hrun) as [Hscored Hjava].
    assert (Hfloats :
              Forall (fun n => exists s, n = PyFloat s)
                (map (fun p => complexity_score (connectors_and_components p))
                   (projects results))).
    { clear -Hscored. induction Hscored as [|p ps Hp _ IH]; cbn; constructor;
        auto. }
    pose proof (sum_of_scores alg _ Hfloats) as Hsum.
    unfold _generate_comprehensive_index.
    assert (Hlen : 0 < len (projects results)).
    { destruct (projects results); [contradiction|].
      unfold len. cbn [length]. lia. }
    destruct (map _ (projects results)) as [|x xs] eqn:Hmap.
    { destruct (projects results); [contradiction|discriminate]. }
    destruct Hsum as [f ->].
    unfold PyDiv.truediv at 1. cbn [PyNum.to_float].
    destruct (PyFloat.of_int (len (projects results))) as [d|] eqn:Hd;
      [|discriminate].
    rewrite (of_int_nonzero _ d Hlen Hd).
    destruct (0 <? _) eqn:Hfiles; [|discriminate].
    apply Z.ltb_lt in Hfiles.
    assert (Hcount :
              0 < count_if (fun p => 0 <? java_files_count (custom_code p))
                    (projects results)).
    { apply (count_if_positive (fun p => java_files_count (custom_code p)));
        [|exact Hfiles].
      rewrite List.Forall_forall in Hjava. exact Hjava. }
    unfold PyDiv.truediv.
    destruct (count_if _ (projects results) =? 0) eqn:E;
      [apply Z.eqb_eq in E; lia|].
    destruct (PyFloat.div _ _); discriminate.
Qed.

Lemma X20_index_divides_by_the_number_of_projects_witness :
  (projects (results_of empty_tree) = [] ->
   _generate_comprehensive_index LeftToRight (results_of empty_tree)
   = Raise ZeroDivisionError)
  /\ (projects (results_of empty_tree) <> [] ->
      _generate_comprehensive_index LeftToRight (results_of empty_tree)
      <> Raise ZeroDivisionError).
Proof.
  apply (X20_index_divides_by_the_number_of_projects no_match LeftToRight
           ["repos"%string] empty_tree None (results_of empty_tree)
           (output_of empty_tree)).
  exact empty_run.
Defined.

(** ** The JSON files *)

Lemma string_length_app (a b : string) :
  String.length (a +:+ b) = (String.length a + String.length b)%nat.
Proof.
  induction a as [|c a IH]; [reflexivity|].
  change (S (String.length (a +:+ b))
          = S (String.length a + String.length b)).
  f_equal. exact IH.
Qed.

Lemma string_app_inv_tail (a b t : string) : a +:+ t = b +:+ t -> a = b.
Proof.
  revert b. induction a as [|c a IH]; intros b H.
  - destruct b as [|c' b]; [reflexivity|].
    apply (f_equal String.length) in H.
    rewrite (string_length_app (String c' b) t) in H.
    change ("" +:+ t) with t in H. cbn [String.length] in H. lia.
  - destruct b as [|c' b].
    + apply (f_equal String.length) in H.
      rewrite (string_length_app (String c a) t) in H.
      change ("" +:+ t) with t in H. cbn [String.length] in H. lia.
    + change (String c (a +:+ t) = String c' (b +:+ t)) in H.
      injection H as -> H. f_equal. exact (IH b H).
Qed.

Lemma keys_set_keeps {V : Type} (k k' : string) (v : V) (d : dict V) :
  In k' (Dict.keys d) -> In k' (Dict.keys (Dict.set k v d)).
Proof.
  unfold Dict.keys. induction d as [|[k0 v0] d IH]; cbn; [intros []|].
  destruct (String.eqb k k0); cbn; intros [H|H]; auto.
Qed.

Lemma keys_set_has {V : Type} (k : string) (v : V) (d : dict V) :
  In k (Dict.keys (Dict.set k v d)).
Proof.
  unfold Dict.keys. induction d as [|[k0 v0] d IH]; cbn; [auto|].
  destruct (String.eqb k k0) eqn:E; cbn; [|auto].
  apply String.eqb_eq in E. auto.
Qed.

Section ProjectFiles.
Let write (files : dict json_file) (project : project_analysis) :=
  Dict.set (project_file_name project)
    (ProjectReport (project_report_of project)) files.

Lemma written_file (k : string) (ps : list project_analysis)
    (files : dict json_file) :
  Dict.get k (fold_left write ps files)
  = match List.find (fun p => String.eqb (project_file_name p) k) (rev ps) with
    | Some p => Some (ProjectReport (project_report_of p))
    | None => Dict.get k files
    end.
Proof.
  revert files. induction ps as [|p ps IH]; intros files;
    cbn [fold_left rev]; [reflexivity|].
  rewrite IH, find_snoc. destruct (List.find _ (rev ps)); [reflexivity|].
  unfold write at 1. destruct (String.eqb (project_file_name p) k) eqn:E.
  - apply String.eqb_eq in E. subst k. apply get_set_eq.
  - apply String.eqb_neq in E. apply get_set_ne. exact E.
Qed.

Lemma written_keys (ps : list project_analysis) (files : dict json_file) :
  List.NoDup (Dict.keys files) ->
  List.NoDup (Dict.keys (fold_left write ps files))
  /\ incl (Dict.keys (fold_left write ps files))
       (Dict.keys files ++ map project_file_name ps)
  /\ incl (Dict.keys files ++ map project_file_name ps)
       (Dict.keys (fold_left write ps files)).
Proof.
  revert files. induction ps as [|p ps IH]; intros files Hk;
    cbn [fold_left map].
  - rewrite app_nil_r. split; [exact Hk|]. split; apply incl_refl.
  - destruct (IH (write files p) (keys_set_NoDup _ _ _ Hk))
      as (H1 & H2 & H3).
    split; [exact H1|]. split.
    + intros k Hin. apply H2 in Hin. apply in_app_or in Hin.
      apply in_or_app. destruct Hin as [Hin|Hin].
      * unfold write in Hin. apply keys_set_in in Hin.
        destruct Hin as [->|Hin]; [right; left; reflexivity|left; exact Hin].
      * right. right. exact Hin.
    + intros k Hin. apply H3. apply in_app_or in Hin.
      apply in_or_app. destruct Hin as [Hin|[<-|Hin]].
      * left. apply keys_set_keeps. exact Hin.
      * left. apply keys_set_has.
      * right. exact Hin.
Qed.
End ProjectFiles.

Lemma project_file_names_NoDup (ps : list project_analysis) :
  List.NoDup (map project_file_name ps) <-> List.NoDup (map project_name ps).
Proof.
  induction ps as [|p ps IH]; cbn [map]; [split; constructor|].
  assert (Hin : In (project_file_name p) (map project_file_name ps)
                <-> In (project_name p) (map project_name ps)).
  { rewrite !in_map_iff. split; intros (q & Hq & Hin); exists q;
      (split; [|exact Hin]).
    - exact (string_app_inv_tail _ _ _ Hq).
    - unfold project_file_name. rewrite Hq. reflexivity. }
  split; intros H; inversion H as [|? ? Hnotin Hrest]; subst;
    constructor; try (apply IH; exact Hrest); intros Hc; apply Hnotin;
    apply Hin; exact Hc.
Qed.

(** X21.  The individual project files are keyed by the bare project name.
    After [generate_report] with individual files, on an output directory
    without JSON files, the file [<name>_analysis.json] holds the report of
    the last project whose directory is called [name], whatever folder it
    lies in, so that projects of the same name overwrite one another; the
    summary file [mulesoft_analysis_analysis.json] holds the summary unless a
    project is called [mulesoft_analysis], whose report then replaces it.
    The directory holds at most one JSON file per project besides the
    summary, exactly that many when the names are pairwise distinct and none
    is [mulesoft_analysis], and fewer when two projects share a name.  This
    is so whether or not the index generation that follows raises. *)
Theorem X21_project_files_are_keyed_by_name (alg : sum_algorithm)
    (r : analysis_results) :
  let files := fst (generate_report alg true r []) in
  let names := map project_name (projects r) in
  (forall name,
     Dict.get (name +:+ "_analysis.json") files
     = match last_project_named name (projects r) with
       | Some p => Some (ProjectReport (project_report_of p))
       | None =>
           if String.eqb name "mulesoft_analysis"
           then Some (SummaryWithList (summary r)
                        (map project_row_of (projects r)))
           else None
       end)
  /\ len files <= 1 + len (projects r)
  /\ (List.NoDup names -> ~ In "mulesoft_analysis"%string names ->
      len files = 1 + len (projects r))
  /\ (~ List.NoDup names -> len files < 1 + len (projects r)).
Proof.
  cbv zeta.
  set (main := SummaryWithList (summary r) (map project_row_of (projects r))).
  set (write := fun (files : dict json_file) (project : project_analysis) =>
                  Dict.set (project_file_name project)
                    (ProjectReport (project_report_of project)) files).
  assert (Hfiles : fst (generate_report alg true r [])
                   = fold_left write (projects r) [(main_json_file, main)]).
  { unfold generate_report, _generate_individual_project_files.
    destruct (_generate_comprehensive_index alg r); reflexivity. }
  rewrite Hfiles. clear Hfiles.
  destruct (written_keys (projects r) [(main_json_file, main)])
    as (Hnodup & Hsub & Hsup).
  { constructor; [intros []|constructor]. }
  fold write in Hnodup, Hsub, Hsup.
  cbn [Dict.keys map fst app] in Hsub, Hsup.
  assert (Hlen : forall d : dict json_file,
            len d = Z.of_nat (length (Dict.keys d))).
  { intros d. unfold len, Dict.keys. rewrite length_map. reflexivity. }
  split; [|split; [|split]].
  - intros name. rewrite (written_file (name +:+ "_analysis.json")).
    fold write. unfold last_project_named.
    assert (Hext : forall l : list project_analysis,
              List.find
                (fun p => String.eqb (project_file_name p)
                            (name +:+ "_analysis.json")) l
              = List.find (fun p => String.eqb (project_name p) name) l).
    { induction l as [|p l IH]; cbn [List.find]; [reflexivity|].
      rewrite IH.
      destruct (String.eqb (project_name p) name) eqn:E.
      - apply String.eqb_eq in E. unfold project_file_name. rewrite E.
        rewrite String.eqb_refl. reflexivity.
      - destruct (String.eqb (project_file_name p) _) eqn:E'; [|reflexivity].
        apply String.eqb_eq in E'. apply string_app_inv_tail in E'.
        apply String.eqb_neq in E. contradiction. }
    rewrite Hext. destruct (List.find _ (rev (projects r))); [reflexivity|].
    cbn [Dict.get].
    destruct (String.eqb name "mulesoft_analysis") eqn:E.
    + apply String.eqb_eq in E. subst name. reflexivity.
    + destruct (String.eqb (name +:+ "_analysis.json") main_json_file) eqn:E';
        [|reflexivity].
      apply String.eqb_eq in E'.
      change main_json_file
        with ("mulesoft_analysis" +:+ "_analysis.json")%string in E'.
      apply string_app_inv_tail in E'. apply String.eqb_neq in E.
      contradiction.
  - rewrite Hlen. pose proof (NoDup_incl_length Hnodup Hsub) as H.
    cbn [length] in H. rewrite length_map in H. unfold len. lia.
  - intros Hnames Hmain. rewrite Hlen.
    assert (Hall : List.NoDup (main_json_file
                                 :: map project_file_name (projects r))).
    { constructor; [|apply project_file_names_NoDup; exact Hnames].
      intros Hin. apply Hmain. apply in_map_iff in Hin.
      destruct Hin as (p & Hp & Hin). apply in_map_iff. exists p.
      split; [|exact Hin].
      change main_json_file
        with ("mulesoft_analysis" +:+ "_analysis.json")%string in Hp.
      exact (string_app_inv_tail _ _ _ Hp). }
    pose proof (NoDup_incl_length Hnodup Hsub) as H1.
    pose proof (NoDup_incl_length Hall Hsup) as H2.
    cbn [length] in H1, H2. rewrite length_map in H1, H2. unfold len. lia.
  - intros Hnames. rewrite Hlen.
    pose proof (NoDup_incl_length Hnodup Hsub) as H1.
    cbn [length] in H1. rewrite length_map in H1.
    assert (Hne : length (Dict.keys (fold_left write (projects r)
                                       [(main_json_file, main)]))
                  <> S (length (projects r))).
    { intros Heq. apply Hnames. apply project_file_names_NoDup.
      assert (Hall : List.NoDup (main_json_file
                                   :: map project_file_name (projects r))).
      { apply (NoDup_incl_NoDup Hnodup); [|exact Hsub].
        cbn [length]. rewrite length_map. lia. }
      inversion Hall; assumption. }
    unfold len. lia.
Qed.

(** ** The tag tables of the comprehensive index *)

(** A loop whose rounds add to a measure adds the sum of what they add. *)
Lemma fold_left_measure {S A : Type} (mu : S -> Z) (w : A -> Z)
    (f : S -> A -> S) :
  (forall s a, mu (f s a) = mu s + w a) ->
  forall l s, mu (fold_left f l s) = mu s + PySum.sum_int (map w l).
Proof.
  intros Hf. induction l as [|a l IH]; intros s; cbn [fold_left map].
  - change (PySum.sum_int []) with 0. lia.
  - rewrite IH, Hf, sum_int_cons. lia.
Qed.

Lemma total_sum_int (d : dict Z) : Dict.total d = PySum.sum_int (map snd d).
Proof.
  unfold Dict.total, Dict.values. induction d as [|[k n] d IH]; [reflexivity|].
  cbn [map fold_right snd]. rewrite sum_int_cons, IH. reflexivity.
Qed.

Lemma tally_total_sum_int (tags : dict (dict Z)) :
  tally_total tags
  = PySum.sum_int (map (fun entry => Dict.total (snd entry)) tags).
Proof.
  unfold tally_total. induction tags as [|e tags IH]; [reflexivity|].
  cbn [map fold_right]. rewrite sum_int_cons, IH. reflexivity.
Qed.

Lemma over_tag_tallies_measure {S : Type} (mu : S -> Z)
    (body : S -> string * dict Z -> S) :
  (forall s entry, mu (body s entry) = mu s + Dict.total (snd entry)) ->
  forall ps s,
    mu (over_tag_tallies body ps s)
    = mu s
      + PySum.sum_int
          (map (fun p =>
                  PySum.sum_int
                    (map (fun e => tally_total (entry_tags e))
                       (files (configuration_files p))))
             ps).
Proof.
  intros Hbody ps s. unfold over_tag_tallies.
  apply (fold_left_measure mu
           (fun p => PySum.sum_int
                       (map (fun e => tally_total (entry_tags e))
                          (files (configuration_files p))))).
  clear s. intros s p.
  apply (fold_left_measure mu (fun e => tally_total (entry_tags e))).
  clear s. intros s e. rewrite tally_total_sum_int.
  apply (fold_left_measure mu (fun entry => Dict.total (snd entry))).
  exact Hbody.
Qed.

Lemma count_namespace_all_tags (acc : dict Z * dict (dict Z))
    (entry : string * dict Z) :
  Dict.total (fst (count_namespace acc entry))
  = Dict.total (fst acc) + Dict.total (snd entry).
Proof.
  destruct acc as [tags ns], entry as [namespace counts].
  unfold count_namespace. cbn [fst snd]. rewrite (total_sum_int counts).
  apply (fold_left_measure (fun acc => Dict.total (fst acc)) snd).
  intros [t n] [tag count]. cbn [count_tag fst snd]. apply total_add.
Qed.

Lemma count_namespace_by_namespace (acc : dict Z * dict (dict Z))
    (entry : string * dict Z) :
  tally_total (snd (count_namespace acc entry))
  = tally_total (snd acc) + Dict.total (snd entry).
Proof.
  destruct acc as [tags ns], entry as [namespace counts].
  unfold count_namespace. cbn [fst snd].
  rewrite (fold_left_measure (fun acc => tally_total (snd acc)) snd).
  - cbn [snd]. rewrite <- total_sum_int. f_equal.
    unfold Dict.mem, dict in *.
    destruct (Dict.get namespace ns) eqn:E; [reflexivity|].
    rewrite tally_total_set. unfold Dict.get_or, dict in *. rewrite E.
    change (Dict.total []) with 0. rewrite Z.sub_0_r, Z.add_0_r. reflexivity.
  - intros [t n] [tag count]. cbn [count_tag fst snd].
    rewrite tally_total_set, total_add. unfold dict in *. lia.
Qed.

Lemma sort_namespace_total (acc : dict Z * dict Z)
    (entry : string * dict Z) :
  Dict.total (fst (sort_namespace acc entry))
  + Dict.total (snd (sort_namespace acc entry))
  = Dict.total (fst acc) + Dict.total (snd acc) + Dict.total (snd entry).
Proof.
  unfold sort_namespace. rewrite (total_sum_int (snd entry)).
  apply (fold_left_measure
           (fun acc => Dict.total (fst acc) + Dict.total (snd acc)) snd).
  intros [c x] [tag count]. unfold sort_tag.
  destruct (is_excluded (fst entry)); cbn [fst snd]; rewrite total_add; lia.
Qed.

(** The tag usages that the tables of the index hold. *)
Lemma tag_tables_totals (r : analysis_results) :
  let usages :=
    PySum.sum_int
      (map (fun p =>
              PySum.sum_int
                (map (fun e => tally_total (entry_tags e))
                   (files (configuration_files p))))
         (projects r)) in
  Dict.total (all_tags (index_tag_tables r)) = usages
  /\ tally_total (all_namespace_tags (index_tag_tables r)) = usages
  /\ Dict.total (connector_tags (index_tag_tables r))
     + Dict.total (excluded_tags (index_tag_tables r)) = usages.
Proof.
  cbv zeta. unfold index_tag_tables.
  pose proof (over_tag_tallies_measure (fun acc => Dict.total (fst acc))
                count_namespace count_namespace_all_tags (projects r) ([], []))
    as H1.
  pose proof (over_tag_tallies_measure (fun acc => tally_total (snd acc))
                count_namespace count_namespace_by_namespace (projects r)
                ([], [])) as H2.
  pose proof (over_tag_tallies_measure
                (fun acc => Dict.total (fst acc) + Dict.total (snd acc))
                sort_namespace sort_namespace_total (projects r) ([], []))
    as H3.
  destruct (over_tag_tallies count_namespace (projects r) ([], []))
    as [tags ns].
  destruct (over_tag_tallies sort_namespace (projects r) ([], []))
    as [conn excl].
  cbn [fst snd all_tags all_namespace_tags connector_tags excluded_tags] in *.
  change (Dict.total []) with 0 in *. change (tally_total []) with 0 in *.
  repeat split; lia.
Qed.

(** The tally of the entry of a file holds its components and, when the
    document was tallied, its root. *)
Lemma file_entry_tally (f : xml_file) :
  tally_total (entry_tags (file_entry f))
  = entry_components (file_entry f)
    + match entry_tags (file_entry f) with [] => 0 | _ :: _ => 1 end.
Proof.
  unfold file_entry. cbn [entry_tags entry_components].
  destruct (xml_read f) as [content|e] eqn:Hread.
  - destruct (xml_parse f) as [root|e] eqn:Hparse.
    + rewrite (analyze_parsed f content root Hread Hparse).
      cbn [xml_tags_by_namespace components].
      pose proof (tally_loop (namespace_mappings root) (iter root) []) as Ht.
      change (tally_total []) with 0 in Ht.
      pose proof (len_iter root) as Hl. pose proof (element_count_pos root).
      destruct (fold_left (tally (namespace_mappings root)) (iter root) [])
        as [|x l] eqn:E.
      * change (tally_total []) with 0 in Ht. lia.
      * lia.
    + unfold _analyze_xml_file. rewrite Hread, Hparse. reflexivity.
  - unfold _analyze_xml_file. rewrite Hread. reflexivity.
Qed.

Lemma analyze_project_tag_usages
    (re_findall : string -> string -> list string) (path : list string)
    (pf : project_files) (a : project_analysis) (out : list string) :
  analyze_project re_findall path pf = Some (a, out) ->
  PySum.sum_int
    (map (fun e => tally_total (entry_tags e)) (files (configuration_files a)))
  = total_components (connectors_and_components a) + tallied_files a.
Proof.
  intros Ha.
  destruct (analyze_project_accounts _ _ _ _ _ Ha) as (Hf & _ & _ & _ & Hc & _).
  cbv zeta in Hf, Hc. rewrite Hc. unfold tallied_files.
  rewrite count_if_filter, Hf. generalize (mule_files pf). intros fs.
  induction fs as [|f fs IH]; cbn [map List.filter].
  - reflexivity.
  - rewrite !sum_int_cons, IH, file_entry_tally.
    destruct (entry_tags (file_entry f)); unfold len; cbn [length]; lia.
Qed.

(** X22.  The tag section of the comprehensive index accounts for every
    element.  For the results of a run, the usages in [all_tags], the usages
    in [all_namespace_tags], and the usages in [connector_tags] and
    [excluded_tags] together, all add up to the same number: the total number
    of components of the summary plus one for every configuration file whose
    document was tallied (its root element).  Whether a namespace counts as
    excluded, and the name under which a tag is listed, change the table in
    which a usage lands, never the total. *)
Theorem X22_tag_tables_account_for_every_element
    (re_findall : string -> string -> list string) (alg : sum_algorithm)
    (base_path : list string) (root : fs_node)
    (targets : option (list string)) (results : analysis_results)
    (out : list string) :
  analyze_repository_folder re_findall alg base_path root targets
  = Some (results, out) ->
  let tables := index_tag_tables results in
  let elements :=
    Summary.total_components (summary results)
    + PySum.sum_int (map tallied_files (projects results)) in
  Dict.total (all_tags tables) = elements
  /\ tally_total (all_namespace_tags tables) = elements
  /\ Dict.total (connector_tags tables) + Dict.total (excluded_tags tables)
     = elements.
Proof.
  intros Hrun. cbv zeta.
  destruct (tag_tables_totals results) as (H1 & H2 & H3).
  cbv zeta in H1, H2, H3. rewrite H1, H2, H3.
  assert (Hsum : Summary.total_components (summary results)
                 = PySum.sum_int
                     (map (fun p =>
                             total_components (connectors_and_components p))
                        (projects results))).
  { pose proof (run_summary _ _ _ _ _ _ _ Hrun) as Hs.
    rewrite summary_stats_fields in Hs.
    destruct (PySum.sum alg _); cbn [mbind option_bind] in Hs; [|discriminate].
    injection Hs as Hs. pose proof (f_equal summary Hs) as Hs'.
    cbn [summary] in Hs'. rewrite <- Hs'. reflexivity. }
  rewrite Hsum.
  assert (Hall : forall ps : list project_analysis,
            (forall p, In p ps ->
               PySum.sum_int
                 (map (fun e => tally_total (entry_tags e))
                    (files (configuration_files p)))
               = total_components (connectors_and_components p)
                 + tallied_files p) ->
            PySum.sum_int
              (map (fun p =>
                      PySum.sum_int
                        (map (fun e => tally_total (entry_tags e))
                           (files (configuration_files p))))
                 ps)
            = PySum.sum_int
                (map (fun p => total_components (connectors_and_components p))
                   ps)
              + PySum.sum_int (map tallied_files ps)).
  { induction ps as [|p ps IH]; intros H; cbn [map].
    - reflexivity.
    - rewrite !sum_int_cons, IH, (H p (or_introl eq_refl)); [lia|].
      intros q Hq. apply H. right. exact Hq. }
  assert (Hps : forall p, In p (projects results) ->
              PySum.sum_int
                (map (fun e => tally_total (entry_tags e))
                   (files (configuration_files p)))
              = total_components (connectors_and_components p)
                + tallied_files p).
  { intros p Hp.
    destruct (run_reports _ _ _ _ _ _ _ Hrun p Hp)
      as (path & item & _ & _ & _ & pf & a & o & name & source & _ & Ha & ->).
    exact (analyze_project_tag_usages re_findall _ _ _ _ Ha). }
  rewrite (Hall _ Hps). repeat split; reflexivity.
Qed.

Lemma X22_tag_tables_account_for_every_element_witness :
  let tables := index_tag_tables (results_of shop_tree) in
  let elements :=
    Summary.total_components (summary (results_of shop_tree))
    + PySum.sum_int (map tallied_files (projects (results_of shop_tree))) in
  Dict.total (all_tags tables) = elements
  /\ tally_total (all_namespace_tags tables) = elements
  /\ Dict.total (connector_tags tables) + Dict.total (excluded_tags tables)
     = elements.
Proof.
  apply (X22_tag_tables_account_for_every_element no_match LeftToRight
           ["repos"%string] shop_tree None (results_of shop_tree)
           (output_of shop_tree)).
  exact shop_run.
Defined.

(** A run can report two projects of the same name: the run on [twin_tree]
    reports [team-a/svc] and [team-b/svc], and the report with individual
    files leaves two JSON files, the summary and one [svc_analysis.json],
    which holds the project of [team-b]. *)
Example same_name_projects :
  map project_display_name (projects (results_of twin_tree))
  = [Some "team-a/svc"; Some "team-b/svc"]%string
  /\ map project_name (projects (results_of twin_tree))
     = ["svc"; "svc"]%string
  /\ Dict.keys
       (fst (generate_report LeftToRight true (results_of twin_tree) []))
     = ["mulesoft_analysis_analysis.json"; "svc_analysis.json"]%string
  /\ option_map
       (fun file =>
          match file with
          | ProjectReport report => overview_project_display_name report
          | _ => EmptyString
          end)
       (Dict.get "svc_analysis.json"
          (fst (generate_report LeftToRight true (results_of twin_tree) [])))
     = Some "team-b/svc"%string.
Proof. vm_compute. repeat split; reflexivity. Qed.
